(** * Skills assigner: scoring, composite expansion, resolution, summary

    A shallow embedding of [tools/skills/assign_skills.py]:
    [score_skill], [detect_composite_skills], [assign_skills_to_goal] and
    the usage summary of [generate_skills_map], with the properties the
    specification states about them; then [parse_goal_frontmatter],
    [write_goal_with_skills] and the loop and totals of [main], with
    further properties read off the code.

    Python values are modelled as follows.
    - [str] is [string]; [int] is [Z].
    - A [dict] is an association list in insertion order (iteration order
      matters for ranking); [Dict.wf] says its keys are pairwise distinct.
    - [d.get(k, default)] on an optional key is an [option] field: [None]
      is a key that is missing; a key that is present holds a value of the
      type the code expects.  A registry entry in which a key can also be
      present with a null value is a [YamlSkillDef], which
      [score_skill_yaml] scores.
    - An exception is the [Raise] branch of [result].
    - [str.lower], [re.search] and [json.dumps] are library functions: the
      program is written against the interface [PyLib], and [RefLib] is an
      executable instance for ASCII text. *)

From Stdlib Require Import List String Ascii Bool Arith ZArith Lia.
From Stdlib Require Import Permutation Sorted PrimFloat DecimalString.
Import ListNotations.

Set Warnings "-register-all".
Local Open Scope string_scope.
Local Open Scope list_scope.
Local Open Scope Z_scope.

(** String concatenation, kept apart from list append. *)
Infix "+++" := String.append (right associativity, at level 60).

(* ------------------------------------------------------------------ *)
(** ** Exceptions *)

Inductive exn : Type :=
| re_error (pattern : string)      (* re.error: the pattern does not compile *)
| KeyError (key : string)          (* d[key] on a missing key *)
| AttributeError                   (* None.get(...) *)
| TypeError.                       (* iterating None, or [x in None] *)

Inductive result (A : Type) : Type :=
| Ok (a : A)
| Raise (e : exn).

Arguments Ok {A} a.
Arguments Raise {A} e.

Definition bind {A B : Type} (m : result A) (f : A -> result B) : result B :=
  match m with
  | Ok a => f a
  | Raise e => Raise e
  end.

Notation "x <- m ;; k" := (bind m (fun x => k))
  (at level 61, m at next level, right associativity).
Notation "' pat <- m ;; k" := (bind m (fun x => match x with pat => k end))
  (at level 61, pat pattern, m at next level, right associativity).

(* ------------------------------------------------------------------ *)
(** ** Strings *)

Module Str.

(** [needle in hay]: [needle] occurs as a contiguous run of [hay]. *)
Fixpoint contains (needle hay : string) : bool :=
  if String.prefix needle hay then true
  else match hay with
       | EmptyString => false
       | String _ rest => contains needle rest
       end.

(** [hay.startswith(p)]. *)
Definition startswith (p hay : string) : bool := String.prefix p hay.

(** [sep.join(parts)]. *)
Fixpoint join (sep : string) (parts : list string) : string :=
  match parts with
  | [] => ""
  | [p] => p
  | p :: rest => p +++ sep +++ join sep rest
  end.

(** [str(n)] for an integer. *)
Definition of_Z (n : Z) : string := NilZero.string_of_int (Z.to_int n).

(** [x in xs] for a list of strings. *)
Definition mem (x : string) (xs : list string) : bool :=
  existsb (String.eqb x) xs.

(** ASCII case folding: [A]..[Z] to [a]..[z], every other byte kept. *)
Definition lower_ascii (c : ascii) : ascii :=
  let n := nat_of_ascii c in
  if (Nat.leb 65 n && Nat.leb n 90)%bool then ascii_of_nat (n + 32) else c.

Fixpoint lower (s : string) : string :=
  match s with
  | EmptyString => EmptyString
  | String c rest => String (lower_ascii c) (lower rest)
  end.

End Str.

(* ------------------------------------------------------------------ *)
(** ** JSON values, as [json.load] returns them *)

Inductive json : Type :=
| JNull
| JBool (b : bool)
| JInt (n : Z)
| JFloat (f : float)
| JStr (s : string)
| JArr (items : list json)
| JObj (members : list (string * json)).

(** Python truthiness [bool(v)] of a loaded value. *)
Definition truthy (v : json) : bool :=
  match v with
  | JNull => false
  | JBool b => b
  | JInt n => negb (n =? 0)
  | JFloat f => negb (PrimFloat.eqb f PrimFloat.zero)
  | JStr s => negb (String.eqb s "")
  | JArr items => match items with [] => false | _ => true end
  | JObj members => match members with [] => false | _ => true end
  end.

(* ------------------------------------------------------------------ *)
(** ** The library interface *)

Class PyLib : Type := {
  (** [s.lower()] *)
  str_lower : string -> string;
  (** [re.search(pattern, s)] as a truth value; raises [re.error] on a
      pattern that does not compile *)
  re_search : string -> string -> result bool;
  (** [json.dumps(v)] *)
  json_dumps : json -> string
}.

(* ------------------------------------------------------------------ *)
(** ** Dictionaries: association lists in insertion order *)

Module Dict.

Definition t (V : Type) : Type := list (string * V).

Definition keys {V} (d : t V) : list string := map fst d.

(** Keys of a dictionary are pairwise distinct. *)
Definition wf {V} (d : t V) : Prop := NoDup (keys d).

(** [d.get(k)] *)
Fixpoint get {V} (k : string) (d : t V) : option V :=
  match d with
  | [] => None
  | (k', v) :: rest => if String.eqb k k' then Some v else get k rest
  end.

(** [d[k] = v]: an existing key keeps its position, a new key goes last. *)
Fixpoint set {V} (k : string) (v : V) (d : t V) : t V :=
  match d with
  | [] => [(k, v)]
  | (k', v') :: rest =>
      if String.eqb k k' then (k', v) :: rest else (k', v') :: set k v rest
  end.

End Dict.

(** [opt or default] for a key read with [d.get(key, default)]. *)
Definition get_default {A} (o : option A) (default : A) : A :=
  match o with
  | Some a => a
  | None => default
  end.

(** [sorted(l, key=key, reverse=True)]: descending by [key], and stable
    (entries with equal keys keep their relative order). *)
Fixpoint insert_desc {A} (key : A -> Z) (x : A) (l : list A) : list A :=
  match l with
  | [] => [x]
  | y :: rest =>
      if key y <? key x then x :: y :: rest
      else y :: insert_desc key x rest
  end.

Definition sorted_desc {A} (key : A -> Z) (l : list A) : list A :=
  fold_left (fun acc x => insert_desc key x acc) l [].

(* ------------------------------------------------------------------ *)
(** ** The registry *)

Record Triggers : Type := mkTriggers {
  keywords : option (list string);
  goal_patterns : option (list string);
  file_types : option (list string);
  section_types : option (list string)
}.

(** The [{}] default of [skill_def.get("triggers", {})]. *)
Definition no_triggers : Triggers := mkTriggers None None None None.

Record SkillDef : Type := mkSkillDef {
  triggers : option Triggers;
  sd_path : option string
}.

Record CompositeDef : Type := mkCompositeDef {
  comp_triggers : option (list string);
  comp_skills : option (list string);
  comp_description : option string
}.

Record Registry : Type := mkRegistry {
  skills : option (Dict.t SkillDef);
  composites : option (Dict.t CompositeDef)
}.

(** What [score_skill] returns. *)
Record ScoreResult : Type := mkScoreResult {
  score : Z;
  reasons : list string
}.

(** An entry of [detect_composite_skills]'s result. *)
Record CompositeMatch : Type := mkCompositeMatch {
  c_name : string;
  c_skills : list string;
  c_description : string
}.

(** An entry of [assigned_skills]. *)
Record AssignedSkill : Type := mkAssignedSkill {
  name : string;
  path : option string;
  a_score : Z;
  a_reasons : list string;
  has_skill_file : bool
}.

(** The goal file's frontmatter: the keys the assigner reads or writes. *)
Record Frontmatter : Type := mkFrontmatter {
  title : option string;
  fm_skills : option (list string);
  fm_skill_paths : option (list string);
  fm_skills_assigned : option string
}.

(** What [assign_skills_to_goal] returns. *)
Record Assignment : Type := mkAssignment {
  goal : string;
  a_title : string;
  assigned_skills : list AssignedSkill;
  a_composites : list CompositeMatch;
  total_score : Z
}.

(** Truthiness of a path: [None] and the empty string are falsy. *)
Definition path_truthy (p : option string) : bool :=
  match p with
  | None => false
  | Some s => negb (String.eqb s "")
  end.

Definition is_some {A} (o : option A) : bool :=
  match o with Some _ => true | None => false end.

Definition nonempty {A} (l : list A) : bool :=
  match l with [] => false | _ => true end.

(* ------------------------------------------------------------------ *)
(** ** The scorer *)

Section Scorer.

Context {L : PyLib}.

(** [for kw in keywords: if kw.lower() in goal_lower: score += 1;
    keyword_hits.append(kw)] *)
Fixpoint keyword_loop (kws : list string) (goal_lower : string)
    (score : Z) (keyword_hits : list string) : Z * list string :=
  match kws with
  | [] => (score, keyword_hits)
  | kw :: rest =>
      if Str.contains (str_lower kw) goal_lower
      then keyword_loop rest goal_lower (score + 1) (keyword_hits ++ [kw])
      else keyword_loop rest goal_lower score keyword_hits
  end.

(** [for pattern in patterns: if re.search(pattern, name): score += 3;
    reasons.append(...); break] *)
Fixpoint pattern_loop (patterns : list string) (name_lower : string)
    (score : Z) (reasons : list string) : result (Z * list string) :=
  match patterns with
  | [] => Ok (score, reasons)
  | pattern :: rest =>
      m <- re_search pattern name_lower ;;
      if m : bool
      then Ok (score + 3, (reasons ++ ["goal pattern: " +++ pattern]))
      else pattern_loop rest name_lower score reasons
  end.

(** [for ft in file_types: if ft.lower() in section_str: score += 2;
    reasons.append(...); break] *)
Fixpoint file_type_loop (fts : list string) (section_str : string)
    (score : Z) (reasons : list string) : Z * list string :=
  match fts with
  | [] => (score, reasons)
  | ft :: rest =>
      if Str.contains (str_lower ft) section_str
      then (score + 2, (reasons ++ ["file type: " +++ ft]))
      else file_type_loop rest section_str score reasons
  end.

(** [sum(1 for kw in keywords if kw.lower() in section_text)] *)
Fixpoint section_keyword_count (kws : list string) (section_text : string) : Z :=
  match kws with
  | [] => 0
  | kw :: rest =>
      if Str.contains (str_lower kw) section_text
      then 1 + section_keyword_count rest section_text
      else section_keyword_count rest section_text
  end.

Definition score_skill (skill_name : string) (skill_def : SkillDef)
    (goal_text goal_name : string) (sdp_section : option json)
    : result ScoreResult :=
  let score := 0 in
  let reasons := [] in
  let triggers := get_default (triggers skill_def) no_triggers in
  (* 1. keyword matching *)
  let keywords := get_default (keywords triggers) [] in
  let goal_lower := str_lower goal_text in
  let '(score, keyword_hits) := keyword_loop keywords goal_lower score [] in
  let reasons :=
    if nonempty keyword_hits
    then reasons ++ ["keywords: " +++ Str.join ", " (firstn 5 keyword_hits)]
    else reasons in
  (* 2. goal pattern matching *)
  let patterns := get_default (goal_patterns triggers) [] in
  '(score, reasons) <- pattern_loop patterns (str_lower goal_name) score reasons ;;
  (* 3. file type matching from the section *)
  let file_types := get_default (file_types triggers) [] in
  let '(score, reasons) :=
    match sdp_section with
    | Some v =>
        if truthy v
        then let section_str := str_lower (json_dumps v) in
             file_type_loop file_types section_str score reasons
        else (score, reasons)
    | None => (score, reasons)
    end in
  (* 4. section type wildcard *)
  let section_types := get_default (section_types triggers) [] in
  let '(score, reasons) :=
    if (Str.mem "*" section_types && Str.startswith "build-" goal_name)%bool
    then (score + 2, reasons ++ ["applies to all build-* goals"])
    else (score, reasons) in
  (* 5. section content analysis *)
  let '(score, reasons) :=
    match sdp_section with
    | Some v =>
        if truthy v
        then let section_text := str_lower (json_dumps v) in
             let section_keyword_hits := section_keyword_count keywords section_text in
             if section_keyword_hits >? 2
             then (score + section_keyword_hits,
                   reasons ++ [Str.of_Z section_keyword_hits
                                 +++ " keyword hits in SDP section"])
             else (score, reasons)
        else (score, reasons)
    | None => (score, reasons)
    end in
  Ok (mkScoreResult score reasons).

End Scorer.

(* ------------------------------------------------------------------ *)
(** ** The composite matcher *)

Section CompositeMatcher.

Context {L : PyLib}.

(** [for pattern in comp_def.get("triggers", []): if re.search(pattern,
    goal_name.lower()) or re.search(pattern, goal_text.lower()): ...; break]:
    whether the loop reached its [break]. *)
Fixpoint trigger_loop (patterns : list string) (goal_name goal_text : string)
    : result bool :=
  match patterns with
  | [] => Ok false
  | pattern :: rest =>
      m1 <- re_search pattern (str_lower goal_name) ;;
      m <- (if m1 : bool then Ok true
            else re_search pattern (str_lower goal_text)) ;;
      if m : bool then Ok true else trigger_loop rest goal_name goal_text
  end.

(** [for comp_name, comp_def in composites.items(): ...] *)
Fixpoint composite_loop (items : list (string * CompositeDef))
    (goal_name goal_text : string) (matches : list CompositeMatch)
    : result (list CompositeMatch) :=
  match items with
  | [] => Ok matches
  | (comp_name, comp_def) :: rest =>
      hit <- trigger_loop (get_default (comp_triggers comp_def) [])
                          goal_name goal_text ;;
      if hit : bool
      then
        members <- match comp_skills comp_def with
                   | Some s => Ok s
                   | None => Raise (KeyError "skills")
                   end ;;
        composite_loop rest goal_name goal_text
          (matches ++ [mkCompositeMatch comp_name members
                         (get_default (comp_description comp_def) "")])
      else composite_loop rest goal_name goal_text matches
  end.

Definition detect_composite_skills (goal_name goal_text : string)
    (composites : Dict.t CompositeDef) : result (list CompositeMatch) :=
  composite_loop composites goal_name goal_text [].

End CompositeMatcher.

(* ------------------------------------------------------------------ *)
(** ** The assignment resolver *)

Section Resolver.

Context {L : PyLib}.

(** [for skill_name, skill_def in skills_config.items(): result =
    score_skill(...); if result["score"] > 0: scores[skill_name] = result] *)
Fixpoint scoring_loop (items : list (string * SkillDef))
    (goal_text goal_name : string) (sdp_section : option json)
    (scores : Dict.t ScoreResult) : result (Dict.t ScoreResult) :=
  match items with
  | [] => Ok scores
  | (skill_name, skill_def) :: rest =>
      r <- score_skill skill_name skill_def goal_text goal_name sdp_section ;;
      if score r >? 0
      then scoring_loop rest goal_text goal_name sdp_section
             (Dict.set skill_name r scores)
      else scoring_loop rest goal_text goal_name sdp_section scores
  end.

(** [for skill_name, result in sorted(...): if result["score"] >= 2:
    assigned_skills.append({...})] *)
Fixpoint primary_loop (ranked : list (string * ScoreResult))
    (skills_config : Dict.t SkillDef) (assigned_skills : list AssignedSkill)
    : result (list AssignedSkill) :=
  match ranked with
  | [] => Ok assigned_skills
  | (skill_name, r) :: rest =>
      if score r >=? 2
      then
        skill_def <- match Dict.get skill_name skills_config with
                     | Some d => Ok d
                     | None => Raise (KeyError skill_name)
                     end ;;
        let skill_path := sd_path skill_def in
        primary_loop rest skills_config
          (assigned_skills ++
             [mkAssignedSkill skill_name skill_path (score r) (reasons r)
                (is_some skill_path)])
      else primary_loop rest skills_config assigned_skills
  end.

(** [for comp_skill in comp["skills"]: if comp_skill not in [s["name"] for
    s in assigned_skills]: assigned_skills.append({...})] *)
Fixpoint member_loop (members : list string) (comp_name : string)
    (skills_config : Dict.t SkillDef) (assigned_skills : list AssignedSkill)
    : list AssignedSkill :=
  match members with
  | [] => assigned_skills
  | comp_skill :: rest =>
      if negb (Str.mem comp_skill (map name assigned_skills))
      then
        let skill_path :=
          match Dict.get comp_skill skills_config with
          | Some d => sd_path d
          | None => None
          end in
        member_loop rest comp_name skills_config
          (assigned_skills ++
             [mkAssignedSkill comp_skill skill_path 1
                ["composite: " +++ comp_name] (is_some skill_path)])
      else member_loop rest comp_name skills_config assigned_skills
  end.

(** [for comp in composite_matches: for comp_skill in comp["skills"]: ...] *)
Fixpoint expansion_loop (matches : list CompositeMatch)
    (skills_config : Dict.t SkillDef) (assigned_skills : list AssignedSkill)
    : list AssignedSkill :=
  match matches with
  | [] => assigned_skills
  | comp :: rest =>
      expansion_loop rest skills_config
        (member_loop (c_skills comp) (c_name comp) skills_config assigned_skills)
  end.

(** [sum(s["score"] for s in assigned_skills)] *)
Definition sum_scores (assigned_skills : list AssignedSkill) : Z :=
  fold_left (fun acc s => acc + a_score s) assigned_skills 0.

(** [[s["path"] for s in assigned_skills if s["path"]]] *)
Fixpoint truthy_paths (assigned_skills : list AssignedSkill) : list string :=
  match assigned_skills with
  | [] => []
  | s :: rest =>
      match path s with
      | Some p => if path_truthy (Some p) then p :: truthy_paths rest
                  else truthy_paths rest
      | None => truthy_paths rest
      end
  end.

(** The goal file is given by what is read from it: the stem of its path
    ([goal_name]) and the parsed [frontmatter] and [body]; [sdp_section] is
    the loaded section file, or [None] when there is none or it cannot be
    decoded; [today] is the date the clock gives.  The second component is
    what is written back to the goal file, if anything.  The list
    [skill_details], which the source fills and never reads, is left out. *)
Definition assign_skills_to_goal (goal_name : string)
    (frontmatter : Frontmatter) (body : string) (registry : Registry)
    (sdp_section : option json) (dry_run : bool) (today : string)
    : result (Assignment * option (Frontmatter * string)) :=
  let goal_text :=
    goal_name +++ " " +++ get_default (title frontmatter) "" +++ " " +++ body in
  (* score each skill *)
  let skills_config := get_default (skills registry) [] in
  scores <- scoring_loop skills_config goal_text goal_name sdp_section [] ;;
  (* check composite skills *)
  let composites := get_default (composites registry) [] in
  composite_matches <- detect_composite_skills goal_name goal_text composites ;;
  (* build the final skills list *)
  assigned_skills <-
    primary_loop (sorted_desc (fun x => score (snd x)) scores) skills_config [] ;;
  let assigned_skills :=
    expansion_loop composite_matches skills_config assigned_skills in
  (* write skills to goal frontmatter *)
  let written :=
    if (negb dry_run && nonempty assigned_skills)%bool
    then Some (mkFrontmatter (title frontmatter)
                 (Some (map name assigned_skills))
                 (Some (truthy_paths assigned_skills))
                 (Some today),
               body)
    else None in
  Ok (mkAssignment goal_name (get_default (title frontmatter) goal_name)
        assigned_skills composite_matches (sum_scores assigned_skills),
      written).

End Resolver.

(* ------------------------------------------------------------------ *)
(** ** The usage summary of [generate_skills_map] *)

Section Reporter.

(** [for skill in assignment["assigned_skills"]: name = skill["name"];
    skill_counts[name] = skill_counts.get(name, 0) + 1] *)
Fixpoint count_skills (entries : list AssignedSkill) (skill_counts : Dict.t Z)
    : Dict.t Z :=
  match entries with
  | [] => skill_counts
  | skill :: rest =>
      let name := name skill in
      count_skills rest
        (Dict.set name (get_default (Dict.get name skill_counts) 0 + 1)
           skill_counts)
  end.

(** [for assignment in assignments: ...] *)
Fixpoint count_assignments (assignments : list Assignment)
    (skill_counts : Dict.t Z) : Dict.t Z :=
  match assignments with
  | [] => skill_counts
  | assignment :: rest =>
      count_assignments rest
        (count_skills (assigned_skills assignment) skill_counts)
  end.

(** [any(s["path"] for a in assignments for s in a["assigned_skills"]
    if s["name"] == skill_name)] *)
Definition has_file (assignments : list Assignment) (skill_name : string)
    : bool :=
  existsb
    (fun a =>
       existsb
         (fun s => (String.eqb (name s) skill_name && path_truthy (path s))%bool)
         (assigned_skills a))
    assignments.

(** The rows of the "Skill Usage Summary" table, top to bottom: skill,
    number of goals, whether a skill file exists. *)
Definition skill_usage_summary (assignments : list Assignment)
    : list (string * Z * bool) :=
  let skill_counts := count_assignments assignments [] in
  map (fun '(skill_name, count) =>
         (skill_name, count, has_file assignments skill_name))
      (sorted_desc snd skill_counts).

End Reporter.

(* ------------------------------------------------------------------ *)
(** ** A reference library for ASCII text

    [Re] implements [re.search] for the fragment of the pattern syntax made
    of literal characters, [.], [^], [$], [*], [+], [?], [|], groups [( )]
    and backslash-escaped punctuation.  A pattern outside this fragment is
    rejected the way a malformed one is. *)

Module Re.

Inductive re : Type :=
| Empty
| Lit (c : ascii)
| AnyChar                 (* [.]: any character but a newline *)
| Bol                     (* [^]: at the start of the string *)
| Eol                     (* [$]: at the end, or before a final newline *)
| Seq (a b : re)
| Alt (a b : re)
| Star (a : re).

Definition newline : ascii := "010"%char.

Definition is_alnum (c : ascii) : bool :=
  let n := nat_of_ascii c in
  ((Nat.leb 48 n && Nat.leb n 57) || (Nat.leb 65 n && Nat.leb n 90)
   || (Nat.leb 97 n && Nat.leb n 122))%bool.

(** Characters that are not literals on their own in this fragment. *)
Definition is_special (c : ascii) : bool :=
  existsb (Ascii.eqb c)
    ["."; "^"; "$"; "*"; "+"; "?"; "{"; "}"; "["; "]"; "\"; "|"; "("; ")"]%char.

(** One postfix operator after a repeatable item; a second one ([**],
    [*+], [*?]) is outside the fragment. *)
Definition postfix (item : re) (s : list ascii) : option (re * list ascii) :=
  let after (e : re) (r : list ascii) :=
    match r with
    | c :: _ =>
        if existsb (Ascii.eqb c) ["*"; "+"; "?"]%char then None else Some (e, r)
    | [] => Some (e, r)
    end in
  match s with
  | "*"%char :: r => after (Star item) r
  | "+"%char :: r => after (Seq item (Star item)) r
  | "?"%char :: r => after (Alt item Empty) r
  | _ => Some (item, s)
  end.

(** Recursive descent: alternation, sequence, item.  [n] bounds the depth of
    the descent. *)
Fixpoint parse_alt (n : nat) (s : list ascii) : option (re * list ascii) :=
  match n with
  | O => None
  | S n' =>
      match parse_seq n' s with
      | Some (a, "|"%char :: r) =>
          match parse_alt n' r with
          | Some (b, r') => Some (Alt a b, r')
          | None => None
          end
      | other => other
      end
  end
with parse_seq (n : nat) (s : list ascii) : option (re * list ascii) :=
  match n with
  | O => None
  | S n' =>
      match s with
      | [] => Some (Empty, s)
      | "|"%char :: _ => Some (Empty, s)
      | ")"%char :: _ => Some (Empty, s)
      | _ =>
          match parse_item n' s with
          | Some (a, r) =>
              match parse_seq n' r with
              | Some (b, r') => Some (Seq a b, r')
              | None => None
              end
          | None => None
          end
      end
  end
with parse_item (n : nat) (s : list ascii) : option (re * list ascii) :=
  match n with
  | O => None
  | S n' =>
      match s with
      | [] => None
      | "("%char :: "?"%char :: _ => None
      | "("%char :: r =>
          match parse_alt n' r with
          | Some (e, ")"%char :: r') => postfix e r'
          | _ => None
          end
      | "\"%char :: c :: r =>
          if is_alnum c then None else postfix (Lit c) r
      | "."%char :: r => postfix AnyChar r
      | "^"%char :: r =>
          match r with
          | c :: _ =>
              if existsb (Ascii.eqb c) ["*"; "+"; "?"]%char then None
              else Some (Bol, r)
          | [] => Some (Bol, r)
          end
      | "$"%char :: r =>
          match r with
          | c :: _ =>
              if existsb (Ascii.eqb c) ["*"; "+"; "?"]%char then None
              else Some (Eol, r)
          | [] => Some (Eol, r)
          end
      | c :: r => if is_special c then None else postfix (Lit c) r
      end
  end.

Definition parse (pattern : string) : option re :=
  let s := list_ascii_of_string pattern in
  match parse_alt (3 * List.length s + 3) s with
  | Some (e, []) => Some e
  | _ => None
  end.

(** Backtracking matcher in continuation-passing style.  [bos] tells
    whether the position is the start of the string, [s] is what is left
    of it, and [k] is run where the match of [r] ends.  An iteration of a
    starred item must consume something. *)
Fixpoint matches (r : re) (k : bool -> list ascii -> bool)
    (bos : bool) (s : list ascii) {struct r} : bool :=
  match r with
  | Empty => k bos s
  | Lit c =>
      match s with
      | x :: s' => if Ascii.eqb x c then k false s' else false
      | [] => false
      end
  | AnyChar =>
      match s with
      | x :: s' => if Ascii.eqb x newline then false else k false s'
      | [] => false
      end
  | Bol => if bos then k bos s else false
  | Eol =>
      match s with
      | [] => k bos s
      | [x] => if Ascii.eqb x newline then k bos s else false
      | _ => false
      end
  | Seq a b => matches a (matches b k) bos s
  | Alt a b => (matches a k bos s || matches b k bos s)%bool
  | Star a =>
      (fix iterate (fuel : nat) (bos : bool) (s : list ascii) : bool :=
         (k bos s ||
          match fuel with
          | O => false
          | S fuel' =>
              matches a
                (fun bos' s' =>
                   if Nat.ltb (List.length s') (List.length s)
                   then iterate fuel' bos' s' else false)
                bos s
          end)%bool) (List.length s) bos s
  end.

(** Try every start position, left to right. *)
Fixpoint search_from (r : re) (bos : bool) (s : list ascii) : bool :=
  (matches r (fun _ _ => true) bos s ||
   match s with
   | [] => false
   | _ :: s' => search_from r false s'
   end)%bool.

Definition search (pattern s : string) : result bool :=
  match parse pattern with
  | Some r => Ok (search_from r true (list_ascii_of_string s))
  | None => Raise (re_error pattern)
  end.

End Re.

(** [Json.dumps] implements [json.dumps] with its default separators and
    [ensure_ascii]; the text of a float is Python's [repr], which is left
    as a parameter. *)

Module Json.

Definition quote_char : ascii := "034"%char.

Definition hex_digit (n : nat) : ascii :=
  if Nat.ltb n 10 then ascii_of_nat (48 + n) else ascii_of_nat (87 + n).

(** One character of a string literal: quote and backslash are escaped,
    the short escapes are used where JSON has them, and every other
    character outside [' '..'~'] becomes [\u00XX]. *)
Definition escape_char (c : ascii) : string :=
  let n := nat_of_ascii c in
  if Ascii.eqb c quote_char then String "\"%char (String quote_char "")
  else if Ascii.eqb c "\"%char then "\\"
  else if Nat.eqb n 10 then "\n"
  else if Nat.eqb n 13 then "\r"
  else if Nat.eqb n 9 then "\t"
  else if Nat.eqb n 8 then "\b"
  else if Nat.eqb n 12 then "\f"
  else if (Nat.ltb n 32 || Nat.ltb 126 n)%bool
       then "\u00" +++ String (hex_digit (n / 16)) (String (hex_digit (n mod 16)) "")
  else String c "".

Fixpoint escape (s : string) : string :=
  match s with
  | EmptyString => ""
  | String c rest => escape_char c +++ escape rest
  end.

Definition quote (s : string) : string :=
  String quote_char (escape s +++ String quote_char "").

Fixpoint dumps (float_repr : float -> string) (v : json) : string :=
  match v with
  | JNull => "null"
  | JBool true => "true"
  | JBool false => "false"
  | JInt n => Str.of_Z n
  | JFloat f => float_repr f
  | JStr s => quote s
  | JArr items =>
      "[" +++ Str.join ", " (map (dumps float_repr) items) +++ "]"
  | JObj members =>
      "{" +++ Str.join ", "
                (map (fun m => quote (fst m) +++ ": " +++ dumps float_repr (snd m))
                     members)
          +++ "}"
  end.

(** For payloads that hold no float: the text of one is never asked for. *)
Definition no_floats (f : float) : string := "".

End Json.

(** The reference library. *)
Definition RefLib (float_repr : float -> string) : PyLib :=
  {| str_lower := Str.lower;
     re_search := Re.search;
     json_dumps := Json.dumps float_repr |}.

(* ------------------------------------------------------------------ *)
(** ** Notions used to state the properties *)

(** [x] occurs before [y] in [l]. *)
Definition precedes {A} (x y : A) (l : list A) : Prop :=
  exists l1 l2 l3, l = l1 ++ x :: l2 ++ y :: l3.

(** Earlier entries have keys at least as large as later ones. *)
Definition descending {A} (key : A -> Z) (l : list A) : Prop :=
  StronglySorted (fun a b => key a >= key b) l.

(* ------------------------------------------------------------------ *)
(** ** The five signals of the scorer

    Each signal is the part of [score_skill] under one of its numbered
    comments, run from a zero score and an empty reason list;
    [score_skill_signals] shows that the score is their sum and the reason
    list their concatenation, in this order. *)

Section SignalDefs.

Context {L : PyLib}.

(** [kw.lower() in text] *)
Definition hits (text kw : string) : bool := Str.contains (str_lower kw) text.

(** Signal 1: one point per keyword entry found in the goal text. *)
Definition keyword_signal (kws : list string) (goal_text : string)
    : Z * list string :=
  let keyword_hits := filter (hits (str_lower goal_text)) kws in
  (Z.of_nat (List.length keyword_hits),
   if nonempty keyword_hits
   then ["keywords: " +++ Str.join ", " (firstn 5 keyword_hits)]
   else []).

(** Signal 2: three points for the first pattern found in the goal name. *)
Definition goal_pattern_signal (patterns : list string) (goal_name : string)
    : result (Z * list string) :=
  pattern_loop patterns (str_lower goal_name) 0 [].

(** Signal 3: two points for the first file type found in the payload. *)
Definition file_type_signal (fts : list string) (sdp_section : option json)
    : Z * list string :=
  match sdp_section with
  | Some v =>
      if truthy v then file_type_loop fts (str_lower (json_dumps v)) 0 []
      else (0, [])
  | None => (0, [])
  end.

(** Signal 4: two points for a wildcard section type on a build goal. *)
Definition wildcard_signal (sts : list string) (goal_name : string)
    : Z * list string :=
  if (Str.mem "*" sts && Str.startswith "build-" goal_name)%bool
  then (2, ["applies to all build-* goals"])
  else (0, []).

(** Signal 5: the number of keyword entries found in the payload, when
    it is above two. *)
Definition section_density_signal (kws : list string)
    (sdp_section : option json) : Z * list string :=
  match sdp_section with
  | Some v =>
      if truthy v
      then let n := section_keyword_count kws (str_lower (json_dumps v)) in
           if n >? 2
           then (n, [Str.of_Z n +++ " keyword hits in SDP section"])
           else (0, [])
      else (0, [])
  | None => (0, [])
  end.

End SignalDefs.

(* ------------------------------------------------------------------ *)
(** ** The parts of an assignment *)

(** [sub] is [l] with some of its entries left out. *)
Inductive subseq {A} : list A -> list A -> Prop :=
| subseq_nil : subseq [] []
| subseq_skip x sub l : subseq sub l -> subseq sub (x :: l)
| subseq_keep x sub l : subseq sub l -> subseq (x :: sub) (x :: l).

(** The members that are not in [seen], each at its first occurrence. *)
Fixpoint fresh (seen members : list string) : list string :=
  match members with
  | [] => []
  | m :: rest =>
      if Str.mem m seen then fresh seen rest
      else m :: fresh (seen ++ [m]) rest
  end.

(** The path the registry gives for a skill name, if any. *)
Definition registry_path (skills_config : Dict.t SkillDef) (skill : string)
    : option string :=
  match Dict.get skill skills_config with
  | Some d => sd_path d
  | None => None
  end.

(** The entry of a skill that passed the threshold with result [x]. *)
Definition primary_entry (skills_config : Dict.t SkillDef)
    (x : string * ScoreResult) : AssignedSkill :=
  mkAssignedSkill (fst x) (registry_path skills_config (fst x))
    (score (snd x)) (reasons (snd x))
    (is_some (registry_path skills_config (fst x))).

(** The entry of a skill that composite [comp_name] brings in. *)
Definition composite_entry (skills_config : Dict.t SkillDef)
    (comp_name skill : string) : AssignedSkill :=
  mkAssignedSkill skill (registry_path skills_config skill) 1
    ["composite: " +++ comp_name]
    (is_some (registry_path skills_config skill)).

(** The entries the matched composites bring in, given the names already
    assigned. *)
Fixpoint expansion_entries (matches : list CompositeMatch)
    (skills_config : Dict.t SkillDef) (seen : list string) : list AssignedSkill :=
  match matches with
  | [] => []
  | comp :: rest =>
      let added := fresh seen (c_skills comp) in
      map (composite_entry skills_config (c_name comp)) added
        ++ expansion_entries rest skills_config (seen ++ added)
  end.

Section ResolverNotions.

Context {L : PyLib}.

(** The scorer's result for every registry entry, in registry order. *)
Fixpoint score_all (items : list (string * SkillDef))
    (goal_text goal_name : string) (sdp_section : option json)
    : result (list (string * ScoreResult)) :=
  match items with
  | [] => Ok []
  | (skill_name, skill_def) :: rest =>
      r <- score_skill skill_name skill_def goal_text goal_name sdp_section ;;
      rs <- score_all rest goal_text goal_name sdp_section ;;
      Ok ((skill_name, r) :: rs)
  end.

(** The skill passes the threshold on its own score. *)
Definition qualifies (skills_config : Dict.t SkillDef)
    (goal_text goal_name : string) (sdp_section : option json)
    (skill : string) : Prop :=
  exists skill_def r,
    In (skill, skill_def) skills_config /\
    score_skill skill skill_def goal_text goal_name sdp_section = Ok r /\
    score r >= 2.

End ResolverNotions.

(** The skills that reach the threshold, ranked. *)
Definition ranked_primary (all : list (string * ScoreResult))
    : list (string * ScoreResult) :=
  filter (fun x => score (snd x) >=? 2)
    (sorted_desc (fun x => score (snd x))
       (filter (fun x => score (snd x) >? 0) all)).

(** Every pattern of the registry compiles, and every composite has its
    member list. *)
Definition registry_ok {L : PyLib} (registry : Registry) : Prop :=
  (forall skill skill_def pattern,
     In (skill, skill_def) (get_default (skills registry) []) ->
     In pattern
       (get_default (goal_patterns (get_default (triggers skill_def) no_triggers))
          []) ->
     forall s, exists b, re_search pattern s = Ok b) /\
  (forall comp comp_def pattern,
     In (comp, comp_def) (get_default (composites registry) []) ->
     In pattern (get_default (comp_triggers comp_def) []) ->
     forall s, exists b, re_search pattern s = Ok b) /\
  (forall comp comp_def,
     In (comp, comp_def) (get_default (composites registry) []) ->
     exists members, comp_skills comp_def = Some members).

(** The skill is a member of one of the matched composites. *)
Definition in_composite (matches : list CompositeMatch) (skill : string) : Prop :=
  exists comp, In comp matches /\ In skill (c_skills comp).

(** The text the scorer and the matcher are given for a goal. *)
Definition goal_text_of (goal_name : string) (frontmatter : Frontmatter)
    (body : string) : string :=
  goal_name +++ " " +++ get_default (title frontmatter) "" +++ " " +++ body.

(** The first component of a result, under [result]. *)
Definition result_fst {A B} (m : result (A * B)) : result A :=
  match m with
  | Ok (a, _) => Ok a
  | Raise e => Raise e
  end.

(* ------------------------------------------------------------------ *)
(** ** The examples of the specification *)

Definition example_lib : PyLib := RefLib Json.no_floats.

Definition frontend_design : SkillDef :=
  mkSkillDef
    (Some (mkTriggers (Some ["ui"; "component"; "dashboard"])
             (Some ["^build-.*dashboard"]) None (Some ["*"])))
    None.

Definition api_design : SkillDef :=
  mkSkillDef (Some (mkTriggers (Some ["endpoint"; "rest"; "api"]) None None None))
    None.

Definition full_stack_feature : CompositeDef :=
  mkCompositeDef (Some ["crud"])
    (Some ["frontend-design"; "api-design"; "database-design"]) None.

Definition example_registry : Registry :=
  mkRegistry
    (Some [("frontend-design", frontend_design); ("api-design", api_design)])
    (Some [("full-stack-feature", full_stack_feature)]).

(** A goal file [build-inventory-crud.md]. *)
Definition inventory_frontmatter : Frontmatter :=
  mkFrontmatter (Some "Build Inventory") None None None.

Definition inventory_body : string := "REST api for the stock list".

(** The goal file [build-dashboard.md]: title "Build Dashboard", empty body. *)
Definition dashboard_frontmatter : Frontmatter :=
  mkFrontmatter (Some "Build Dashboard") None None None.

(** The goal file [build-user-profile.md]: its body, and a frontmatter
    without a title. *)
Definition profile_body : string := "Simple profile page, no API calls.".

Definition no_frontmatter : Frontmatter := mkFrontmatter None None None None.

(** A registry with the one skill [api-design] and no composite. *)
Definition api_registry : Registry :=
  mkRegistry (Some [("api-design", api_design)]) None.

(** A skill whose keyword list repeats one keyword, and a payload that
    holds it. *)
Definition repeated_keywords_skill : SkillDef :=
  mkSkillDef (Some (mkTriggers (Some ["api"; "api"; "api"]) None None None)) None.

Definition kind_payload : json := JObj [("kind", JStr "api")].

(** Two assignments of a project. *)
Definition example_assignments : list Assignment :=
  [ mkAssignment "build-inventory-crud" "Build Inventory"
      [ mkAssignedSkill "frontend-design" (Some "skills/frontend-design/SKILL.md")
          3 ["keywords: ui"; "applies to all build-* goals"] true;
        mkAssignedSkill "api-design" None 2 ["keywords: rest, api"] false ]
      [] 5;
    mkAssignment "build-dashboard" "Build Dashboard"
      [ mkAssignedSkill "frontend-design" (Some "skills/frontend-design/SKILL.md")
          7 ["keywords: ui, dashboard"; "goal pattern: ^build-.*dashboard";
             "applies to all build-* goals"] true ]
      [] 7 ].

(** A registry whose one skill has an empty string for its path, and a
    goal file [build-docs.md] that it matches. *)
Definition docs_registry : Registry :=
  mkRegistry
    (Some [("docs",
            mkSkillDef (Some (mkTriggers (Some ["docs"; "readme"]) None None None))
              (Some ""))])
    None.

Definition docs_frontmatter : Frontmatter :=
  mkFrontmatter (Some "Docs") None None None.

Definition docs_body : string := "Write the readme.".

(* ------------------------------------------------------------------ *)
(** ** Counts in the words of the specification *)

(** The number of distinct keywords of the list found in [text]. *)
Definition distinct_keyword_hits {L : PyLib} (kws : list string) (text : string)
    : Z :=
  Z.of_nat (List.length (nodup string_dec (filter (hits text) kws))).

(** The count a dictionary of counts holds for a key, 0 when it has none:
    [skill_counts.get(name, 0)]. *)
Definition count_of (k : string) (d : Dict.t Z) : Z :=
  get_default (Dict.get k d) 0.

(** Every skill name of every assignment, in order, with repetitions. *)
Definition all_names (assignments : list Assignment) : list string :=
  flat_map (fun a => map name (assigned_skills a)) assignments.

(** The distinct goals whose assignment includes [skill]. *)
Definition goals_using (skill : string) (assignments : list Assignment)
    : list string :=
  nodup string_dec
    (map goal
       (filter (fun a => Str.mem skill (map name (assigned_skills a)))
          assignments)).

(* ------------------------------------------------------------------ *)
(** ** The goal file

    [parse_goal_frontmatter] and [write_goal_with_skills] on the content of
    the file.  [yaml.safe_load] and [yaml.dump] are library functions,
    behind the interface [YamlLib]; a document that loads is a mapping or
    is empty. *)

Module Text.

(** A line feed. *)
Definition nl : string := String "010"%char "".

(** [s] without its first [n] characters. *)
Fixpoint drop (n : nat) (s : string) : string :=
  match n, s with
  | O, _ => s
  | S n', String _ rest => drop n' rest
  | S _, EmptyString => EmptyString
  end.

(** The text before and after the leftmost occurrence of [sep]. *)
Fixpoint find_split (sep s : string) : option (string * string) :=
  if String.prefix sep s
  then Some ("", drop (String.length sep) s)
  else match s with
       | EmptyString => None
       | String c rest =>
           match find_split sep rest with
           | Some (before, after) => Some (String c before, after)
           | None => None
           end
       end.

(** [s.split(sep, maxsplit)] for a separator that is not empty. *)
Fixpoint split (sep : string) (maxsplit : nat) (s : string) : list string :=
  match maxsplit with
  | O => [s]
  | S n =>
      match find_split sep s with
      | Some (before, after) => before :: split sep n after
      | None => [s]
      end
  end.

(** The characters [str.strip] removes from ASCII text. *)
Definition is_space (c : ascii) : bool :=
  let n := nat_of_ascii c in
  ((Nat.leb 9 n && Nat.leb n 13) || (Nat.leb 28 n && Nat.leb n 32))%bool.

Fixpoint lstrip (s : string) : string :=
  match s with
  | EmptyString => EmptyString
  | String c rest => if is_space c then lstrip rest else s
  end.

Fixpoint rstrip (s : string) : string :=
  match s with
  | EmptyString => EmptyString
  | String c rest =>
      match rstrip rest with
      | EmptyString => if is_space c then EmptyString else String c EmptyString
      | kept => String c kept
      end
  end.

(** [s.strip()] *)
Definition strip (s : string) : string := lstrip (rstrip s).

End Text.

Class YamlLib : Type := {
  (** [yaml.safe_load(text)]: [None] when it raises [yaml.YAMLError],
      [Some None] for a document that is empty or falsy, [Some (Some fm)]
      for a mapping *)
  yaml_safe_load : string -> option (option Frontmatter);
  (** [yaml.dump(frontmatter, default_flow_style=False, sort_keys=False)] *)
  yaml_dump : Frontmatter -> string
}.

Section GoalFile.

Context {L : PyLib} {Y : YamlLib}.

(** The frontmatter and the body of a goal file, from its content. *)
Definition parse_goal_frontmatter (content : string) : Frontmatter * string :=
  let frontmatter := mkFrontmatter None None None None in
  let body := content in
  if Str.startswith "---" content
  then
    let parts := Text.split "---" 2 content in
    if Nat.leb 3 (List.length parts)
    then
      let frontmatter :=
        match yaml_safe_load (nth 1 parts "") with
        | Some (Some loaded) => loaded
        | Some None => mkFrontmatter None None None None
        | None => mkFrontmatter None None None None
        end in
      (frontmatter, nth 2 parts "")
    else (frontmatter, body)
  else (frontmatter, body).

(** The content [write_goal_with_skills] writes. *)
Definition write_goal_with_skills (frontmatter : Frontmatter) (body : string)
    : string :=
  let fm_str := Text.strip (yaml_dump frontmatter) in
  "---" +++ Text.nl +++ fm_str +++ Text.nl +++ "---" +++ body.

(** [assign_skills_to_goal] on the goal file itself: the content is parsed,
    the skills are assigned, and the second component is the content that
    is written back, if any. *)
Definition assign_skills_to_goal_file (goal_name content : string)
    (registry : Registry) (sdp_section : option json) (dry_run : bool)
    (today : string) : result (Assignment * option string) :=
  let '(frontmatter, body) := parse_goal_frontmatter content in
  '(r, written) <- assign_skills_to_goal goal_name frontmatter body registry
                     sdp_section dry_run today ;;
  Ok (r, match written with
         | Some (frontmatter', body') =>
             Some (write_goal_with_skills frontmatter' body')
         | None => None
         end).

(** A goal of the project: the stem of its file, the content of the file,
    and its section file, loaded, if there is one. *)
Record GoalFile : Type := mkGoalFile {
  gf_name : string;
  gf_content : string;
  gf_section : option json
}.

(** The loop of [main] over the goal files: [for goal_path in goal_files:
    result = assign_skills_to_goal(...); assignments.append(result)].  The
    second component lists the files written, by goal, in order. *)
Fixpoint process_goals (goal_files : list GoalFile) (registry : Registry)
    (dry_run : bool) (today : string) (assignments : list Assignment)
    (files : list (string * string))
    : result (list Assignment * list (string * string)) :=
  match goal_files with
  | [] => Ok (assignments, files)
  | goal_file :: rest =>
      '(r, written) <- assign_skills_to_goal_file (gf_name goal_file)
                         (gf_content goal_file) registry (gf_section goal_file)
                         dry_run today ;;
      process_goals rest registry dry_run today (assignments ++ [r])
        (match written with
         | Some content => files ++ [(gf_name goal_file, content)]
         | None => files
         end)
  end.

End GoalFile.

(** [sum(len(a["assigned_skills"]) for a in assignments)] of [main]. *)
Definition total_assignments (assignments : list Assignment) : Z :=
  fold_left (fun acc a => acc + Z.of_nat (List.length (assigned_skills a)))
    assignments 0.

(** [sum(1 for a in assignments if a["assigned_skills"])] of [main]. *)
Definition goals_with_skills (assignments : list Assignment) : Z :=
  fold_left (fun acc a => if nonempty (assigned_skills a) then acc + 1 else acc)
    assignments 0.

(** A library that dumps and loads the title alone, for the examples. *)
Definition title_dump (frontmatter : Frontmatter) : string :=
  match title frontmatter with
  | Some t => "title: " +++ t +++ Text.nl
  | None => "{}" +++ Text.nl
  end.

Definition title_load (text : string) : option (option Frontmatter) :=
  let line := Text.strip text in
  if Str.startswith "title: " line
  then Some (Some (mkFrontmatter
                     (Some (String.substring 7 (String.length line - 7) line))
                     None None None))
  else if String.eqb line "{}" then Some None
  else None.

Definition TitleYaml : YamlLib :=
  {| yaml_safe_load := title_load; yaml_dump := title_dump |}.

(** A signal is not negative, is zero exactly when it gives no reason, and
    gives at most one reason. *)
Definition signal_shape (x : Z * list string) : Prop :=
  0 <= fst x /\ (fst x = 0 <-> snd x = []) /\ (List.length (snd x) <= 1)%nat.

(** The keywords of a skill definition, as the scorer reads them. *)
Definition keywords_of (skill_def : SkillDef) : list string :=
  get_default (keywords (get_default (triggers skill_def) no_triggers)) [].

(** A composite that matches every goal with "crud" in its name or text and
    has no member list. *)
Definition broken_composites : Dict.t CompositeDef :=
  [("full-stack-feature", mkCompositeDef (Some ["crud"]) None None)].

(** The frontmatter that [yaml.safe_load(text) or {}] gives, an empty one
    when the text does not load. *)
Definition loaded_or_empty {Y : YamlLib} (text : string) : Frontmatter :=
  match yaml_safe_load text with
  | Some (Some loaded) => loaded
  | _ => mkFrontmatter None None None None
  end.

(** A goal file with a frontmatter block, and a marker in its body. *)
Definition dashboard_block : string :=
  Text.nl +++ "title: Build Dashboard" +++ Text.nl.

Definition dashboard_text : string :=
  Text.nl +++ "# Build Dashboard" +++ Text.nl +++ "---" +++ Text.nl +++ "notes".

Definition dashboard_file : string :=
  "---" +++ dashboard_block +++ "---" +++ dashboard_text.

(** The sum of a list of integers. *)
Definition sum_Z (l : list Z) : Z := fold_right Z.add 0 l.

(** The goal files of a small project. *)
Definition inventory_file : string :=
  "---" +++ Text.nl +++ "title: Build Inventory" +++ Text.nl +++ "---"
        +++ Text.nl +++ "REST api for the stock list".

Definition example_goal_files : list GoalFile :=
  [ mkGoalFile "build-dashboard" dashboard_file None;
    mkGoalFile "build-inventory-crud" inventory_file None ].

(** [r] is the assignment that the run on the one goal file returns. *)
Definition goal_result {L : PyLib} {Y : YamlLib} (registry : Registry) (dry_run : bool) (today : string)
    (goal_file : GoalFile) (r : Assignment) : Prop :=
  exists w,
    assign_skills_to_goal_file (gf_name goal_file) (gf_content goal_file)
      registry (gf_section goal_file) dry_run today = Ok (r, w).

(** A registry whose composite has no member list, and a project whose
    second goal matches it. *)
Definition broken_registry : Registry :=
  mkRegistry (skills example_registry) (Some broken_composites).

(* ------------------------------------------------------------------ *)
(** ** A registry entry as [yaml.safe_load] gives it

    In the mapping that [load_registry] returns a key is absent, or present
    with a null value ([triggers:] with nothing after it loads as [None]),
    or present with a value.  [dict.get(key, default)] gives the default for
    an absent key only, so a null value reaches the code that follows. *)

Inductive yaml_key (A : Type) : Type :=
| Absent
| Null
| Present (a : A).

Arguments Absent {A}.
Arguments Null {A}.
Arguments Present {A} a.

(** [d.get(key, default)]; the result [None] is Python's [None]. *)
Definition yaml_get {A} (k : yaml_key A) (default : A) : option A :=
  match k with
  | Absent => Some default
  | Null => None
  | Present a => Some a
  end.






Section YamlScorer.

Context {L : PyLib}.


End YamlScorer.


Definition is_null {A} (k : yaml_key A) : bool :=
  match k with
  | Null => true
  | _ => false
  end.






(* ------------------------------------------------------------------ *)
(** ** The loop of [main] and the state it leaves *)

Section MainLoop.

Context {L : PyLib} {Y : YamlLib}.

(** The loop of [main] over the goal files, with what it leaves behind: the
    assignments collected, the files written, and the exception that ended
    the loop, if one did.  Nothing handles an exception of
    [assign_skills_to_goal], so the loop stops at the goal that raises. *)
Fixpoint main_loop (goal_files : list GoalFile) (registry : Registry)
    (dry_run : bool) (today : string) (assignments : list Assignment)
    (files : list (string * string))
    : list Assignment * list (string * string) * option exn :=
  match goal_files with
  | [] => (assignments, files, None)
  | goal_file :: rest =>
      match assign_skills_to_goal_file (gf_name goal_file)
              (gf_content goal_file) registry (gf_section goal_file)
              dry_run today with
      | Ok (r, written) =>
          main_loop rest registry dry_run today (assignments ++ [r])
            (match written with
             | Some content => files ++ [(gf_name goal_file, content)]
             | None => files
             end)
      | Raise e => (assignments, files, Some e)
      end
  end.

End MainLoop.

(** A project of three goals; with [broken_registry] the second one
    raises. *)
Definition profile_file : string :=
  "---" +++ Text.nl +++ "title: Build Profile" +++ Text.nl +++ "---"
        +++ Text.nl +++ "A page with a form".

Definition three_goal_files : list GoalFile :=
  example_goal_files ++ [mkGoalFile "build-profile" profile_file None].

(* ------------------------------------------------------------------ *)
(** ** A YAML library for the four keys of the frontmatter

    [block_dump] writes the keys that are set, in the order the assigner
    sets them, lists in block style; [block_load] reads that text back. *)

Definition block_list (key : string) (l : option (list string)) : string :=
  match l with
  | None => ""
  | Some [] => key +++ ": []" +++ Text.nl
  | Some items =>
      key +++ ":" +++ Text.nl
          +++ String.concat "" (map (fun x => "- " +++ x +++ Text.nl) items)
  end.

Definition block_dump (frontmatter : Frontmatter) : string :=
  match frontmatter with
  | mkFrontmatter None None None None => "{}" +++ Text.nl
  | _ =>
      match title frontmatter with
      | Some t => "title: " +++ t +++ Text.nl
      | None => ""
      end
      +++ block_list "skills" (fm_skills frontmatter)
      +++ block_list "skill_paths" (fm_skill_paths frontmatter)
      +++ match fm_skills_assigned frontmatter with
          | Some d => "skills_assigned: '" +++ d +++ "'" +++ Text.nl
          | None => ""
          end
  end.

(** The text between the quotes of a quoted scalar. *)
Definition unquote (s : string) : string :=
  if Str.startswith "'" s
  then String.substring 1 (String.length s - 2) s
  else s.

(** One line of the block: the frontmatter read so far and the key of the
    list that is open. *)
Definition block_line (line : string)
    (state : option (Frontmatter * option string))
    : option (Frontmatter * option string) :=
  match state with
  | None => None
  | Some (fm, open) =>
      if Str.startswith "title: " line
      then Some (mkFrontmatter (Some (Text.drop 7 line)) (fm_skills fm)
                   (fm_skill_paths fm) (fm_skills_assigned fm), None)
      else if String.eqb line "skills: []"
      then Some (mkFrontmatter (title fm) (Some []) (fm_skill_paths fm)
                   (fm_skills_assigned fm), None)
      else if String.eqb line "skills:"
      then Some (mkFrontmatter (title fm) (Some []) (fm_skill_paths fm)
                   (fm_skills_assigned fm), Some "skills")
      else if String.eqb line "skill_paths: []"
      then Some (mkFrontmatter (title fm) (fm_skills fm) (Some [])
                   (fm_skills_assigned fm), None)
      else if String.eqb line "skill_paths:"
      then Some (mkFrontmatter (title fm) (fm_skills fm) (Some [])
                   (fm_skills_assigned fm), Some "skill_paths")
      else if Str.startswith "skills_assigned: " line
      then Some (mkFrontmatter (title fm) (fm_skills fm) (fm_skill_paths fm)
                   (Some (unquote (Text.drop 17 line))), None)
      else if Str.startswith "- " line
      then match open with
           | Some key =>
               if String.eqb key "skills"
               then Some (mkFrontmatter (title fm)
                            (Some (get_default (fm_skills fm) []
                                     ++ [Text.drop 2 line]))
                            (fm_skill_paths fm) (fm_skills_assigned fm), open)
               else Some (mkFrontmatter (title fm) (fm_skills fm)
                            (Some (get_default (fm_skill_paths fm) []
                                     ++ [Text.drop 2 line]))
                            (fm_skills_assigned fm), open)
           | None => None
           end
      else None
  end.

Definition block_load (text : string) : option (option Frontmatter) :=
  let block := Text.strip text in
  if (String.eqb block "" || String.eqb block "{}")%bool then Some None
  else
    match fold_left (fun state line => block_line line state)
            (Text.split Text.nl (String.length block) block)
            (Some (mkFrontmatter None None None None, None)) with
    | Some (fm, _) => Some (Some fm)
    | None => None
    end.

Definition BlockYaml : YamlLib :=
  {| yaml_safe_load := block_load; yaml_dump := block_dump |}.

(* ================================================================== *)
(** * Properties *)

(* ------------------------------------------------------------------ *)
(** ** Lists *)

Lemma mem_In (x : string) (xs : list string) : Str.mem x xs = true <-> In x xs.
Proof.
  unfold Str.mem. rewrite existsb_exists. split.
  - intros [y [Hy He]]. apply String.eqb_eq in He. now subst.
  - intros H. exists x. split; [assumption | apply String.eqb_refl].
Qed.

Lemma mem_not_In (x : string) (xs : list string) :
  Str.mem x xs = false <-> ~ In x xs.
Proof.
  rewrite <- mem_In. destruct (Str.mem x xs); split; congruence.
Qed.

Lemma filter_none {A} (f : A -> bool) (l : list A) :
  (forall a, In a l -> f a = false) -> filter f l = [].
Proof.
  induction l as [|a l IH]; simpl; intros H.
  - reflexivity.
  - rewrite (H a (or_introl eq_refl)). apply IH. intros b Hb. apply H. now right.
Qed.


Lemma precedes_cons {A} (a x y : A) l :
  precedes x y l -> precedes x y (a :: l).
Proof.
  intros (l1 & l2 & l3 & ->). now exists (a :: l1), l2, l3.
Qed.

Lemma precedes_head {A} (x y : A) l : In y l -> precedes x y (x :: l).
Proof.
  intros H. apply in_split in H as (l2 & l3 & ->). now exists [], l2, l3.
Qed.

Lemma precedes_cons_inv {A} (a x y : A) l :
  precedes x y (a :: l) -> (a = x /\ In y l) \/ precedes x y l.
Proof.
  intros (l1 & l2 & l3 & E). destruct l1 as [|b l1]; simpl in E.
  - injection E as -> ->. left. split; [reflexivity|].
    apply in_or_app. right. now left.
  - injection E as -> ->. right. now exists l1, l2, l3.
Qed.

Lemma precedes_map {A B} (f : A -> B) (x y : A) l :
  precedes x y l -> precedes (f x) (f y) (map f l).
Proof.
  intros (l1 & l2 & l3 & ->). exists (map f l1), (map f l2), (map f l3).
  now rewrite !map_app, !map_cons, !map_app, !map_cons.
Qed.

Lemma precedes_filter {A} (f : A -> bool) (x y : A) l :
  precedes x y l -> f x = true -> f y = true -> precedes x y (filter f l).
Proof.
  intros (l1 & l2 & l3 & ->) Hx Hy.
  exists (filter f l1), (filter f l2), (filter f l3).
  rewrite filter_app. simpl. rewrite Hx, filter_app. simpl. now rewrite Hy.
Qed.

Lemma precedes_filter_inv {A} (f : A -> bool) (x y : A) l :
  precedes x y (filter f l) -> precedes x y l.
Proof.
  induction l as [|a l IH]; simpl.
  - intros (l1 & l2 & l3 & E). now destruct l1.
  - destruct (f a).
    + intros H. apply precedes_cons_inv in H as [[-> Hy] | H].
      * apply precedes_head. apply filter_In in Hy. tauto.
      * apply precedes_cons. auto.
    + intros H. apply precedes_cons. auto.
Qed.

(* ------------------------------------------------------------------ *)
(** ** [sorted_desc]: a stable descending sort *)

Section Sorting.

Context {A : Type} (key : A -> Z).


Lemma insert_desc_In x l y : In y (insert_desc key x l) <-> y = x \/ In y l.
Proof.
  induction l as [|a l IH]; simpl.
  - intuition.
  - destruct (key a <? key x); simpl; [intuition | rewrite IH; intuition].
Qed.

Lemma insert_desc_perm x l : Permutation (x :: l) (insert_desc key x l).
Proof.
  induction l as [|a l IH]; simpl.
  - reflexivity.
  - destruct (key a <? key x).
    + reflexivity.
    + rewrite perm_swap. now constructor.
Qed.

Lemma insert_desc_descending x l :
  descending key l -> descending key (insert_desc key x l).
Proof.
  unfold descending. induction 1 as [|a l Hl IH Ha]; simpl.
  - repeat constructor.
  - destruct (key a <? key x) eqn:E.
    + apply Z.ltb_lt in E. constructor.
      * now constructor.
      * constructor; [lia|]. rewrite Forall_forall in *. intros b Hb.
        specialize (Ha b Hb). lia.
    + apply Z.ltb_ge in E. constructor; [assumption|].
      rewrite Forall_forall in *. intros b Hb.
      apply insert_desc_In in Hb as [-> | Hb]; [lia | auto].
Qed.

(** Inserting [x] puts it after every entry that has its key. *)
Lemma insert_desc_filter x l k :
  descending key l ->
  filter (fun a => key a =? k) (insert_desc key x l) =
  filter (fun a => key a =? k) l ++ (if key x =? k then [x] else []).
Proof.
  unfold descending. induction 1 as [|a l Hl IH Ha]; simpl.
  - reflexivity.
  - destruct (key a <? key x) eqn:E; simpl.
    + apply Z.ltb_lt in E.
      destruct (key x =? k) eqn:Ex.
      * apply Z.eqb_eq in Ex.
        assert (Hn : filter (fun a => key a =? k) (a :: l) = []).
        { apply filter_none. intros b [<- | Hb]; apply Z.eqb_neq.
          - lia.
          - rewrite Forall_forall in Ha. specialize (Ha b Hb). lia. }
        simpl in Hn. now rewrite Hn.
      * now rewrite app_nil_r.
    + rewrite IH. now destruct (key a =? k).
Qed.

End Sorting.

Section SortedDesc.

Context {A : Type} (key : A -> Z).

Local Abbreviation ins := (fun (acc : list A) (x : A) => insert_desc key x acc).


Lemma fold_insert_descending l acc :
  descending key acc -> descending key (fold_left ins l acc).
Proof.
  revert acc. induction l as [|x l IH]; simpl; intros acc H.
  - assumption.
  - apply IH. now apply insert_desc_descending.
Qed.

Lemma fold_insert_perm l acc : Permutation (acc ++ l) (fold_left ins l acc).
Proof.
  revert acc. induction l as [|x l IH]; simpl; intros acc.
  - now rewrite app_nil_r.
  - rewrite <- IH. rewrite <- insert_desc_perm.
    now rewrite <- Permutation_middle.
Qed.

Lemma fold_insert_filter l acc k :
  descending key acc ->
  filter (fun a => key a =? k) (fold_left ins l acc) =
  filter (fun a => key a =? k) acc ++ filter (fun a => key a =? k) l.
Proof.
  revert acc. induction l as [|x l IH]; simpl; intros acc H.
  - now rewrite app_nil_r.
  - rewrite IH by now apply insert_desc_descending.
    rewrite insert_desc_filter by assumption.
    rewrite <- app_assoc. now destruct (key x =? k).
Qed.

Lemma sorted_desc_descending l : descending key (sorted_desc key l).
Proof. apply fold_insert_descending. constructor. Qed.

Lemma sorted_desc_perm l : Permutation l (sorted_desc key l).
Proof. apply (fold_insert_perm l []). Qed.

Lemma sorted_desc_In x l : In x (sorted_desc key l) <-> In x l.
Proof.
  split; intros H.
  - eapply Permutation_in; [symmetry; apply sorted_desc_perm | exact H].
  - eapply Permutation_in; [apply sorted_desc_perm | exact H].
Qed.

(** Stability: among the entries with one key, the order is unchanged. *)
Lemma sorted_desc_stable l k :
  filter (fun a => key a =? k) (sorted_desc key l) =
  filter (fun a => key a =? k) l.
Proof. apply (fold_insert_filter l [] k). constructor. Qed.

Lemma descending_precedes l x y :
  descending key l -> precedes x y l -> key x >= key y.
Proof.
  induction 1 as [|a l Hl IH Ha]; intros H.
  - destruct H as (l1 & l2 & l3 & E). now destruct l1.
  - apply precedes_cons_inv in H as [[-> Hy] | H].
    + rewrite Forall_forall in Ha. auto.
    + auto.
Qed.

Lemma sorted_desc_precedes_stable l x y :
  precedes x y (sorted_desc key l) -> key x = key y -> precedes x y l.
Proof.
  intros H E.
  apply (precedes_filter_inv (fun a => key a =? key x)).
  rewrite <- sorted_desc_stable.
  apply precedes_filter; [assumption | apply Z.eqb_refl | now apply Z.eqb_eq].
Qed.

End SortedDesc.

(* ------------------------------------------------------------------ *)
(** ** The score is the sum of the signals *)

Section Signals.

Context {L : PyLib}.

Lemma keyword_loop_spec kws goal_lower s hs :
  keyword_loop kws goal_lower s hs =
  (s + Z.of_nat (List.length (filter (hits goal_lower) kws)),
   hs ++ filter (hits goal_lower) kws).
Proof.
  revert s hs. induction kws as [|kw kws IH]; simpl; intros s hs.
  - now rewrite Z.add_0_r, app_nil_r.
  - change (Str.contains (str_lower kw) goal_lower) with (hits goal_lower kw).
    destruct (hits goal_lower kw).
    + rewrite IH, <- app_assoc. simpl. f_equal. lia.
    + apply IH.
Qed.

Lemma pattern_loop_shift ps n s rs :
  pattern_loop ps n s rs =
  ('(g, rg) <- pattern_loop ps n 0 [] ;; Ok (s + g, rs ++ rg)).
Proof.
  induction ps as [|p ps IH]; simpl.
  - now rewrite Z.add_0_r, app_nil_r.
  - destruct (re_search p n) as [[|]|e]; simpl; [reflexivity | exact IH | reflexivity].
Qed.

Lemma file_type_loop_shift fts text s rs :
  file_type_loop fts text s rs =
  (s + fst (file_type_loop fts text 0 []),
   rs ++ snd (file_type_loop fts text 0 [])).
Proof.
  induction fts as [|ft fts IH]; simpl.
  - now rewrite Z.add_0_r, app_nil_r.
  - destruct (Str.contains (str_lower ft) text); [reflexivity | exact IH].
Qed.

Lemma section_keyword_count_spec kws text :
  section_keyword_count kws text =
  Z.of_nat (List.length (filter (hits text) kws)).
Proof.
  induction kws as [|kw kws IH]; [reflexivity|].
  cbn [section_keyword_count filter].
  change (Str.contains (str_lower kw) text) with (hits text kw).
  destruct (hits text kw); rewrite IH; cbn [List.length]; lia.
Qed.

(** The score is the sum of the five signals; the reasons are theirs, in
    the order of the signals. *)
Lemma score_skill_signals skill_name skill_def goal_text goal_name sdp_section :
  score_skill skill_name skill_def goal_text goal_name sdp_section =
  let t := get_default (triggers skill_def) no_triggers in
  let kws := get_default (keywords t) [] in
  let k := keyword_signal kws goal_text in
  g <- goal_pattern_signal (get_default (goal_patterns t) []) goal_name ;;
  let f := file_type_signal (get_default (file_types t) []) sdp_section in
  let w := wildcard_signal (get_default (section_types t) []) goal_name in
  let s := section_density_signal kws sdp_section in
  Ok (mkScoreResult (fst k + fst g + fst f + fst w + fst s)
        (snd k ++ snd g ++ snd f ++ snd w ++ snd s)).
Proof.
  unfold score_skill, goal_pattern_signal, keyword_signal.
  cbv zeta. rewrite keyword_loop_spec. simpl fst. simpl snd.
  set (t := get_default (triggers skill_def) no_triggers).
  set (kws := filter _ _).
  rewrite pattern_loop_shift.
  destruct (pattern_loop _ _ 0 []) as [[g rg]|e]; simpl; [|reflexivity].
  unfold file_type_signal, wildcard_signal, section_density_signal.
  destruct sdp_section as [v|]; [destruct (truthy v)|].
  - rewrite file_type_loop_shift.
    destruct (file_type_loop _ _ 0 []) as [f rf]. simpl.
    destruct (_ && _)%bool; simpl;
      destruct (_ >? 2); simpl; f_equal; f_equal;
      rewrite ?app_nil_r, <- ?app_assoc; try reflexivity; try lia.
  - destruct (_ && _)%bool; simpl; f_equal; f_equal;
      rewrite ?app_nil_r, <- ?app_assoc; try reflexivity; try lia.
  - destruct (_ && _)%bool; simpl; f_equal; f_equal;
      rewrite ?app_nil_r, <- ?app_assoc; try reflexivity; try lia.
Qed.

End Signals.

Section SignalFacts.

Context {L : PyLib}.


(** At most one pattern counts. *)
Lemma goal_pattern_signal_cases ps goal_name g rg :
  goal_pattern_signal ps goal_name = Ok (g, rg) ->
  (g = 0 /\ rg = []) \/
  (g = 3 /\ exists p, In p ps /\ rg = ["goal pattern: " +++ p]).
Proof.
  unfold goal_pattern_signal. induction ps as [|p ps IH]; simpl.
  - intros [= <- <-]. now left.
  - destruct (re_search p (str_lower goal_name)) as [[|]|e]; simpl.
    + intros [= <- <-]. right. split; [reflexivity|]. exists p. auto.
    + intros H. destruct (IH H) as [? | [? (q & ? & ?)]]; [now left|].
      right. split; [assumption|]. exists q. auto.
    + discriminate.
Qed.

(** The only exception of the pattern loop is that of a pattern. *)
Lemma goal_pattern_signal_raise ps goal_name e :
  goal_pattern_signal ps goal_name = Raise e ->
  exists p, In p ps /\ re_search p (str_lower goal_name) = Raise e.
Proof.
  unfold goal_pattern_signal. induction ps as [|p ps IH]; simpl.
  - discriminate.
  - destruct (re_search p (str_lower goal_name)) as [[|]|e'] eqn:E; simpl.
    + discriminate.
    + intros H. destruct (IH H) as (q & ? & ?). exists q. auto.
    + intros [= <-]. exists p. auto.
Qed.

(** At most one file type counts. *)
Lemma file_type_loop_cases fts text :
  file_type_loop fts text 0 [] = (0, []) \/
  exists ft, In ft fts /\ file_type_loop fts text 0 [] = (2, ["file type: " +++ ft]).
Proof.
  induction fts as [|ft fts IH]; simpl.
  - now left.
  - destruct (Str.contains (str_lower ft) text).
    + right. exists ft. auto.
    + destruct IH as [? | (q & ? & ?)]; [now left|]. right. exists q. auto.
Qed.

Lemma file_type_signal_cases fts sdp_section :
  file_type_signal fts sdp_section = (0, []) \/
  exists ft, In ft fts /\
    file_type_signal fts sdp_section = (2, ["file type: " +++ ft]).
Proof.
  unfold file_type_signal. destruct sdp_section as [v|]; [|now left].
  destruct (truthy v); [apply file_type_loop_cases | now left].
Qed.




(** [score_skill] raises only what [re.search] raised on a goal pattern. *)
Lemma score_skill_raise skill_name skill_def goal_text goal_name sdp_section e :
  score_skill skill_name skill_def goal_text goal_name sdp_section = Raise e ->
  exists p,
    In p (get_default (goal_patterns (get_default (triggers skill_def) no_triggers)) [])
    /\ re_search p (str_lower goal_name) = Raise e.
Proof.
  rewrite score_skill_signals. cbv zeta.
  destruct (goal_pattern_signal _ _) as [g|e'] eqn:Eg; simpl; [discriminate|].
  intros [= <-]. now apply goal_pattern_signal_raise.
Qed.

End SignalFacts.

(* ------------------------------------------------------------------ *)
(** ** Dictionaries *)

Lemma dict_set_fresh {V} (k : string) (v : V) (d : Dict.t V) :
  ~ In k (Dict.keys d) -> Dict.set k v d = d ++ [(k, v)].
Proof.
  induction d as [|[k' v'] d IH]; simpl; intros H.
  - reflexivity.
  - destruct (String.eqb k k') eqn:E.
    + apply String.eqb_eq in E. subst. tauto.
    + rewrite IH; [reflexivity | tauto].
Qed.

Lemma dict_get_key {V} (k : string) (d : Dict.t V) :
  In k (Dict.keys d) -> exists v, Dict.get k d = Some v.
Proof.
  induction d as [|[k' v'] d IH]; simpl.
  - tauto.
  - destruct (String.eqb k k') eqn:E.
    + intros _. now exists v'.
    + apply String.eqb_neq in E. intros [H | H]; [congruence | auto].
Qed.

Lemma dict_get_wf {V} (k : string) (v : V) (d : Dict.t V) :
  Dict.wf d -> In (k, v) d -> Dict.get k d = Some v.
Proof.
  unfold Dict.wf, Dict.keys. induction d as [|[k' v'] d IH]; simpl.
  - tauto.
  - intros Hwf. apply NoDup_cons_iff in Hwf as [Hk Hwf].
    intros [[= -> ->] | H].
    + now rewrite String.eqb_refl.
    + destruct (String.eqb k k') eqn:E.
      * apply String.eqb_eq in E. subst. exfalso. apply Hk.
        change k' with (fst (k', v)). now apply in_map.
      * auto.
Qed.

Lemma NoDup_map_filter {A B} (f : A -> B) (g : A -> bool) (l : list A) :
  NoDup (map f l) -> NoDup (map f (filter g l)).
Proof.
  induction l as [|a l IH]; simpl; intros H.
  - constructor.
  - apply NoDup_cons_iff in H as [Ha H]. destruct (g a); simpl; [|auto].
    constructor; [|auto]. intros Hin. apply Ha.
    apply in_map_iff in Hin as (b & Hb & Hin). apply filter_In in Hin.
    apply in_map_iff. exists b. tauto.
Qed.

(* ------------------------------------------------------------------ *)
(** ** [fresh] *)

Lemma fresh_In seen members x :
  In x (fresh seen members) <-> In x members /\ ~ In x seen.
Proof.
  revert seen. induction members as [|m rest IH]; simpl; intros seen.
  - tauto.
  - destruct (Str.mem m seen) eqn:E.
    + apply mem_In in E. rewrite IH. split.
      * tauto.
      * intros [[-> | H] Hn]; tauto.
    + apply mem_not_In in E. simpl. rewrite IH, in_app_iff. simpl. split.
      * intros [-> | [H Hn]]; tauto.
      * intros [[-> | H] Hn]; [now left|].
        destruct (string_dec m x) as [-> | Hne]; [now left | right; tauto].
Qed.

Lemma fresh_NoDup seen members : NoDup (fresh seen members).
Proof.
  revert seen. induction members as [|m rest IH]; simpl; intros seen.
  - constructor.
  - destruct (Str.mem m seen); [apply IH|].
    constructor; [|apply IH]. rewrite fresh_In, in_app_iff. simpl. tauto.
Qed.

Lemma fresh_app seen l1 l2 :
  fresh seen (l1 ++ l2) = fresh seen l1 ++ fresh (seen ++ fresh seen l1) l2.
Proof.
  revert seen. induction l1 as [|m rest IH]; simpl; intros seen.
  - now rewrite app_nil_r.
  - destruct (Str.mem m seen); [apply IH|].
    simpl. rewrite IH. now rewrite <- app_assoc.
Qed.

(* ------------------------------------------------------------------ *)
(** ** The loops of the resolver *)

Section ResolverLoops.

Context {L : PyLib}.

Variables (goal_text goal_name : string) (sdp_section : option json).

Lemma score_all_keys items all :
  score_all items goal_text goal_name sdp_section = Ok all ->
  map fst all = map fst items.
Proof.
  revert all. induction items as [|[n d] items IH]; simpl; intros all.
  - now intros [= <-].
  - destruct (score_skill n d goal_text goal_name sdp_section) as [r|e]; simpl;
      [|discriminate].
    destruct (score_all items goal_text goal_name sdp_section) as [rs|e]; simpl;
      [|discriminate].
    intros [= <-]. simpl. f_equal. now apply IH.
Qed.

Lemma score_all_In items all n r :
  score_all items goal_text goal_name sdp_section = Ok all ->
  In (n, r) all ->
  exists d, In (n, d) items /\
            score_skill n d goal_text goal_name sdp_section = Ok r.
Proof.
  revert all. induction items as [|[n' d'] items IH]; simpl; intros all.
  - intros [= <-] [].
  - destruct (score_skill n' d' goal_text goal_name sdp_section) as [r'|e] eqn:E;
      simpl; [|discriminate].
    destruct (score_all items goal_text goal_name sdp_section) as [rs|e']; simpl;
      [|discriminate].
    intros [= <-] [[= -> ->] | H].
    + exists d'. auto.
    + destruct (IH rs eq_refl H) as (d & ? & ?). exists d. auto.
Qed.

Lemma score_all_complete items all n d :
  score_all items goal_text goal_name sdp_section = Ok all ->
  In (n, d) items ->
  exists r, In (n, r) all /\
            score_skill n d goal_text goal_name sdp_section = Ok r.
Proof.
  revert all. induction items as [|[n' d'] items IH]; simpl; intros all.
  - intros _ [].
  - destruct (score_skill n' d' goal_text goal_name sdp_section) as [r'|e] eqn:E;
      simpl; [|discriminate].
    destruct (score_all items goal_text goal_name sdp_section) as [rs|e']; simpl;
      [|discriminate].
    intros [= <-] [[= -> ->] | H].
    + exists r'. simpl. auto.
    + destruct (IH rs eq_refl H) as (r & ? & ?). exists r. simpl. auto.
Qed.

(** The scoring loop keeps, in registry order, the entries that score above
    zero. *)
Lemma scoring_loop_spec items scores :
  NoDup (Dict.keys scores ++ Dict.keys items) ->
  scoring_loop items goal_text goal_name sdp_section scores =
  (all <- score_all items goal_text goal_name sdp_section ;;
   Ok (scores ++ filter (fun x => score (snd x) >? 0) all)).
Proof.
  revert scores. induction items as [|[n d] items IH]; simpl; intros scores H.
  - now rewrite app_nil_r.
  - destruct (score_skill n d goal_text goal_name sdp_section) as [r|e]; simpl;
      [|reflexivity].
    destruct (score r >? 0) eqn:E.
    + rewrite dict_set_fresh.
      2:{ apply NoDup_remove_2 in H. rewrite in_app_iff in H. tauto. }
      rewrite IH.
      2:{ unfold Dict.keys in *. rewrite map_app, <- app_assoc. exact H. }
      destruct (score_all items goal_text goal_name sdp_section) as [rs|e];
        simpl; [|reflexivity].
      rewrite E. now rewrite <- app_assoc.
    + rewrite IH by now apply NoDup_remove_1 in H.
      destruct (score_all items goal_text goal_name sdp_section) as [rs|e];
        simpl; [|reflexivity].
      now rewrite E.
Qed.

(** The primary loop keeps, in ranked order, the entries that reach the
    threshold; it cannot fail on names that come from the registry. *)
Lemma primary_loop_spec ranked skills_config assigned :
  (forall x, In x ranked -> In (fst x) (Dict.keys skills_config)) ->
  primary_loop ranked skills_config assigned =
  Ok (assigned ++ map (primary_entry skills_config)
                    (filter (fun x => score (snd x) >=? 2) ranked)).
Proof.
  revert assigned. induction ranked as [|[n r] ranked IH]; simpl; intros assigned H.
  - now rewrite app_nil_r.
  - destruct (score r >=? 2).
    + destruct (dict_get_key n skills_config (H (n, r) (or_introl eq_refl)))
        as [d Hd].
      rewrite Hd. simpl. rewrite IH by auto.
      rewrite <- app_assoc. simpl. unfold primary_entry, registry_path. simpl.
      now rewrite Hd.
    + apply IH. auto.
Qed.

Lemma member_loop_spec members comp_name skills_config assigned :
  member_loop members comp_name skills_config assigned =
  assigned ++ map (composite_entry skills_config comp_name)
                (fresh (map name assigned) members).
Proof.
  revert assigned. induction members as [|m rest IH]; simpl; intros assigned.
  - now rewrite app_nil_r.
  - destruct (Str.mem m (map name assigned)); simpl.
    + apply IH.
    + rewrite IH, map_app, <- app_assoc. reflexivity.
Qed.

Lemma expansion_loop_spec matches skills_config assigned :
  expansion_loop matches skills_config assigned =
  assigned ++ expansion_entries matches skills_config (map name assigned).
Proof.
  revert assigned. induction matches as [|comp rest IH]; simpl; intros assigned.
  - now rewrite app_nil_r.
  - rewrite IH, member_loop_spec, map_app, map_map, <- app_assoc. simpl.
    now rewrite map_id.
Qed.

End ResolverLoops.

Lemma expansion_entries_names matches skills_config seen :
  map name (expansion_entries matches skills_config seen) =
  fresh seen (flat_map c_skills matches).
Proof.
  revert seen. induction matches as [|comp rest IH]; simpl; intros seen.
  - reflexivity.
  - rewrite map_app, map_map, IH, fresh_app. simpl. now rewrite map_id.
Qed.

Lemma expansion_entries_In matches skills_config seen e :
  In e (expansion_entries matches skills_config seen) ->
  exists comp,
    In comp matches /\ In (name e) (c_skills comp) /\
    e = composite_entry skills_config (c_name comp) (name e).
Proof.
  revert seen. induction matches as [|comp rest IH]; simpl; intros seen.
  - tauto.
  - rewrite in_app_iff, in_map_iff. intros [(s & <- & Hs) | H].
    + exists comp. simpl. apply fresh_In in Hs. tauto.
    + destruct (IH _ H) as (c & ? & ? & ?). exists c. tauto.
Qed.

(* ------------------------------------------------------------------ *)
(** ** The composite matcher *)

Section MatcherFacts.

Context {L : PyLib}.

Variables (goal_name goal_text : string).

(** A composite matches through one of its patterns, on the goal name or on
    the goal text. *)
Lemma trigger_loop_true patterns :
  trigger_loop patterns goal_name goal_text = Ok true ->
  exists p, In p patterns /\
    (re_search p (str_lower goal_name) = Ok true \/
     re_search p (str_lower goal_text) = Ok true).
Proof.
  induction patterns as [|p ps IH]; simpl.
  - discriminate.
  - destruct (re_search p (str_lower goal_name)) as [[|]|e] eqn:E1; simpl.
    + intros _. exists p. auto.
    + destruct (re_search p (str_lower goal_text)) as [[|]|e] eqn:E2; simpl.
      * intros _. exists p. auto.
      * intros H. destruct (IH H) as (q & ? & ?). exists q. auto.
      * discriminate.
    + discriminate.
Qed.

(** The matches are those composites whose trigger loop reached its break,
    in the order of the registry. *)
Lemma composite_loop_spec items matches res :
  composite_loop items goal_name goal_text matches = Ok res ->
  exists added,
    res = matches ++ added /\
    subseq (map c_name added) (Dict.keys items) /\
    forall m, In m added ->
      exists comp_def,
        In (c_name m, comp_def) items /\
        comp_skills comp_def = Some (c_skills m) /\
        c_description m = get_default (comp_description comp_def) "" /\
        trigger_loop (get_default (comp_triggers comp_def) [])
          goal_name goal_text = Ok true.
Proof.
  revert matches res. induction items as [|[n d] items IH]; simpl; intros matches res.
  - intros [= <-]. exists []. rewrite app_nil_r. repeat split.
    + constructor.
    + intros m [].
  - destruct (trigger_loop _ goal_name goal_text) as [[|]|e] eqn:Et; simpl;
      [| |discriminate].
    + destruct (comp_skills d) as [members|] eqn:Es; simpl; [|discriminate].
      intros H. destruct (IH _ _ H) as (added & -> & Hsub & Hall).
      exists (mkCompositeMatch n members (get_default (comp_description d) "")
                :: added).
      rewrite <- app_assoc. repeat split.
      * simpl. now constructor.
      * intros m [<- | Hm].
        -- exists d. simpl. auto.
        -- destruct (Hall m Hm) as (cd & ? & ?). exists cd. auto.
    + intros H. destruct (IH _ _ H) as (added & -> & Hsub & Hall).
      exists added. repeat split.
      * now constructor.
      * intros m Hm. destruct (Hall m Hm) as (cd & ? & ?). exists cd. auto.
Qed.

Lemma detect_composite_skills_spec composites res :
  detect_composite_skills goal_name goal_text composites = Ok res ->
  subseq (map c_name res) (Dict.keys composites) /\
  forall m, In m res ->
    exists comp_def,
      In (c_name m, comp_def) composites /\
      comp_skills comp_def = Some (c_skills m) /\
      c_description m = get_default (comp_description comp_def) "" /\
      trigger_loop (get_default (comp_triggers comp_def) [])
        goal_name goal_text = Ok true.
Proof.
  unfold detect_composite_skills. intros H.
  apply composite_loop_spec in H as (added & -> & ? & ?). simpl. auto.
Qed.

End MatcherFacts.

(* ------------------------------------------------------------------ *)
(** ** The shape of an assignment *)

Section AssignmentShape.

Context {L : PyLib}.

Lemma ranked_primary_In all x :
  In x (ranked_primary all) <-> In x all /\ score (snd x) >= 2.
Proof.
  unfold ranked_primary. rewrite filter_In, sorted_desc_In, filter_In.
  rewrite Z.geb_le, Z.gtb_lt. split; intros H; repeat split; try tauto; lia.
Qed.

(** An assignment is the ranked threshold-qualified skills followed by
    what the matched composites add. *)
Lemma assign_skills_to_goal_shape goal_name frontmatter body registry
    sdp_section dry_run today r w :
  Dict.wf (get_default (skills registry) []) ->
  assign_skills_to_goal goal_name frontmatter body registry sdp_section
    dry_run today = Ok (r, w) ->
  exists all,
    score_all (get_default (skills registry) [])
      (goal_text_of goal_name frontmatter body) goal_name sdp_section = Ok all /\
    detect_composite_skills goal_name (goal_text_of goal_name frontmatter body)
      (get_default (composites registry) []) = Ok (a_composites r) /\
    assigned_skills r =
      map (primary_entry (get_default (skills registry) [])) (ranked_primary all) ++
      expansion_entries (a_composites r) (get_default (skills registry) [])
        (map fst (ranked_primary all)).
Proof.
  intros Hwf. unfold assign_skills_to_goal.
  fold (goal_text_of goal_name frontmatter body).
  set (goal_text := goal_text_of goal_name frontmatter body).
  set (skills_config := get_default (skills registry) []) in *.
  cbv zeta. intros H.
  rewrite scoring_loop_spec in H by exact Hwf.
  destruct (score_all skills_config goal_text goal_name sdp_section)
    as [all|e] eqn:Ea; simpl in H; [|discriminate].
  destruct (detect_composite_skills goal_name goal_text _)
    as [matches|e] eqn:Ed; simpl in H; [|discriminate].
  rewrite primary_loop_spec in H.
  2:{ intros x Hx. apply sorted_desc_In, filter_In in Hx as [Hx _].
      unfold Dict.keys. rewrite <- (score_all_keys _ _ _ _ _ Ea).
      now apply in_map. }
  simpl in H. injection H as <- <-. simpl.
  exists all. repeat split.
  rewrite expansion_loop_spec, map_map. simpl.
  fold (ranked_primary all). reflexivity.
Qed.

End AssignmentShape.

Lemma precedes_map_inv {A B} (f : A -> B) (a b : B) (l : list A) :
  precedes a b (map f l) ->
  exists x y, precedes x y l /\ f x = a /\ f y = b.
Proof.
  induction l as [|x l IH]; simpl; intros H.
  - destruct H as (l1 & l2 & l3 & E). now destruct l1.
  - apply precedes_cons_inv in H as [[Ha Hb] | H].
    + apply in_map_iff in Hb as (y & Hy & Hin). exists x, y.
      split; [now apply precedes_head | auto].
    + destruct (IH H) as (x' & y' & Hp & ? & ?). exists x', y'.
      split; [now apply precedes_cons | auto].
Qed.

Lemma dict_wf_unique {V} (k : string) (v v' : V) (d : Dict.t V) :
  Dict.wf d -> In (k, v) d -> In (k, v') d -> v = v'.
Proof.
  intros Hwf H H'. apply (dict_get_wf _ _ _ Hwf) in H, H'. congruence.
Qed.

Section AssignmentFacts.

Context {L : PyLib}.

Variables (goal_text goal_name : string) (sdp_section : option json).
Variable skills_config : Dict.t SkillDef.
Variable all : list (string * ScoreResult).

Hypothesis Hwf : Dict.wf skills_config.
Hypothesis Hall :
  score_all skills_config goal_text goal_name sdp_section = Ok all.

(** The names of the ranked entries are the skills that qualify. *)
Lemma ranked_primary_qualifies skill :
  In skill (map fst (ranked_primary all)) <->
  qualifies skills_config goal_text goal_name sdp_section skill.
Proof.
  rewrite in_map_iff. split.
  - intros ([n r] & <- & H). apply ranked_primary_In in H as [H Hs]. simpl in *.
    destruct (score_all_In _ _ _ _ _ _ _ Hall H) as (d & ? & ?).
    now exists d, r.
  - intros (d & r & Hin & Hr & Hs).
    destruct (score_all_complete _ _ _ _ _ _ _ Hall Hin) as (r' & Hin' & Hr').
    assert (r' = r) by congruence. subst r'.
    exists (skill, r). split; [reflexivity|]. now apply ranked_primary_In.
Qed.

(** A ranked entry carries the scorer's result for its skill. *)
Lemma ranked_primary_result x :
  In x (ranked_primary all) ->
  exists skill_def,
    In (fst x, skill_def) skills_config /\
    score_skill (fst x) skill_def goal_text goal_name sdp_section = Ok (snd x) /\
    score (snd x) >= 2.
Proof.
  intros H. apply ranked_primary_In in H as [H Hs]. destruct x as [n r].
  destruct (score_all_In _ _ _ _ _ _ _ Hall H) as (d & ? & ?).
  exists d. auto.
Qed.

Lemma ranked_primary_NoDup : NoDup (map fst (ranked_primary all)).
Proof.
  unfold ranked_primary. apply NoDup_map_filter.
  eapply Permutation_NoDup.
  - apply Permutation_map. apply sorted_desc_perm.
  - apply NoDup_map_filter. rewrite (score_all_keys _ _ _ _ _ Hall). exact Hwf.
Qed.

Lemma ranked_primary_descending x y :
  precedes x y (ranked_primary all) -> score (snd x) >= score (snd y).
Proof.
  intros H. apply precedes_filter_inv in H.
  eapply (descending_precedes (fun x => score (snd x))); [|exact H].
  apply sorted_desc_descending.
Qed.

(** Equal scores keep the order of the registry. *)
Lemma ranked_primary_stable x y :
  precedes x y (ranked_primary all) -> score (snd x) = score (snd y) ->
  precedes (fst x) (fst y) (Dict.keys skills_config).
Proof.
  intros H E. apply precedes_filter_inv in H.
  apply (sorted_desc_precedes_stable (fun x => score (snd x))) in H; [|exact E].
  apply precedes_filter_inv in H.
  unfold Dict.keys. rewrite <- (score_all_keys _ _ _ _ _ Hall).
  now apply precedes_map.
Qed.

End AssignmentFacts.

(* ------------------------------------------------------------------ *)
(** ** The assignment of a goal *)

Lemma example_registry_wf : Dict.wf (get_default (skills example_registry) []).
Proof.
  unfold Dict.wf. simpl. repeat constructor; simpl; intuition discriminate.
Defined.

(** C1. A skill name is in the assignment exactly when its own score
    reaches 2 or it is a member of a matched composite.  An entry of a skill
    that does not reach 2 on its own has score 1 and one reason, naming a
    matched composite it belongs to; an entry of a skill that does carries
    the scorer's score and reasons.  A skill that scores 1 and is in no
    matched composite is not in the assignment. *)
Theorem assignment_membership {L : PyLib} goal_name frontmatter body registry
    sdp_section dry_run today r w :
  Dict.wf (get_default (skills registry) []) ->
  assign_skills_to_goal goal_name frontmatter body registry sdp_section
    dry_run today = Ok (r, w) ->
  let goal_text := goal_text_of goal_name frontmatter body in
  let skills_config := get_default (skills registry) [] in
  let direct := qualifies skills_config goal_text goal_name sdp_section in
  detect_composite_skills goal_name goal_text
    (get_default (composites registry) []) = Ok (a_composites r) /\
  (forall skill,
     In skill (map name (assigned_skills r)) <->
     direct skill \/ in_composite (a_composites r) skill) /\
  (forall e,
     In e (assigned_skills r) -> ~ direct (name e) ->
     a_score e = 1 /\
     exists comp,
       In comp (a_composites r) /\ In (name e) (c_skills comp) /\
       a_reasons e = ["composite: " +++ c_name comp]) /\
  (forall e,
     In e (assigned_skills r) -> direct (name e) ->
     exists skill_def sr,
       In (name e, skill_def) skills_config /\
       score_skill (name e) skill_def goal_text goal_name sdp_section = Ok sr /\
       a_score e = score sr /\ a_reasons e = reasons sr) /\
  (forall skill skill_def sr,
     In (skill, skill_def) skills_config ->
     score_skill skill skill_def goal_text goal_name sdp_section = Ok sr ->
     score sr = 1 ->
     ~ in_composite (a_composites r) skill ->
     ~ In skill (map name (assigned_skills r))).
Proof.
  intros Hwf H goal_text skills_config direct.
  destruct (assign_skills_to_goal_shape _ _ _ _ _ _ _ _ _ Hwf H)
    as (all & Hall & Hdet & Hshape).
  fold goal_text skills_config in Hall, Hdet, Hshape.
  pose proof (ranked_primary_qualifies _ _ _ _ _ Hall) as Hq.
  fold direct in Hq.
  assert (Hnames : forall skill,
    In skill (map name (assigned_skills r)) <->
    direct skill \/ in_composite (a_composites r) skill).
  { intros skill. rewrite Hshape, map_app, in_app_iff, map_map. simpl.
    rewrite expansion_entries_names, fresh_In, in_flat_map.
    change (In skill (map (fun x => fst x) (ranked_primary all)))
      with (In skill (map fst (ranked_primary all))).
    rewrite Hq. unfold in_composite. split.
    - intros [? | [? ?]]; auto.
    - intros [? | ?]; [auto|].
      destruct (in_dec string_dec skill (map fst (ranked_primary all))) as [Hi | Hi].
      + left. now apply Hq.
      + right. split; [assumption|]. intros Hd. apply Hi. now apply Hq. }
  split; [exact Hdet|]. split; [exact Hnames|]. split; [|split].
  - intros e He Hnd. rewrite Hshape in He. apply in_app_or in He as [He | He].
    + exfalso. apply Hnd. apply Hq. apply in_map_iff in He as (x & <- & Hx).
      simpl. now apply in_map.
    + apply expansion_entries_In in He as (comp & Hc & Hm & ->). simpl.
      split; [reflexivity|]. exists comp. auto.
  - intros e He Hd. rewrite Hshape in He. apply in_app_or in He as [He | He].
    + apply in_map_iff in He as (x & <- & Hx). simpl.
      destruct (ranked_primary_result _ _ _ _ _ Hall x Hx) as (d & ? & ? & ?).
      exists d, (snd x). auto.
    + exfalso. apply (in_map name) in He.
      rewrite expansion_entries_names in He. apply fresh_In in He as [_ He].
      apply He. now apply Hq.
  - intros skill d sr Hin Hsr Hone Hnc Habs.
    apply Hnames in Habs as [(d' & sr' & Hin' & Hsr' & Hge) | Hc]; [|tauto].
    assert (d' = d) by (eapply dict_wf_unique; eauto). subst d'.
    assert (sr' = sr) by congruence. subst sr'. lia.
Qed.

(** C2. No skill name occurs twice in an assignment. *)
Theorem assignment_names_unique {L : PyLib} goal_name frontmatter body registry
    sdp_section dry_run today r w :
  Dict.wf (get_default (skills registry) []) ->
  assign_skills_to_goal goal_name frontmatter body registry sdp_section
    dry_run today = Ok (r, w) ->
  NoDup (map name (assigned_skills r)).
Proof.
  intros Hwf H.
  destruct (assign_skills_to_goal_shape _ _ _ _ _ _ _ _ _ Hwf H)
    as (all & Hall & Hdet & Hshape).
  rewrite Hshape, map_app, map_map. simpl.
  change (map (fun x => fst x) (ranked_primary all))
    with (map fst (ranked_primary all)).
  rewrite expansion_entries_names.
  apply NoDup_app.
  - now apply (ranked_primary_NoDup _ _ _ _ _ Hwf Hall).
  - apply fresh_NoDup.
  - intros x Hx Hf. apply fresh_In in Hf. tauto.
Qed.

(** C3. An assignment is the threshold-qualified skills followed by the
    composite-only additions.  The qualified skills carry their own scores,
    in descending order, and two of them with one score stand in the order
    of the registry.  The additions are the members of the matched
    composites that are not yet assigned, each at its first occurrence, the
    composites taken in the order of the registry and the members in the
    order of the member list. *)
Theorem assignment_order {L : PyLib} goal_name frontmatter body registry
    sdp_section dry_run today r w :
  Dict.wf (get_default (skills registry) []) ->
  assign_skills_to_goal goal_name frontmatter body registry sdp_section
    dry_run today = Ok (r, w) ->
  let goal_text := goal_text_of goal_name frontmatter body in
  let skills_config := get_default (skills registry) [] in
  let direct := qualifies skills_config goal_text goal_name sdp_section in
  exists primary extras,
    assigned_skills r = primary ++ extras /\
    (forall e, In e primary ->
       exists skill_def sr,
         In (name e, skill_def) skills_config /\
         score_skill (name e) skill_def goal_text goal_name sdp_section = Ok sr /\
         a_score e = score sr /\ score sr >= 2) /\
    (forall e, In e extras ->
       ~ direct (name e) /\ a_score e = 1 /\
       in_composite (a_composites r) (name e)) /\
    (forall e1 e2, precedes e1 e2 primary -> a_score e1 >= a_score e2) /\
    (forall e1 e2,
       precedes e1 e2 primary -> a_score e1 = a_score e2 ->
       precedes (name e1) (name e2) (Dict.keys skills_config)) /\
    map name extras =
      fresh (map name primary) (flat_map c_skills (a_composites r)) /\
    subseq (map c_name (a_composites r))
      (Dict.keys (get_default (composites registry) [])).
Proof.
  intros Hwf H goal_text skills_config direct.
  destruct (assign_skills_to_goal_shape _ _ _ _ _ _ _ _ _ Hwf H)
    as (all & Hall & Hdet & Hshape).
  fold goal_text skills_config in Hall, Hdet, Hshape.
  pose proof (ranked_primary_qualifies _ _ _ _ _ Hall) as Hq.
  fold direct in Hq.
  assert (Hn : map name (map (primary_entry skills_config) (ranked_primary all))
               = map fst (ranked_primary all)).
  { rewrite map_map. reflexivity. }
  exists (map (primary_entry skills_config) (ranked_primary all)),
         (expansion_entries (a_composites r) skills_config
            (map fst (ranked_primary all))).
  split; [exact Hshape|].
  split.
  { intros e He. apply in_map_iff in He as (x & <- & Hx). simpl.
    destruct (ranked_primary_result _ _ _ _ _ Hall x Hx) as (d & ? & ? & ?).
    exists d, (snd x). auto. }
  split.
  { intros e He. split.
    - intros Hd. apply (in_map name) in He.
      rewrite expansion_entries_names in He. apply fresh_In in He as [_ He].
      apply He. now apply Hq.
    - apply expansion_entries_In in He as (comp & ? & ? & ->).
      split; [reflexivity | now exists comp]. }
  split.
  { intros e1 e2 Hp. apply precedes_map_inv in Hp as (x & y & Hp & <- & <-).
    simpl. now apply (ranked_primary_descending all). }
  split.
  { intros e1 e2 Hp E. apply precedes_map_inv in Hp as (x & y & Hp & <- & <-).
    simpl in *. now apply (ranked_primary_stable _ _ _ _ _ Hall). }
  split.
  { rewrite Hn. apply expansion_entries_names. }
  now apply (detect_composite_skills_spec _ _ _ _ Hdet).
Qed.

Lemma assignment_membership_witness :
  Dict.wf (get_default (skills example_registry) []) /\
  exists r w,
    assign_skills_to_goal (L := example_lib) "build-inventory-crud"
      inventory_frontmatter inventory_body example_registry None true
      "2026-01-01" = Ok (r, w) /\
    forall skill,
      In skill (map name (assigned_skills r)) <->
      qualifies (L := example_lib) (get_default (skills example_registry) [])
        (goal_text_of "build-inventory-crud" inventory_frontmatter inventory_body)
        "build-inventory-crud" None skill
      \/ in_composite (a_composites r) skill.
Proof.
  split; [exact example_registry_wf|].
  eexists. eexists. split.
  - vm_compute. reflexivity.
  - refine (proj1 (proj2 (assignment_membership (L := example_lib)
      "build-inventory-crud" inventory_frontmatter inventory_body
      example_registry None true "2026-01-01" _ _ example_registry_wf _))).
    vm_compute. reflexivity.
Defined.

Lemma assignment_names_unique_witness :
  Dict.wf (get_default (skills example_registry) []) /\
  exists r w,
    assign_skills_to_goal (L := example_lib) "build-inventory-crud"
      inventory_frontmatter inventory_body example_registry None true
      "2026-01-01" = Ok (r, w) /\
    map name (assigned_skills r) =
      ["frontend-design"; "api-design"; "database-design"] /\
    NoDup (map name (assigned_skills r)).
Proof.
  split; [exact example_registry_wf|].
  eexists. eexists. split; [|split].
  - vm_compute. reflexivity.
  - reflexivity.
  - refine (assignment_names_unique (L := example_lib)
      "build-inventory-crud" inventory_frontmatter inventory_body
      example_registry None true "2026-01-01" _ _ example_registry_wf _).
    vm_compute. reflexivity.
Defined.

Lemma assignment_order_witness :
  Dict.wf (get_default (skills example_registry) []) /\
  exists r w,
    assign_skills_to_goal (L := example_lib) "build-inventory-crud"
      inventory_frontmatter inventory_body example_registry None true
      "2026-01-01" = Ok (r, w) /\
    map a_score (assigned_skills r) = [3; 2; 1] /\
    exists primary extras,
      assigned_skills r = primary ++ extras /\
      (forall e1 e2, precedes e1 e2 primary -> a_score e1 >= a_score e2) /\
      map name extras =
        fresh (map name primary) (flat_map c_skills (a_composites r)).
Proof.
  split; [exact example_registry_wf|].
  eexists. eexists. split; [|split].
  - vm_compute. reflexivity.
  - reflexivity.
  - match goal with
    | |- exists primary extras, assigned_skills ?r = _ /\ _ =>
        destruct (assignment_order (L := example_lib)
          "build-inventory-crud" inventory_frontmatter inventory_body
          example_registry None true "2026-01-01" r None example_registry_wf)
          as (primary & extras & H1 & _ & _ & H4 & _ & H6 & _)
    end.
    + vm_compute. reflexivity.
    + exists primary, extras. auto.
Defined.

(* ------------------------------------------------------------------ *)
(** ** Substrings and case folding in the reference library *)

Lemma contains_prefix needle hay :
  String.prefix needle hay = true -> Str.contains needle hay = true.
Proof.
  intros H. destruct hay; cbn [Str.contains]; now rewrite H.
Qed.

Lemma contains_cons needle c hay :
  Str.contains needle hay = true -> Str.contains needle (String c hay) = true.
Proof.
  intros H. cbn [Str.contains]. rewrite H.
  now destruct (String.prefix needle (String c hay)).
Qed.

(** A substring of a suffix is a substring of the whole. *)
Lemma contains_append_r needle a b :
  Str.contains needle b = true -> Str.contains needle (a +++ b) = true.
Proof.
  intros H. induction a as [|c a IH]; simpl.
  - exact H.
  - fold (String.append a b). now apply contains_cons.
Qed.

Lemma lower_append a b : Str.lower (a +++ b) = Str.lower a +++ Str.lower b.
Proof.
  induction a as [|c a IH]; simpl.
  - reflexivity.
  - now rewrite IH.
Qed.

Lemma prefix_append a b : String.prefix a b = true <-> exists s, b = a +++ s.
Proof.
  revert b. induction a as [|c a IH]; intros b.
  - split; [now exists b | now destruct b].
  - destruct b as [|c' b]; simpl.
    + split; [discriminate | intros [s Hs]; discriminate].
    + destruct (ascii_dec c c') as [<- | Hne].
      * rewrite IH. split; intros [s Hs]; exists s; [now subst | now injection Hs].
      * split; [discriminate | intros [s Hs]; congruence].
Qed.

(** [needle in hay] holds exactly when [hay] is some text, then [needle],
    then some text. *)
Lemma contains_spec needle hay :
  Str.contains needle hay = true <-> exists p s, hay = p +++ needle +++ s.
Proof.
  induction hay as [|c hay IH]; cbn [Str.contains].
  - destruct (String.prefix needle "") eqn:E.
    + split; [|reflexivity]. intros _. apply prefix_append in E as [s Hs].
      now exists "", s.
    + split; [discriminate|]. intros (p & s & H).
      destruct p; [|discriminate]. simpl in H.
      assert (String.prefix needle "" = true) by (apply prefix_append; eauto).
      congruence.
  - destruct (String.prefix needle (String c hay)) eqn:E.
    + split; [|reflexivity]. intros _. apply prefix_append in E as [s Hs].
      now exists "", s.
    + rewrite IH. split.
      * intros (p & s & ->). now exists (String c p), s.
      * intros (p & s & H). destruct p as [|c' p]; simpl in H.
        -- assert (String.prefix needle (String c hay) = true)
             by (apply prefix_append; eauto).
           congruence.
        -- injection H as _ ->. now exists p, s.
Qed.

(* ------------------------------------------------------------------ *)
(** ** The examples of the specification *)

(** C4, as the specification states it, fails: on the goal [build-dashboard]
    the skill [frontend-design] does not score 6, and its keyword signal is
    not 1. *)
Lemma frontend_design_example_not_6 :
  exists r,
    score_skill (L := example_lib) "frontend-design" frontend_design
      (goal_text_of "build-dashboard" dashboard_frontmatter "")
      "build-dashboard" None = Ok r /\
    score r <> 6 /\
    fst (keyword_signal (L := example_lib) ["ui"; "component"; "dashboard"]
           (goal_text_of "build-dashboard" dashboard_frontmatter "")) <> 1.
Proof.
  eexists. split; [vm_compute; reflexivity|]. split; vm_compute; discriminate.
Qed.

(** C4, amended.  On the goal [build-dashboard] with title "Build Dashboard"
    and an empty body, without a payload, [frontend-design] scores exactly
    7: the keyword signal gives 2, because "ui" occurs inside "build" and
    "dashboard" occurs as well, the goal pattern gives 3 and the wildcard
    section type gives 2; the reasons are those three, in this order. *)
Theorem frontend_design_example (float_repr : float -> string) :
  let lib := RefLib float_repr in
  let goal_text := goal_text_of "build-dashboard" dashboard_frontmatter "" in
  goal_text = "build-dashboard Build Dashboard " /\
  score_skill (L := lib) "frontend-design" frontend_design goal_text
    "build-dashboard" None =
    Ok (mkScoreResult 7
          ["keywords: ui, dashboard"; "goal pattern: ^build-.*dashboard";
           "applies to all build-* goals"]) /\
  filter (hits (L := lib) (str_lower goal_text)) ["ui"; "component"; "dashboard"]
    = ["ui"; "dashboard"] /\
  keyword_signal (L := lib) ["ui"; "component"; "dashboard"] goal_text
    = (2, ["keywords: ui, dashboard"]) /\
  goal_pattern_signal (L := lib) ["^build-.*dashboard"] "build-dashboard"
    = Ok (3, ["goal pattern: ^build-.*dashboard"]) /\
  file_type_signal (L := lib) [] None = (0, []) /\
  wildcard_signal ["*"] "build-dashboard"
    = (2, ["applies to all build-* goals"]) /\
  section_density_signal (L := lib) ["ui"; "component"; "dashboard"] None
    = (0, []).
Proof.
  repeat split; vm_compute; reflexivity.
Qed.

Lemma filter_length_pos {A} (f : A -> bool) (l : list A) (x : A) :
  In x l -> f x = true -> (1 <= List.length (filter f l))%nat.
Proof.
  intros Hin Hf. assert (H : In x (filter f l)) by (apply filter_In; auto).
  destruct (filter f l); [destruct H | simpl; lia].
Qed.

(** The body of [build-user-profile] holds "api", whatever the title is. *)
Lemma profile_text_hits_api (float_repr : float -> string) frontmatter :
  hits (L := RefLib float_repr)
    (str_lower (PyLib := RefLib float_repr)
       (goal_text_of "build-user-profile" frontmatter profile_body))
    "api" = true.
Proof.
  unfold hits, goal_text_of. cbn [str_lower RefLib].
  rewrite !lower_append. do 4 apply contains_append_r.
  vm_compute. reflexivity.
Qed.

(** C5, as the specification states it, fails: on the goal
    [build-user-profile] the skill [api-design] does not score 0. *)
Lemma api_design_example_not_0 :
  exists r,
    score_skill (L := example_lib) "api-design" api_design
      (goal_text_of "build-user-profile" no_frontmatter profile_body)
      "build-user-profile" None = Ok r /\
    score r <> 0.
Proof.
  eexists. split; [vm_compute; reflexivity|]. vm_compute. discriminate.
Qed.

(** C5, amended.  On the goal [build-user-profile] with the body "Simple
    profile page, no API calls." and no payload, [api-design] scores at
    least 1 whatever the title is, because the keyword "api" occurs in the
    lowercased body; without a title it scores exactly 1, with the one
    reason "keywords: api".  The skill is left out of the assignment all
    the same: with a score of 1 it does not reach the threshold of 2. *)
Theorem api_design_example (float_repr : float -> string)
    (frontmatter : Frontmatter) :
  let lib := RefLib float_repr in
  (exists r,
     score_skill (L := lib) "api-design" api_design
       (goal_text_of "build-user-profile" frontmatter profile_body)
       "build-user-profile" None = Ok r /\
     score r >= 1) /\
  score_skill (L := lib) "api-design" api_design
    (goal_text_of "build-user-profile" no_frontmatter profile_body)
    "build-user-profile" None = Ok (mkScoreResult 1 ["keywords: api"]) /\
  (forall dry_run today,
     assign_skills_to_goal (L := lib) "build-user-profile" no_frontmatter
       profile_body api_registry None dry_run today =
     Ok (mkAssignment "build-user-profile" "build-user-profile" [] [] 0, None)).
Proof.
  intros lib. split; [|split].
  - eexists. split.
    + rewrite score_skill_signals. reflexivity.
    + cbn [score fst get_default triggers api_design keywords].
      pose proof (filter_length_pos
        (hits (L := lib)
           (str_lower (goal_text_of "build-user-profile" frontmatter profile_body)))
        ["endpoint"; "rest"; "api"] "api"
        (or_intror (or_intror (or_introl eq_refl)))
        (profile_text_hits_api float_repr frontmatter)) as Hk.
      unfold keyword_signal. cbn [fst].
      change (fst (file_type_signal _ None)) with 0.
      change (fst (wildcard_signal _ _)) with 0.
      change (fst (section_density_signal _ None)) with 0.
      unfold lib in *. lia.
  - vm_compute. reflexivity.
  - intros dry_run today. destruct dry_run; vm_compute; reflexivity.
Qed.

(* ------------------------------------------------------------------ *)
(** ** The payload signals *)

(** C6, as the specification states it, fails: a keyword list that repeats
    one keyword three times holds one distinct keyword, so the claim gives
    the signal the value 0 on a payload that holds it; the signal is 3, and
    so is the score. *)
Lemma section_density_counts_repeats :
  truthy kind_payload = true /\
  distinct_keyword_hits (L := example_lib) ["api"; "api"; "api"]
    (str_lower (PyLib := example_lib)
       (json_dumps (PyLib := example_lib) kind_payload)) = 1 /\
  section_density_signal (L := example_lib) ["api"; "api"; "api"]
    (Some kind_payload) = (3, ["3 keyword hits in SDP section"]) /\
  score_skill (L := example_lib) "repeats" repeated_keywords_skill
    "build-list  " "build-list" (Some kind_payload) =
    Ok (mkScoreResult 3 ["3 keyword hits in SDP section"]).
Proof.
  repeat split; vm_compute; reflexivity.
Qed.

(** C6, amended.  The section keyword-density signal is one of the five
    summands of the score.  With a truthy payload its value is the number n
    of entries of the keyword list whose lowercase form occurs in the
    lowercased serialized payload when n > 2, with the one reason that
    reports n, and 0 without a reason when n <= 2; a keyword that the list
    repeats counts once per entry.  It is 0 when the payload is absent or
    falsy.  When the list repeats no keyword, n is the number of distinct
    keywords found. *)
Theorem section_density_signal_value {L : PyLib} skill_name skill_def
    goal_text goal_name sdp_section :
  let t := get_default (triggers skill_def) no_triggers in
  let kws := get_default (keywords t) [] in
  score_skill skill_name skill_def goal_text goal_name sdp_section =
    (g <- goal_pattern_signal (get_default (goal_patterns t) []) goal_name ;;
     Ok (mkScoreResult
           (fst (keyword_signal kws goal_text) + fst g
            + fst (file_type_signal (get_default (file_types t) []) sdp_section)
            + fst (wildcard_signal (get_default (section_types t) []) goal_name)
            + fst (section_density_signal kws sdp_section))
           (snd (keyword_signal kws goal_text) ++ snd g
            ++ snd (file_type_signal (get_default (file_types t) []) sdp_section)
            ++ snd (wildcard_signal (get_default (section_types t) []) goal_name)
            ++ snd (section_density_signal kws sdp_section)))) /\
  section_density_signal kws sdp_section =
    match sdp_section with
    | Some v =>
        if truthy v
        then let n := Z.of_nat (List.length
                        (filter (hits (str_lower (json_dumps v))) kws)) in
             if n >? 2
             then (n, [Str.of_Z n +++ " keyword hits in SDP section"])
             else (0, [])
        else (0, [])
    | None => (0, [])
    end /\
  (NoDup kws ->
   forall text,
     Z.of_nat (List.length (filter (hits text) kws)) =
     distinct_keyword_hits kws text).
Proof.
  intros t kws. split; [|split].
  - apply score_skill_signals.
  - unfold section_density_signal. destruct sdp_section as [v|]; [|reflexivity].
    now rewrite section_keyword_count_spec.
  - intros Hnd text. unfold distinct_keyword_hits.
    rewrite nodup_fixed_point; [reflexivity|]. now apply NoDup_filter.
Qed.

(** A falsy value is one of these. *)
Lemma truthy_false_iff v :
  truthy v = false <->
  v = JNull \/ v = JBool false \/ v = JInt 0 \/
  (exists f, v = JFloat f /\ PrimFloat.eqb f PrimFloat.zero = true) \/
  v = JStr "" \/ v = JArr [] \/ v = JObj [].
Proof.
  split.
  - destruct v as [|b|n|f|s|items|members]; simpl; intros H.
    + auto.
    + subst. auto.
    + apply negb_false_iff, Z.eqb_eq in H. subst. auto.
    + apply negb_false_iff in H. right. right. right. left. now exists f.
    + apply negb_false_iff, String.eqb_eq in H. subst. auto 10.
    + destruct items; [auto 10 | discriminate].
    + destruct members; [auto 10 | discriminate].
  - intros [-> | [-> | [-> | [(f & -> & Hf) | [-> | [-> | ->]]]]]]; simpl;
      try reflexivity.
    now rewrite Hf.
Qed.

(** C10. A payload that is supplied but falsy is treated as an absent one:
    the file-type signal and the section keyword-density signal are both 0,
    and the scorer returns what it returns without a payload. *)
Theorem falsy_payload_is_absent {L : PyLib} skill_name skill_def goal_text
    goal_name v :
  truthy v = false ->
  score_skill skill_name skill_def goal_text goal_name (Some v) =
    score_skill skill_name skill_def goal_text goal_name None /\
  (forall fts, file_type_signal fts (Some v) = (0, [])) /\
  (forall kws, section_density_signal kws (Some v) = (0, [])).
Proof.
  intros H. split; [|split].
  - unfold score_skill. now rewrite H.
  - intros fts. unfold file_type_signal. now rewrite H.
  - intros kws. unfold section_density_signal. now rewrite H.
Qed.

Lemma falsy_payload_is_absent_witness :
  (truthy (JObj []) = false /\ truthy (JArr []) = false /\
   truthy (JStr "") = false /\ truthy (JInt 0) = false /\
   truthy (JBool false) = false) /\
  score_skill (L := example_lib) "frontend-design" frontend_design
    "build-dashboard Build Dashboard " "build-dashboard" (Some (JObj [])) =
  score_skill (L := example_lib) "frontend-design" frontend_design
    "build-dashboard Build Dashboard " "build-dashboard" None.
Proof.
  split.
  - repeat split.
  - exact (proj1 (falsy_payload_is_absent (L := example_lib) "frontend-design"
             frontend_design "build-dashboard Build Dashboard "
             "build-dashboard" (JObj []) eq_refl)).
Defined.

(* ------------------------------------------------------------------ *)
(** ** Missing optional data *)

Section YamlScorerFacts.

Context {L : PyLib}.



Lemma yaml_get_null {A} (k : yaml_key A) default :
  yaml_get k default = None <-> is_null k = true.
Proof. destruct k; simpl; split; congruence. Qed.




End YamlScorerFacts.



(* ------------------------------------------------------------------ *)
(** ** Determinism *)

(** C8. The assignment of a goal is a function of the registry, the goal
    name, the goal text (title and body) and the payload: it depends neither
    on the date, nor on the dry-run switch, nor on what the frontmatter
    holds besides the title.  A second run on the frontmatter and the body
    that the first run wrote returns the assignment of the first, with the
    same order, scores and reasons. *)
Theorem assignment_deterministic {L : PyLib} goal_name frontmatter body registry
    sdp_section dry_run1 dry_run2 today1 today2
    (old_skills old_paths : option (list string)) (old_date : option string) :
  result_fst
    (assign_skills_to_goal goal_name frontmatter body registry sdp_section
       dry_run1 today1) =
  result_fst
    (assign_skills_to_goal goal_name
       (mkFrontmatter (title frontmatter) old_skills old_paths old_date)
       body registry sdp_section dry_run2 today2) /\
  (forall r frontmatter' body',
     assign_skills_to_goal goal_name frontmatter body registry sdp_section
       dry_run1 today1 = Ok (r, Some (frontmatter', body')) ->
     result_fst
       (assign_skills_to_goal goal_name frontmatter' body' registry sdp_section
          dry_run2 today2) = Ok r).
Proof.
  assert (Hrun : forall fm dr today,
    result_fst (assign_skills_to_goal goal_name fm body registry sdp_section
                  dr today) =
    (scores <- scoring_loop (get_default (skills registry) [])
                 (goal_text_of goal_name fm body) goal_name sdp_section [] ;;
     composite_matches <- detect_composite_skills goal_name
                            (goal_text_of goal_name fm body)
                            (get_default (composites registry) []) ;;
     assigned <- primary_loop (sorted_desc (fun x => score (snd x)) scores)
                   (get_default (skills registry) []) [] ;;
     Ok (mkAssignment goal_name (get_default (title fm) goal_name)
           (expansion_loop composite_matches (get_default (skills registry) [])
              assigned)
           composite_matches
           (sum_scores (expansion_loop composite_matches
                          (get_default (skills registry) []) assigned))))).
  { intros fm dr today. unfold assign_skills_to_goal.
    fold (goal_text_of goal_name fm body).
    destruct (scoring_loop _ _ _ _ _) as [scores|e]; simpl; [|reflexivity].
    destruct (detect_composite_skills _ _ _) as [ms|e]; simpl; [|reflexivity].
    destruct (primary_loop _ _ _) as [assigned|e]; simpl; reflexivity. }
  split.
  - rewrite !Hrun. reflexivity.
  - intros r fm' body' H.
    assert (Hr : result_fst (assign_skills_to_goal goal_name frontmatter body
                               registry sdp_section dry_run1 today1) = Ok r)
      by now rewrite H.
    assert (Hw : body' = body /\ title fm' = title frontmatter).
    { unfold assign_skills_to_goal in H.
      destruct (scoring_loop _ _ _ _ _) as [scores|e]; simpl in H; [|discriminate].
      destruct (detect_composite_skills _ _ _) as [ms|e]; simpl in H;
        [|discriminate].
      destruct (primary_loop _ _ _) as [assigned|e]; simpl in H; [|discriminate].
      destruct (negb dry_run1 && nonempty _)%bool; [|discriminate].
      injection H as _ <- <-. now split. }
    destruct Hw as [-> Ht]. rewrite Hrun in *. unfold goal_text_of in *.
    rewrite Ht. exact Hr.
Qed.

(* ------------------------------------------------------------------ *)
(** ** The usage summary *)

Lemma dict_get_set_same {V} (k : string) (v : V) (d : Dict.t V) :
  Dict.get k (Dict.set k v d) = Some v.
Proof.
  induction d as [|[k' v'] d IH]; simpl.
  - now rewrite String.eqb_refl.
  - destruct (String.eqb k k') eqn:E; simpl; rewrite E; [reflexivity | exact IH].
Qed.

Lemma dict_get_set_other {V} (k k' : string) (v : V) (d : Dict.t V) :
  k <> k' -> Dict.get k (Dict.set k' v d) = Dict.get k d.
Proof.
  intros Hne. induction d as [|[k'' v''] d IH]; simpl.
  - apply String.eqb_neq in Hne. now rewrite Hne.
  - destruct (String.eqb k' k'') eqn:E; simpl.
    + apply String.eqb_eq in E. subst k''.
      apply String.eqb_neq in Hne. now rewrite Hne.
    + now rewrite IH.
Qed.

Lemma dict_keys_set {V} (k : string) (v : V) (d : Dict.t V) :
  Dict.keys (Dict.set k v d) = Dict.keys d ++ fresh (Dict.keys d) [k].
Proof.
  induction d as [|[k' v'] d IH]; simpl.
  - reflexivity.
  - rewrite String.eqb_sym. destruct (String.eqb k' k) eqn:E; simpl.
    + now rewrite app_nil_r.
    + rewrite IH. reflexivity.
Qed.

Lemma count_skills_count entries d k :
  count_of k (count_skills entries d) =
  count_of k d + Z.of_nat (count_occ string_dec (map name entries) k).
Proof.
  revert d. induction entries as [|e entries IH]; intros d.
  - simpl. lia.
  - cbn [count_skills map count_occ]. rewrite IH. unfold count_of.
    destruct (string_dec (name e) k) as [<- | Hne].
    + rewrite dict_get_set_same. simpl get_default. lia.
    + rewrite dict_get_set_other by congruence. lia.
Qed.

Lemma count_skills_keys entries d :
  Dict.keys (count_skills entries d) =
  Dict.keys d ++ fresh (Dict.keys d) (map name entries).
Proof.
  revert d. induction entries as [|e entries IH]; intros d.
  - simpl. now rewrite app_nil_r.
  - cbn [count_skills map]. rewrite IH, dict_keys_set.
    change (name e :: map name entries) with ([name e] ++ map name entries).
    now rewrite fresh_app, app_assoc.
Qed.

Lemma count_assignments_count assignments d k :
  count_of k (count_assignments assignments d) =
  count_of k d + Z.of_nat (count_occ string_dec (all_names assignments) k).
Proof.
  revert d. induction assignments as [|a assignments IH]; intros d.
  - simpl. lia.
  - cbn [count_assignments]. rewrite IH, count_skills_count.
    unfold all_names. cbn [flat_map]. rewrite count_occ_app. lia.
Qed.

Lemma count_assignments_keys assignments d :
  Dict.keys (count_assignments assignments d) =
  Dict.keys d ++ fresh (Dict.keys d) (all_names assignments).
Proof.
  revert d. induction assignments as [|a assignments IH]; intros d.
  - simpl. now rewrite app_nil_r.
  - cbn [count_assignments]. rewrite IH, count_skills_keys.
    unfold all_names. cbn [flat_map]. now rewrite fresh_app, app_assoc.
Qed.

(** When no assignment repeats a name, the occurrences of a name are the
    assignments that include it. *)
Lemma count_occ_all_names assignments k :
  (forall a, In a assignments -> NoDup (map name (assigned_skills a))) ->
  count_occ string_dec (all_names assignments) k =
  List.length
    (filter (fun a => Str.mem k (map name (assigned_skills a))) assignments).
Proof.
  induction assignments as [|a assignments IH]; intros H.
  - reflexivity.
  - unfold all_names. cbn [flat_map filter]. rewrite count_occ_app.
    fold (all_names assignments). rewrite IH by (intros; apply H; now right).
    pose proof (H a (or_introl eq_refl)) as Hnd.
    destruct (Str.mem k (map name (assigned_skills a))) eqn:E.
    + apply mem_In in E.
      rewrite (proj1 (NoDup_count_occ' string_dec _) Hnd k E).
      reflexivity.
    + apply mem_not_In in E.
      rewrite (proj1 (count_occ_not_In string_dec _ k) E). reflexivity.
Qed.

Lemma has_file_true assignments skill :
  has_file assignments skill = true <->
  exists a s,
    In a assignments /\ In s (assigned_skills a) /\
    name s = skill /\ path_truthy (path s) = true.
Proof.
  unfold has_file. rewrite existsb_exists. split.
  - intros (a & Ha & H). apply existsb_exists in H as (s & Hs & H).
    apply andb_true_iff in H as [Hn Hp]. apply String.eqb_eq in Hn.
    exists a, s. auto.
  - intros (a & s & Ha & Hs & Hn & Hp). exists a. split; [assumption|].
    apply existsb_exists. exists s. split; [assumption|].
    apply andb_true_iff. split; [now apply String.eqb_eq | assumption].
Qed.

Lemma skill_usage_summary_In assignments skill count flag :
  In (skill, count, flag) (skill_usage_summary assignments) <->
  In (skill, count) (count_assignments assignments []) /\
  flag = has_file assignments skill.
Proof.
  unfold skill_usage_summary. rewrite in_map_iff. split.
  - intros ([s c] & [= <- <- <-] & H). apply sorted_desc_In in H. auto.
  - intros [H ->]. exists (skill, count). split; [reflexivity|].
    now apply sorted_desc_In.
Qed.

Lemma skill_usage_summary_names assignments :
  map (fun row => fst (fst row)) (skill_usage_summary assignments) =
  map fst (sorted_desc snd (count_assignments assignments [])).
Proof.
  unfold skill_usage_summary. rewrite map_map. apply map_ext.
  now intros [s c].
Qed.

(** C9, as the specification states it, fails on a path that is the empty
    string: the entry carries a path ([has_skill_file] is set), and the
    flag of its row is not set. *)
Lemma usage_summary_empty_path :
  exists r w,
    assign_skills_to_goal (L := example_lib) "build-docs" docs_frontmatter
      docs_body docs_registry None true "2026-01-01" = Ok (r, w) /\
    (exists s,
       In s (assigned_skills r) /\ name s = "docs" /\
       path s = Some "" /\ has_skill_file s = true) /\
    skill_usage_summary [r] = [("docs", 1, false)].
Proof.
  eexists. eexists. split; [vm_compute; reflexivity|]. split.
  - eexists. split; [left; reflexivity|]. repeat split.
  - reflexivity.
Qed.

(** C9, amended.  Let every assignment of the list have pairwise distinct
    skill names (as the resolver guarantees) and let the goals of the list
    be pairwise distinct.  Then the summary has exactly one row for each
    skill name that occurs in some assignment; the count of a row is the
    number of distinct goals whose assignment includes the skill; its flag
    is set exactly when some entry of the skill in some assignment carries
    a path that is not empty; and the rows stand in descending order of
    their counts. *)
Theorem usage_summary_correct assignments :
  (forall a, In a assignments -> NoDup (map name (assigned_skills a))) ->
  NoDup (map goal assignments) ->
  let rows := skill_usage_summary assignments in
  NoDup (map (fun row => fst (fst row)) rows) /\
  (forall skill,
     In skill (map (fun row => fst (fst row)) rows) <->
     exists a, In a assignments /\ In skill (map name (assigned_skills a))) /\
  (forall skill count flag,
     In (skill, count, flag) rows ->
     count = Z.of_nat (List.length (goals_using skill assignments)) /\
     (flag = true <->
      exists a s,
        In a assignments /\ In s (assigned_skills a) /\
        name s = skill /\ path_truthy (path s) = true)) /\
  (forall row1 row2,
     precedes row1 row2 rows -> snd (fst row1) >= snd (fst row2)).
Proof.
  intros Hnames Hgoals rows.
  pose proof (count_assignments_keys assignments []) as Hkeys.
  simpl in Hkeys.
  assert (Hwf : Dict.wf (count_assignments assignments [])).
  { unfold Dict.wf. rewrite Hkeys. apply fresh_NoDup. }
  split; [|split; [|split]].
  - unfold rows. rewrite skill_usage_summary_names.
    eapply Permutation_NoDup; [|exact Hwf].
    apply Permutation_map, sorted_desc_perm.
  - intros skill. unfold rows. rewrite skill_usage_summary_names.
    assert (Hin : In skill (map fst (sorted_desc snd (count_assignments assignments [])))
                  <-> In skill (Dict.keys (count_assignments assignments []))).
    { unfold Dict.keys. split; intros H.
      - eapply Permutation_in; [|exact H].
        apply Permutation_map. symmetry. apply sorted_desc_perm.
      - eapply Permutation_in; [|exact H].
        apply Permutation_map, sorted_desc_perm. }
    rewrite Hin, Hkeys, fresh_In. unfold all_names. rewrite in_flat_map.
    simpl. tauto.
  - intros skill count flag H. apply skill_usage_summary_In in H as [H ->].
    split; [|apply has_file_true].
    apply (dict_get_wf _ _ _ Hwf) in H.
    pose proof (count_assignments_count assignments [] skill) as Hc.
    unfold count_of in Hc. rewrite H in Hc. simpl in Hc. rewrite Hc.
    rewrite count_occ_all_names by exact Hnames.
    unfold goals_using. rewrite nodup_fixed_point.
    + now rewrite length_map.
    + now apply NoDup_map_filter.
  - intros row1 row2 H. unfold rows, skill_usage_summary in H.
    apply precedes_map_inv in H as ([s1 c1] & [s2 c2] & H & <- & <-). simpl.
    eapply (descending_precedes snd) in H; [exact H|].
    apply sorted_desc_descending.
Qed.

Lemma usage_summary_correct_witness :
  (forall a, In a example_assignments -> NoDup (map name (assigned_skills a))) /\
  NoDup (map goal example_assignments) /\
  skill_usage_summary example_assignments =
    [("frontend-design", 2, true); ("api-design", 1, false)] /\
  (forall skill count flag,
     In (skill, count, flag) (skill_usage_summary example_assignments) ->
     count = Z.of_nat (List.length (goals_using skill example_assignments)) /\
     (flag = true <->
      exists a s,
        In a example_assignments /\ In s (assigned_skills a) /\
        name s = skill /\ path_truthy (path s) = true)).
Proof.
  assert (H1 : forall a, In a example_assignments ->
                         NoDup (map name (assigned_skills a))).
  { intros a [<- | [<- | []]]; simpl;
      repeat constructor; simpl; intuition discriminate. }
  assert (H2 : NoDup (map goal example_assignments)).
  { simpl. repeat constructor; simpl; intuition discriminate. }
  split; [exact H1|]. split; [exact H2|]. split; [reflexivity|].
  exact (proj1 (proj2 (proj2 (usage_summary_correct example_assignments H1 H2)))).
Defined.

(* ------------------------------------------------------------------ *)
(** ** The resolver returns on a registry whose patterns compile *)

Section Totality.

Context {L : PyLib}.

Variables (goal_text goal_name : string) (sdp_section : option json).

Lemma score_all_total items :
  (forall skill skill_def pattern,
     In (skill, skill_def) items ->
     In pattern
       (get_default (goal_patterns (get_default (triggers skill_def) no_triggers))
          []) ->
     forall s, exists b, re_search pattern s = Ok b) ->
  exists all, score_all items goal_text goal_name sdp_section = Ok all.
Proof.
  induction items as [|[n d] items IH]; simpl; intros H.
  - now exists [].
  - destruct (score_skill n d goal_text goal_name sdp_section) as [r|e] eqn:E.
    + destruct IH as [all Hall].
      { intros s sd pat Hin. apply (H s sd pat). now right. }
      rewrite Hall. simpl. eauto.
    + exfalso. apply score_skill_raise in E as (pat & Hin & Hr).
      destruct (H n d pat (or_introl eq_refl) Hin (str_lower goal_name)) as [b Hb].
      congruence.
Qed.

Lemma trigger_loop_total patterns :
  (forall pattern, In pattern patterns ->
     forall s, exists b, re_search pattern s = Ok b) ->
  exists b, trigger_loop patterns goal_name goal_text = Ok b.
Proof.
  induction patterns as [|p ps IH]; simpl; intros H.
  - now exists false.
  - destruct (H p (or_introl eq_refl) (str_lower goal_name)) as [b1 ->]. simpl.
    destruct b1; simpl; [now exists true|].
    destruct (H p (or_introl eq_refl) (str_lower goal_text)) as [b2 ->]. simpl.
    destruct b2; [now exists true|]. apply IH. intros q Hq. apply H. now right.
Qed.

Lemma composite_loop_total items matches :
  (forall comp comp_def pattern,
     In (comp, comp_def) items ->
     In pattern (get_default (comp_triggers comp_def) []) ->
     forall s, exists b, re_search pattern s = Ok b) ->
  (forall comp comp_def,
     In (comp, comp_def) items -> exists members, comp_skills comp_def = Some members) ->
  exists res, composite_loop items goal_name goal_text matches = Ok res.
Proof.
  revert matches. induction items as [|[n d] items IH]; simpl; intros matches Hp Hs.
  - now exists matches.
  - destruct (trigger_loop_total (get_default (comp_triggers d) [])) as [b ->].
    { intros pat Hin. apply (Hp n d pat); auto. }
    simpl. destruct b.
    + destruct (Hs n d (or_introl eq_refl)) as [members ->]. simpl.
      apply IH.
      * intros c cd pat Hin. apply (Hp c cd pat). now right.
      * intros c cd Hin. apply (Hs c cd). now right.
    + apply IH.
      * intros c cd pat Hin. apply (Hp c cd pat). now right.
      * intros c cd Hin. apply (Hs c cd). now right.
Qed.

End Totality.

(** On a registry whose skill names are pairwise distinct, whose patterns
    compile and whose composites have their member lists, the resolver
    returns an assignment. *)
Lemma assign_skills_to_goal_total {L : PyLib} goal_name frontmatter body registry
    sdp_section dry_run today :
  Dict.wf (get_default (skills registry) []) ->
  registry_ok registry ->
  exists r w,
    assign_skills_to_goal goal_name frontmatter body registry sdp_section
      dry_run today = Ok (r, w).
Proof.
  intros Hwf (Hs & Hc & Hm). unfold assign_skills_to_goal.
  fold (goal_text_of goal_name frontmatter body).
  rewrite scoring_loop_spec by exact Hwf.
  destruct (score_all_total (goal_text_of goal_name frontmatter body) goal_name
              sdp_section _ Hs) as [all Hall].
  rewrite Hall. simpl.
  destruct (composite_loop_total (goal_text_of goal_name frontmatter body) goal_name
              _ [] Hc Hm) as [ms Hms].
  unfold detect_composite_skills. rewrite Hms. simpl.
  rewrite primary_loop_spec.
  - simpl. eauto.
  - intros x Hx. apply sorted_desc_In, filter_In in Hx as [Hx _].
    unfold Dict.keys. rewrite <- (score_all_keys _ _ _ _ _ Hall).
    now apply in_map.
Qed.

(** The example registry is such a registry. *)
Lemma example_registry_ok : registry_ok (L := example_lib) example_registry.
Proof.
  assert (Hre : forall pattern r,
            Re.parse pattern = Some r ->
            forall s, exists b, re_search (PyLib := example_lib) pattern s = Ok b).
  { intros pattern r Hr s. simpl. unfold Re.search. rewrite Hr. eauto. }
  unfold registry_ok. simpl. split; [|split].
  - intros skill skill_def pattern [[= <- <-] | [[= <- <-] | []]]; simpl.
    + intros [<- | []]. eapply Hre. vm_compute. reflexivity.
    + intros [].
  - intros comp comp_def pattern [[= <- <-] | []]; simpl.
    intros [<- | []]. eapply Hre. vm_compute. reflexivity.
  - intros comp comp_def [[= <- <-] | []]. simpl. eauto.
Qed.

(* ================================================================== *)
(** * Further properties of the code *)

(* ------------------------------------------------------------------ *)
(** ** The scorer: explanations and bounds *)

Section SignalShapes.

Context {L : PyLib}.

Lemma filter_length_le {A} (f : A -> bool) (l : list A) :
  (List.length (filter f l) <= List.length l)%nat.
Proof.
  induction l as [|a l IH]; simpl; [lia|]. destruct (f a); simpl; lia.
Qed.

Lemma keyword_signal_shape kws goal_text :
  signal_shape (keyword_signal kws goal_text) /\
  fst (keyword_signal kws goal_text) <= Z.of_nat (List.length kws).
Proof.
  unfold signal_shape, keyword_signal. cbn [fst snd].
  pose proof (filter_length_le (hits (str_lower goal_text)) kws) as Hle.
  destruct (filter (hits (str_lower goal_text)) kws) as [|k ks]; simpl in *.
  - repeat split; auto; lia.
  - repeat split; try lia; try discriminate.
Qed.

Lemma goal_pattern_signal_shape ps goal_name g :
  goal_pattern_signal ps goal_name = Ok g -> signal_shape g /\ fst g <= 3.
Proof.
  destruct g as [g rg]. intros H.
  apply goal_pattern_signal_cases in H as [[-> ->] | [-> (p & _ & ->)]];
    unfold signal_shape; simpl; repeat split; try lia; try discriminate; auto.
Qed.

Lemma file_type_signal_shape fts sdp_section :
  signal_shape (file_type_signal fts sdp_section) /\
  fst (file_type_signal fts sdp_section) <= 2.
Proof.
  destruct (file_type_signal_cases fts sdp_section) as [-> | (ft & _ & ->)];
    unfold signal_shape; simpl; repeat split; try lia; try discriminate; auto.
Qed.

Lemma wildcard_signal_shape sts goal_name :
  signal_shape (wildcard_signal sts goal_name) /\
  fst (wildcard_signal sts goal_name) <= 2.
Proof.
  unfold wildcard_signal. destruct (_ && _)%bool;
    unfold signal_shape; simpl; repeat split; try lia; try discriminate; auto.
Qed.

Lemma section_density_signal_shape kws sdp_section :
  signal_shape (section_density_signal kws sdp_section) /\
  fst (section_density_signal kws sdp_section) <= Z.of_nat (List.length kws) /\
  (sdp_section = None -> section_density_signal kws sdp_section = (0, [])).
Proof.
  unfold section_density_signal.
  destruct sdp_section as [v|];
    [|unfold signal_shape; simpl; repeat split; try lia; auto].
  destruct (truthy v);
    [|unfold signal_shape; simpl; repeat split; try lia; auto; discriminate].
  rewrite section_keyword_count_spec.
  pose proof (filter_length_le (hits (str_lower (json_dumps v))) kws) as Hle.
  destruct (_ >? 2) eqn:E; unfold signal_shape; simpl.
  - apply Z.gtb_lt in E. repeat split; try lia; try discriminate.
  - repeat split; try lia; auto; discriminate.
Qed.

End SignalShapes.

(** X1. A score is positive exactly when the scorer gives a reason for it,
    and there are at most five reasons, one per signal. *)
Theorem score_has_reasons {L : PyLib} skill_name skill_def goal_text goal_name
    sdp_section r :
  score_skill skill_name skill_def goal_text goal_name sdp_section = Ok r ->
  (0 < score r <-> reasons r <> []) /\ (List.length (reasons r) <= 5)%nat.
Proof.
  rewrite score_skill_signals. cbv zeta.
  destruct (goal_pattern_signal _ _) as [g|e] eqn:Eg; cbn [bind]; [|discriminate].
  destruct (keyword_signal_shape
              (get_default (keywords (get_default (triggers skill_def) no_triggers)) [])
              goal_text) as [(Hk0 & Hk1 & Hk2) _].
  destruct (goal_pattern_signal_shape _ _ _ Eg) as [(Hg0 & Hg1 & Hg2) _].
  destruct (file_type_signal_shape
              (get_default (file_types (get_default (triggers skill_def) no_triggers)) [])
              sdp_section) as [(Hf0 & Hf1 & Hf2) _].
  destruct (wildcard_signal_shape
              (get_default (section_types (get_default (triggers skill_def) no_triggers)) [])
              goal_name) as [(Hw0 & Hw1 & Hw2) _].
  destruct (section_density_signal_shape
              (get_default (keywords (get_default (triggers skill_def) no_triggers)) [])
              sdp_section) as [(Hs0 & Hs1 & Hs2) _].
  set (k := keyword_signal _ _) in *. set (f := file_type_signal _ _) in *.
  set (w := wildcard_signal _ _) in *. set (s := section_density_signal _ _) in *.
  clearbody k f w s. clear Eg.
  intros [= <-]. cbn [score reasons]. split.
  - split.
    + intros Hpos Hnil.
      apply app_eq_nil in Hnil as [Hk Hnil].
      apply app_eq_nil in Hnil as [Hg Hnil].
      apply app_eq_nil in Hnil as [Hf Hnil].
      apply app_eq_nil in Hnil as [Hw Hs].
      apply (proj2 Hk1) in Hk. apply (proj2 Hg1) in Hg. apply (proj2 Hf1) in Hf.
      apply (proj2 Hw1) in Hw. apply (proj2 Hs1) in Hs. lia.
    + intros Hne.
      assert (Hsum : ~ (fst k = 0 /\ fst g = 0 /\ fst f = 0 /\ fst w = 0 /\
                        fst s = 0)).
      { intros (Hk & Hg & Hf & Hw & Hs). apply Hne.
        apply (proj1 Hk1) in Hk. apply (proj1 Hg1) in Hg. apply (proj1 Hf1) in Hf.
        apply (proj1 Hw1) in Hw. apply (proj1 Hs1) in Hs.
        now rewrite Hk, Hg, Hf, Hw, Hs. }
      lia.
  - rewrite !length_app. lia.
Qed.

Lemma score_has_reasons_witness :
  exists r,
    score_skill (L := example_lib) "frontend-design" frontend_design
      "build-dashboard Build Dashboard " "build-dashboard" None = Ok r /\
    (0 < score r <-> reasons r <> []) /\ (List.length (reasons r) <= 5)%nat.
Proof.
  eexists. split; [vm_compute; reflexivity|].
  refine (score_has_reasons (L := example_lib) "frontend-design" frontend_design
            "build-dashboard Build Dashboard " "build-dashboard" None _ _).
  vm_compute. reflexivity.
Defined.

(** X2. A score is at most twice the number of keywords plus 7, and without
    a payload at most the number of keywords plus 5: the goal pattern
    counts once, and so do the file type and the wildcard. *)
Theorem score_bounded {L : PyLib} skill_name skill_def goal_text goal_name
    sdp_section r :
  score_skill skill_name skill_def goal_text goal_name sdp_section = Ok r ->
  score r <= 2 * Z.of_nat (List.length (keywords_of skill_def)) + 7 /\
  (sdp_section = None ->
   score r <= Z.of_nat (List.length (keywords_of skill_def)) + 5).
Proof.
  rewrite score_skill_signals. cbv zeta. fold (keywords_of skill_def).
  destruct (goal_pattern_signal _ _) as [g|e] eqn:Eg; cbn [bind]; [|discriminate].
  destruct (keyword_signal_shape (keywords_of skill_def) goal_text) as [_ Hk].
  destruct (goal_pattern_signal_shape _ _ _ Eg) as [_ Hg].
  destruct (file_type_signal_shape
              (get_default (file_types (get_default (triggers skill_def) no_triggers)) [])
              sdp_section) as [_ Hf].
  destruct (wildcard_signal_shape
              (get_default (section_types (get_default (triggers skill_def) no_triggers)) [])
              goal_name) as [_ Hw].
  destruct (section_density_signal_shape (keywords_of skill_def) sdp_section)
    as (_ & Hs & Hnone).
  assert (Hf0 : sdp_section = None ->
                fst (file_type_signal
                       (get_default (file_types
                          (get_default (triggers skill_def) no_triggers)) [])
                       sdp_section) = 0) by (now intros ->).
  set (k := keyword_signal _ _) in *. set (f := file_type_signal _ _) in *.
  set (w := wildcard_signal _ _) in *. set (s := section_density_signal _ _) in *.
  clearbody k f w. clear Eg.
  intros [= <-]. cbn [score]. split; [lia|].
  intros Hn. rewrite (Hf0 Hn), (Hnone Hn). cbn [fst]. lia.
Qed.

Lemma score_bounded_witness :
  exists r,
    score_skill (L := example_lib) "frontend-design" frontend_design
      "build-dashboard Build Dashboard " "build-dashboard" None = Ok r /\
    score r <= 2 * Z.of_nat (List.length (keywords_of frontend_design)) + 7.
Proof.
  eexists. split; [vm_compute; reflexivity|].
  refine (proj1 (score_bounded (L := example_lib) "frontend-design" frontend_design
            "build-dashboard Build Dashboard " "build-dashboard" None _ _)).
  vm_compute. reflexivity.
Defined.

(* ------------------------------------------------------------------ *)
(** ** The scorer: first match, payload, keywords *)

Lemma pattern_loop_first_match {L : PyLib} ps1 p ps2 name_lower s rs :
  (forall q, In q ps1 -> re_search q name_lower = Ok false) ->
  re_search p name_lower = Ok true ->
  pattern_loop (ps1 ++ p :: ps2) name_lower s rs =
  Ok (s + 3, rs ++ ["goal pattern: " +++ p]).
Proof.
  intros Hno Hyes. induction ps1 as [|q ps1 IH]; simpl.
  - now rewrite Hyes.
  - rewrite (Hno q (or_introl eq_refl)). simpl. apply IH.
    intros q' Hq'. apply Hno. now right.
Qed.

(** X3. The goal-pattern loop stops at the first pattern that is found in
    the lowercased goal name: the patterns before it give nothing, and the
    patterns after it are not searched, so that they change nothing, even
    one that does not compile.  The skill scores as if that pattern were
    its only one. *)
Theorem goal_pattern_first_match {L : PyLib} skill_name kws ps1 p ps2 fts sts
    skill_path goal_text goal_name sdp_section :
  (forall q, In q ps1 -> re_search q (str_lower goal_name) = Ok false) ->
  re_search p (str_lower goal_name) = Ok true ->
  goal_pattern_signal (ps1 ++ p :: ps2) goal_name =
    Ok (3, ["goal pattern: " +++ p]) /\
  score_skill skill_name
    (mkSkillDef (Some (mkTriggers kws (Some (ps1 ++ p :: ps2)) fts sts)) skill_path)
    goal_text goal_name sdp_section =
  score_skill skill_name
    (mkSkillDef (Some (mkTriggers kws (Some [p]) fts sts)) skill_path)
    goal_text goal_name sdp_section.
Proof.
  intros Hno Hyes.
  assert (H1 : goal_pattern_signal (ps1 ++ p :: ps2) goal_name =
               Ok (3, ["goal pattern: " +++ p])).
  { unfold goal_pattern_signal. now rewrite pattern_loop_first_match. }
  assert (H2 : goal_pattern_signal [p] goal_name =
               Ok (3, ["goal pattern: " +++ p])).
  { unfold goal_pattern_signal. simpl. now rewrite Hyes. }
  split; [exact H1|].
  rewrite !score_skill_signals. cbv zeta. cbn [triggers get_default goal_patterns].
  now rewrite H1, H2.
Qed.

Lemma goal_pattern_first_match_witness :
  (forall q, In q ["dashboard$x"] ->
     re_search (PyLib := example_lib) q
       (str_lower (PyLib := example_lib) "build-dashboard") = Ok false) /\
  re_search (PyLib := example_lib) "^build-"
    (str_lower (PyLib := example_lib) "build-dashboard") = Ok true /\
  re_search (PyLib := example_lib) "(" 
    (str_lower (PyLib := example_lib) "build-dashboard") = Raise (re_error "(") /\
  goal_pattern_signal (L := example_lib) (["dashboard$x"] ++ "^build-" :: ["("])
    "build-dashboard" = Ok (3, ["goal pattern: ^build-"]).
Proof.
  assert (H1 : forall q, In q ["dashboard$x"] ->
     re_search (PyLib := example_lib) q
       (str_lower (PyLib := example_lib) "build-dashboard") = Ok false).
  { intros q [<- | []]. vm_compute. reflexivity. }
  split; [exact H1|]. split; [vm_compute; reflexivity|].
  split; [vm_compute; reflexivity|].
  exact (proj1 (goal_pattern_first_match (L := example_lib) "s" None
                  ["dashboard$x"] "^build-" ["("] None None None
                  "build-dashboard" "build-dashboard" None H1 eq_refl)).
Defined.


Lemma section_contribution_monotone (n m : Z) :
  n <= m -> (if n >? 2 then n else 0) <= (if m >? 2 then m else 0).
Proof.
  intros H. destruct (n >? 2) eqn:En; destruct (m >? 2) eqn:Em;
    try apply Z.gtb_lt in En; try apply Z.gtb_lt in Em;
    try (apply Z.gtb_ltb in En; apply Z.ltb_ge in En);
    try (apply Z.gtb_ltb in Em; apply Z.ltb_ge in Em); lia.
Qed.

(** X5. Adding keywords to a skill never lowers its score on any goal. *)
Theorem more_keywords_never_lower_score {L : PyLib} skill_name kws more gps fts
    sts skill_path goal_text goal_name sdp_section :
  match score_skill skill_name
          (mkSkillDef (Some (mkTriggers (Some kws) gps fts sts)) skill_path)
          goal_text goal_name sdp_section,
        score_skill skill_name
          (mkSkillDef (Some (mkTriggers (Some (kws ++ more)) gps fts sts)) skill_path)
          goal_text goal_name sdp_section with
  | Ok r0, Ok r1 => score r0 <= score r1
  | Raise e0, Raise e1 => e0 = e1
  | _, _ => False
  end.
Proof.
  rewrite !score_skill_signals. cbv zeta.
  cbn [triggers get_default keywords goal_patterns file_types section_types].
  destruct (goal_pattern_signal _ _) as [g|e]; cbn [bind]; [|reflexivity].
  cbn [score].
  assert (Hk : fst (keyword_signal kws goal_text) <=
               fst (keyword_signal (kws ++ more) goal_text)).
  { unfold keyword_signal. cbn [fst]. rewrite filter_app, length_app. lia. }
  assert (Hs : fst (section_density_signal kws sdp_section) <=
               fst (section_density_signal (kws ++ more) sdp_section)).
  { unfold section_density_signal. destruct sdp_section as [v|]; [|simpl; lia].
    destruct (truthy v); [|simpl; lia].
    rewrite !section_keyword_count_spec, filter_app, length_app.
    set (n := Z.of_nat (List.length (filter _ kws))).
    set (m := Z.of_nat (_ + _)).
    assert (Hnm : n <= m) by (unfold n, m; lia).
    pose proof (section_contribution_monotone n m Hnm).
    destruct (n >? 2); destruct (m >? 2); cbn [fst]; assumption. }
  lia.
Qed.

(* ------------------------------------------------------------------ *)
(** ** The composite matcher: what matches, and what it raises *)

Lemma subseq_In {A} (sub l : list A) x : subseq sub l -> In x sub -> In x l.
Proof.
  induction 1 as [|y sub l H IH|y sub l H IH]; simpl; intros Hx.
  - assumption.
  - right. auto.
  - destruct Hx as [-> | Hx]; [now left | right; auto].
Qed.

Lemma subseq_NoDup {A} (sub l : list A) : subseq sub l -> NoDup l -> NoDup sub.
Proof.
  induction 1 as [|y sub l H IH|y sub l H IH]; intros Hl.
  - constructor.
  - apply NoDup_cons_iff in Hl as [_ Hl]. auto.
  - apply NoDup_cons_iff in Hl as [Hy Hl]. constructor; [|auto].
    intros Hin. apply Hy. eapply subseq_In; eauto.
Qed.

Section MatcherMore.

Context {L : PyLib}.

Variables (goal_name goal_text : string).

Lemma composite_loop_complete items matches res :
  composite_loop items goal_name goal_text matches = Ok res ->
  (forall m, In m matches -> In m res) /\
  forall comp comp_def,
    In (comp, comp_def) items ->
    trigger_loop (get_default (comp_triggers comp_def) []) goal_name goal_text
      = Ok true ->
    In comp (map c_name res).
Proof.
  revert matches res. induction items as [|[n d] items IH]; simpl; intros matches res.
  - intros [= <-]. split; [auto | intros ? ? []].
  - destruct (trigger_loop _ goal_name goal_text) as [[|]|e] eqn:Et; simpl;
      [| |discriminate].
    + destruct (comp_skills d) as [members|]; simpl; [|discriminate].
      intros H. destruct (IH _ _ H) as [Hkeep Hall]. split.
      * intros m Hm. apply Hkeep. apply in_or_app. now left.
      * intros comp cd [[= -> ->] | Hin] Ht.
        -- apply in_map_iff.
           exists (mkCompositeMatch comp members
                     (get_default (comp_description cd) "")).
           split; [reflexivity|]. apply Hkeep. apply in_or_app. right. now left.
        -- eauto.
    + intros H. destruct (IH _ _ H) as [Hkeep Hall]. split; [assumption|].
      intros comp cd [[= -> ->] | Hin] Ht; [congruence | eauto].
Qed.



End MatcherMore.

(** X6. The composites the matcher returns are exactly those whose loop
    over the trigger patterns reaches its break, each once, in the order of
    the registry, with the member list and the description of the registry
    (an empty description when there is none). *)
Theorem composite_matches_exact {L : PyLib} goal_name goal_text
    (composites : Dict.t CompositeDef) res :
  Dict.wf composites ->
  detect_composite_skills goal_name goal_text composites = Ok res ->
  NoDup (map c_name res) /\
  subseq (map c_name res) (Dict.keys composites) /\
  (forall comp comp_def,
     In (comp, comp_def) composites ->
     (trigger_loop (get_default (comp_triggers comp_def) []) goal_name goal_text
        = Ok true <->
      In comp (map c_name res))) /\
  (forall m,
     In m res ->
     exists comp_def,
       In (c_name m, comp_def) composites /\
       comp_skills comp_def = Some (c_skills m) /\
       c_description m = get_default (comp_description comp_def) "").
Proof.
  intros Hwf H.
  destruct (detect_composite_skills_spec _ _ _ _ H) as [Hsub Hall].
  split; [eapply subseq_NoDup; eauto|]. split; [exact Hsub|]. split.
  - intros comp cd Hin. split.
    + intros Ht. unfold detect_composite_skills in H.
      now apply (proj2 (composite_loop_complete _ _ _ _ _ H) comp cd).
    + intros Hm. apply in_map_iff in Hm as (m & <- & Hm).
      destruct (Hall m Hm) as (cd' & Hin' & _ & _ & Ht).
      now rewrite (dict_wf_unique _ _ _ _ Hwf Hin Hin').
  - intros m Hm. destruct (Hall m Hm) as (cd & ? & ? & ? & _). exists cd. auto.
Qed.

Lemma composite_matches_exact_witness :
  Dict.wf (get_default (composites example_registry) []) /\
  exists res,
    detect_composite_skills (L := example_lib) "build-inventory-crud"
      "build-inventory-crud Build Inventory REST api for the stock list"
      (get_default (composites example_registry) []) = Ok res /\
    map c_name res = ["full-stack-feature"] /\
    NoDup (map c_name res).
Proof.
  assert (Hwf : Dict.wf (get_default (composites example_registry) [])).
  { unfold Dict.wf. simpl. repeat constructor; simpl; intuition discriminate. }
  split; [exact Hwf|]. eexists. split; [vm_compute; reflexivity|].
  split; [reflexivity|].
  refine (proj1 (composite_matches_exact (L := example_lib) "build-inventory-crud"
            "build-inventory-crud Build Inventory REST api for the stock list"
            (get_default (composites example_registry) []) _ Hwf _)).
  vm_compute. reflexivity.
Defined.



(* ------------------------------------------------------------------ *)
(** ** The resolver: scores, paths, composites, the written frontmatter *)

Lemma fold_scores_shift (l : list AssignedSkill) (acc : Z) :
  fold_left (fun a s => a + a_score s) l acc = acc + sum_scores l.
Proof.
  unfold sum_scores. revert acc. induction l as [|e l IH]; simpl; intros acc.
  - lia.
  - rewrite IH, (IH (a_score e)). lia.
Qed.

Lemma sum_scores_cons e l : sum_scores (e :: l) = a_score e + sum_scores l.
Proof. unfold sum_scores at 1. simpl. apply fold_scores_shift. Qed.

Lemma sum_scores_app l1 l2 : sum_scores (l1 ++ l2) = sum_scores l1 + sum_scores l2.
Proof.
  induction l1 as [|e l1 IH]; simpl.
  - reflexivity.
  - rewrite !sum_scores_cons, IH. lia.
Qed.

Lemma sum_scores_at_least l :
  (forall e, In e l -> 1 <= a_score e) -> Z.of_nat (List.length l) <= sum_scores l.
Proof.
  induction l as [|e l IH]; intros H.
  - reflexivity.
  - rewrite sum_scores_cons. cbn [List.length].
    pose proof (H e (or_introl eq_refl)).
    assert (Z.of_nat (List.length l) <= sum_scores l)
      by (apply IH; intros; apply H; now right).
    lia.
Qed.

Lemma sum_scores_all_one l :
  (forall e, In e l -> a_score e = 1) -> sum_scores l = Z.of_nat (List.length l).
Proof.
  induction l as [|e l IH]; intros H.
  - reflexivity.
  - rewrite sum_scores_cons, IH by (intros; apply H; now right).
    rewrite (H e (or_introl eq_refl)). cbn [List.length]. lia.
Qed.

Lemma dict_get_none {V} (k : string) (d : Dict.t V) :
  ~ In k (Dict.keys d) -> Dict.get k d = None.
Proof.
  induction d as [|[k' v'] d IH]; simpl; intros H.
  - reflexivity.
  - destruct (String.eqb k k') eqn:E.
    + apply String.eqb_eq in E. subst. tauto.
    + apply IH. tauto.
Qed.

(** X8. Every entry of an assignment has a score of at least 1, and a score
    of exactly 1 marks the entries that only a composite brought in.  The
    total score is the sum of the entries' scores: it is at least the number
    of assigned skills, and it is 0 exactly when no skill is assigned. *)
Theorem assignment_scores {L : PyLib} goal_name frontmatter body registry
    sdp_section dry_run today r w :
  Dict.wf (get_default (skills registry) []) ->
  assign_skills_to_goal goal_name frontmatter body registry sdp_section
    dry_run today = Ok (r, w) ->
  (forall e, In e (assigned_skills r) ->
     1 <= a_score e /\
     (a_score e = 1 <->
      ~ qualifies (get_default (skills registry) [])
          (goal_text_of goal_name frontmatter body) goal_name sdp_section
          (name e))) /\
  total_score r = sum_scores (assigned_skills r) /\
  Z.of_nat (List.length (assigned_skills r)) <= total_score r /\
  (total_score r = 0 <-> assigned_skills r = []).
Proof.
  intros Hwf H.
  destruct (assign_skills_to_goal_shape _ _ _ _ _ _ _ _ _ Hwf H)
    as (all & Hall & Hdet & Hshape).
  pose proof (ranked_primary_qualifies _ _ _ _ _ Hall) as Hq.
  assert (Htot : total_score r = sum_scores (assigned_skills r)).
  { unfold assign_skills_to_goal in H.
    destruct (scoring_loop _ _ _ _ _) as [scores|e]; simpl in H; [|discriminate].
    destruct (detect_composite_skills _ _ _) as [ms|e]; simpl in H; [|discriminate].
    destruct (primary_loop _ _ _) as [assigned|e]; simpl in H; [|discriminate].
    injection H as <- _. reflexivity. }
  assert (Hent : forall e, In e (assigned_skills r) ->
     1 <= a_score e /\
     (a_score e = 1 <->
      ~ qualifies (get_default (skills registry) [])
          (goal_text_of goal_name frontmatter body) goal_name sdp_section
          (name e))).
  { intros e He. rewrite Hshape in He. apply in_app_or in He as [He | He].
    - apply in_map_iff in He as (x & <- & Hx). simpl.
      pose proof (proj1 (ranked_primary_In all x) Hx) as [_ Hge].
      assert (Hd : qualifies (get_default (skills registry) [])
                (goal_text_of goal_name frontmatter body) goal_name sdp_section
                (fst x)) by (apply Hq; now apply in_map).
      split; [lia|]. split; [lia | tauto].
    - pose proof He as He'. apply (in_map name) in He'.
      rewrite expansion_entries_names in He'. apply fresh_In in He' as [_ He'].
      apply expansion_entries_In in He as (comp & _ & _ & ->). simpl.
      split; [lia|]. split; [|reflexivity]. intros _ Hd. apply He'.
      now apply Hq. }
  split; [exact Hent|]. split; [exact Htot|].
  assert (Hlen : Z.of_nat (List.length (assigned_skills r)) <= total_score r).
  { rewrite Htot. apply sum_scores_at_least. intros e He. now apply Hent. }
  split; [exact Hlen|]. split.
  - intros Hz. destruct (assigned_skills r); [reflexivity|].
    simpl List.length in Hlen. lia.
  - intros Hnil. rewrite Htot, Hnil. reflexivity.
Qed.

Lemma assignment_scores_witness :
  Dict.wf (get_default (skills example_registry) []) /\
  exists r w,
    assign_skills_to_goal (L := example_lib) "build-inventory-crud"
      inventory_frontmatter inventory_body example_registry None true
      "2026-01-01" = Ok (r, w) /\
    map a_score (assigned_skills r) = [3; 2; 1] /\ total_score r = 6 /\
    Z.of_nat (List.length (assigned_skills r)) <= total_score r.
Proof.
  split; [exact example_registry_wf|].
  eexists. eexists. split; [vm_compute; reflexivity|].
  split; [reflexivity|]. split; [reflexivity|].
  refine (proj1 (proj2 (proj2 (assignment_scores (L := example_lib)
    "build-inventory-crud" inventory_frontmatter inventory_body
    example_registry None true "2026-01-01" _ _ example_registry_wf _)))).
  vm_compute. reflexivity.
Defined.

(** X9. The path of an entry is the path the registry gives for its skill,
    whether the skill qualified or a composite brought it in, and
    [has_skill_file] tells whether there is one.  A composite member that
    the registry does not know is assigned without a path. *)
Theorem assignment_paths {L : PyLib} goal_name frontmatter body registry
    sdp_section dry_run today r w :
  Dict.wf (get_default (skills registry) []) ->
  assign_skills_to_goal goal_name frontmatter body registry sdp_section
    dry_run today = Ok (r, w) ->
  forall e, In e (assigned_skills r) ->
    (has_skill_file e = true <-> path e <> None) /\
    (forall skill_def,
       In (name e, skill_def) (get_default (skills registry) []) ->
       path e = sd_path skill_def) /\
    (~ In (name e) (Dict.keys (get_default (skills registry) [])) ->
     path e = None /\ has_skill_file e = false).
Proof.
  intros Hwf H e He.
  destruct (assign_skills_to_goal_shape _ _ _ _ _ _ _ _ _ Hwf H)
    as (all & Hall & Hdet & Hshape).
  assert (Hp : path e = registry_path (get_default (skills registry) []) (name e)
               /\ has_skill_file e = is_some (path e)).
  { rewrite Hshape in He. apply in_app_or in He as [He | He].
    - apply in_map_iff in He as (x & <- & Hx). simpl. auto.
    - apply expansion_entries_In in He as (comp & _ & _ & ->). simpl. auto. }
  destruct Hp as [Hp Hh]. split; [|split].
  - rewrite Hh. destruct (path e); simpl; split; congruence.
  - intros d Hd. rewrite Hp. unfold registry_path.
    now rewrite (dict_get_wf _ _ _ Hwf Hd).
  - intros Hn. rewrite Hh, Hp. unfold registry_path.
    now rewrite (dict_get_none _ _ Hn).
Qed.

Lemma assignment_paths_witness :
  Dict.wf (get_default (skills example_registry) []) /\
  exists r w,
    assign_skills_to_goal (L := example_lib) "build-inventory-crud"
      inventory_frontmatter inventory_body example_registry None true
      "2026-01-01" = Ok (r, w) /\
    exists e,
      In e (assigned_skills r) /\ name e = "database-design" /\
      ~ In (name e) (Dict.keys (get_default (skills example_registry) [])) /\
      path e = None /\ has_skill_file e = false.
Proof.
  split; [exact example_registry_wf|].
  eexists. eexists. split; [vm_compute; reflexivity|].
  assert (Hn : ~ In "database-design"
                 (Dict.keys (get_default (skills example_registry) []))).
  { simpl. intuition discriminate. }
  match goal with
  | |- exists e, In e (assigned_skills ?R) /\ _ =>
      pose proof (assignment_paths (L := example_lib)
        "build-inventory-crud" inventory_frontmatter inventory_body
        example_registry None true "2026-01-01" R None example_registry_wf
        ltac:(vm_compute; reflexivity)) as HP
  end.
  eexists. split; [right; right; left; reflexivity|].
  split; [reflexivity|]. split; [exact Hn|].
  apply HP; [right; right; left; reflexivity | exact Hn].
Defined.

(** X10. Composites only append: with the skills of the registry fixed, the
    assignment under any set of composites starts with the assignment
    without composites, entry for entry, and goes on with entries of score
    1; the total score grows by their number. *)
Theorem composites_only_append {L : PyLib} goal_name frontmatter body
    (skill_defs : option (Dict.t SkillDef))
    (composite_defs : option (Dict.t CompositeDef))
    sdp_section dry_run today r0 w0 r w :
  assign_skills_to_goal goal_name frontmatter body
    (mkRegistry skill_defs None) sdp_section dry_run today = Ok (r0, w0) ->
  assign_skills_to_goal goal_name frontmatter body
    (mkRegistry skill_defs composite_defs) sdp_section dry_run today = Ok (r, w) ->
  exists extras,
    assigned_skills r = assigned_skills r0 ++ extras /\
    (forall e, In e extras -> a_score e = 1) /\
    total_score r = total_score r0 + Z.of_nat (List.length extras).
Proof.
  unfold assign_skills_to_goal. cbn [skills composites get_default].
  destruct (scoring_loop _ _ _ _ _) as [scores|e]; cbn [bind]; [|discriminate].
  cbn [detect_composite_skills composite_loop bind].
  destruct (detect_composite_skills _ _ _) as [ms|e]; cbn [bind]; [|discriminate].
  destruct (primary_loop _ _ _) as [assigned|e]; cbn [bind]; [|discriminate].
  cbn [expansion_loop]. intros [= <- _] [= <- _]. cbn [assigned_skills total_score].
  rewrite expansion_loop_spec.
  exists (expansion_entries ms (get_default skill_defs []) (map name assigned)).
  assert (Hone : forall e,
            In e (expansion_entries ms (get_default skill_defs [])
                    (map name assigned)) -> a_score e = 1).
  { intros e He. apply expansion_entries_In in He as (c & _ & _ & ->).
    reflexivity. }
  split; [reflexivity|]. split; [exact Hone|].
  rewrite sum_scores_app. f_equal. now apply sum_scores_all_one.
Qed.

Lemma composites_only_append_witness :
  exists r0 w0 r w,
    assign_skills_to_goal (L := example_lib) "build-inventory-crud"
      inventory_frontmatter inventory_body
      (mkRegistry (skills example_registry) None) None true "2026-01-01"
      = Ok (r0, w0) /\
    assign_skills_to_goal (L := example_lib) "build-inventory-crud"
      inventory_frontmatter inventory_body
      (mkRegistry (skills example_registry) (composites example_registry))
      None true "2026-01-01" = Ok (r, w) /\
    map name (assigned_skills r0) = ["frontend-design"; "api-design"] /\
    exists extras,
      assigned_skills r = assigned_skills r0 ++ extras /\
      (forall e, In e extras -> a_score e = 1) /\
      total_score r = total_score r0 + Z.of_nat (List.length extras).
Proof.
  eexists. eexists. eexists. eexists.
  split; [vm_compute; reflexivity|]. split; [vm_compute; reflexivity|].
  split; [reflexivity|].
  eapply (composites_only_append (L := example_lib) "build-inventory-crud"
            inventory_frontmatter inventory_body (skills example_registry)
            (composites example_registry) None true "2026-01-01");
    vm_compute; reflexivity.
Defined.

Lemma truthy_paths_In assigned p :
  In p (truthy_paths assigned) <->
  p <> "" /\ exists e, In e assigned /\ path e = Some p.
Proof.
  induction assigned as [|e assigned IH]; simpl.
  - split; [tauto | intros [_ (e & [] & _)]].
  - destruct (path e) as [q|] eqn:Eq.
    + destruct (String.eqb q "") eqn:Ee; simpl.
      * apply String.eqb_eq in Ee. subst q. rewrite IH. split.
        -- intros [Hne (e' & He' & Hp)]. split; [assumption|]. exists e'. auto.
        -- intros [Hne (e' & [<- | He'] & Hp)]; [congruence|].
           split; [assumption|]. exists e'. auto.
      * apply String.eqb_neq in Ee. rewrite IH. split.
        -- intros [<- | [Hne (e' & He' & Hp)]].
           ++ split; [assumption|]. exists e. auto.
           ++ split; [assumption|]. exists e'. auto.
        -- intros [Hne (e' & [<- | He'] & Hp)].
           ++ left. congruence.
           ++ right. split; [assumption|]. exists e'. auto.
    + rewrite IH. split.
      * intros [Hne (e' & He' & Hp)]. split; [assumption|]. exists e'. auto.
      * intros [Hne (e' & [<- | He'] & Hp)]; [congruence|].
        split; [assumption|]. exists e'. auto.
Qed.

(** X11. The goal file is written exactly when the run is not a dry run and
    at least one skill is assigned.  What is written keeps the body and the
    title, lists the assigned names in the order of the assignment, lists
    the paths that are present and not empty, and carries the date of the
    run. *)
Theorem written_frontmatter {L : PyLib} goal_name frontmatter body registry
    sdp_section dry_run today r w :
  assign_skills_to_goal goal_name frontmatter body registry sdp_section
    dry_run today = Ok (r, w) ->
  (w = None <-> dry_run = true \/ assigned_skills r = []) /\
  (forall frontmatter' body',
     w = Some (frontmatter', body') ->
     body' = body /\
     title frontmatter' = title frontmatter /\
     fm_skills frontmatter' = Some (map name (assigned_skills r)) /\
     fm_skills_assigned frontmatter' = Some today /\
     exists paths,
       fm_skill_paths frontmatter' = Some paths /\
       forall p,
         In p paths <->
         p <> "" /\ exists e, In e (assigned_skills r) /\ path e = Some p).
Proof.
  unfold assign_skills_to_goal.
  destruct (scoring_loop _ _ _ _ _) as [scores|e]; cbn [bind]; [|discriminate].
  destruct (detect_composite_skills _ _ _) as [ms|e]; cbn [bind]; [|discriminate].
  destruct (primary_loop _ _ _) as [assigned|e]; cbn [bind]; [|discriminate].
  intros [= <- <-]. cbn [assigned_skills].
  set (final := expansion_loop ms (get_default (skills registry) []) assigned).
  split.
  - destruct dry_run; simpl; [split; auto|].
    destruct final; simpl; split; auto; try discriminate.
    intros [? | ?]; discriminate.
  - intros fm' body'. destruct (negb dry_run && nonempty final)%bool; [|discriminate].
    intros [= <- <-]. cbn [title fm_skills fm_skill_paths fm_skills_assigned].
    repeat split. exists (truthy_paths final). split; [reflexivity|].
    apply truthy_paths_In.
Qed.

Lemma written_frontmatter_witness :
  exists r w,
    assign_skills_to_goal (L := example_lib) "build-docs" docs_frontmatter
      docs_body docs_registry None false "2026-01-01" = Ok (r, w) /\
    w = Some (mkFrontmatter (Some "Docs") (Some ["docs"]) (Some [])
                (Some "2026-01-01"), docs_body) /\
    (w = None <-> false = true \/ assigned_skills r = []).
Proof.
  eexists. eexists. split; [vm_compute; reflexivity|]. split; [reflexivity|].
  refine (proj1 (written_frontmatter (L := example_lib) "build-docs"
            docs_frontmatter docs_body docs_registry None false "2026-01-01"
            _ _ _)).
  vm_compute. reflexivity.
Defined.

Lemma fresh_all_seen seen members :
  (forall m, In m members -> In m seen) -> fresh seen members = [].
Proof.
  revert seen. induction members as [|m rest IH]; simpl; intros seen H.
  - reflexivity.
  - rewrite (proj2 (mem_In m seen) (H m (or_introl eq_refl))). apply IH. auto.
Qed.

Lemma expansion_entries_all_seen matches skills_config seen :
  (forall m, In m (flat_map c_skills matches) -> In m seen) ->
  expansion_entries matches skills_config seen = [].
Proof.
  revert seen. induction matches as [|comp rest IH]; simpl; intros seen H.
  - reflexivity.
  - rewrite fresh_all_seen by (intros; apply H; apply in_or_app; now left).
    simpl. rewrite app_nil_r. apply IH. intros; apply H; apply in_or_app; now right.
Qed.

(** X12. The composite loop is idempotent: run again on its own result, it
    adds nothing, because every member of every matched composite is
    assigned already. *)
Theorem expansion_idempotent matches skills_config assigned :
  expansion_loop matches skills_config
    (expansion_loop matches skills_config assigned) =
  expansion_loop matches skills_config assigned /\
  (forall comp m,
     In comp matches -> In m (c_skills comp) ->
     In m (map name (expansion_loop matches skills_config assigned))).
Proof.
  assert (Hcover : forall m,
    In m (flat_map c_skills matches) ->
    In m (map name (expansion_loop matches skills_config assigned))).
  { intros m Hm. rewrite expansion_loop_spec, map_app, expansion_entries_names.
    apply in_or_app.
    destruct (in_dec string_dec m (map name assigned)) as [Hi | Hi];
      [now left | right]. now apply fresh_In. }
  split.
  - rewrite (expansion_loop_spec matches skills_config
               (expansion_loop matches skills_config assigned)).
    rewrite expansion_entries_all_seen by exact Hcover. apply app_nil_r.
  - intros comp m Hc Hm. apply Hcover. apply in_flat_map. now exists comp.
Qed.

(* ------------------------------------------------------------------ *)
(** ** Splitting text at a marker *)

Lemma drop_append a b : Text.drop (String.length a) (a +++ b) = b.
Proof. induction a as [|c a IH]; simpl; [reflexivity | exact IH]. Qed.

Lemma contains_false_cons needle c hay :
  Str.contains needle (String c hay) = false ->
  String.prefix needle (String c hay) = false /\ Str.contains needle hay = false.
Proof.
  cbn [Str.contains]. destruct (String.prefix needle (String c hay)).
  - discriminate.
  - auto.
Qed.

(** [find_split] returns the text around an occurrence of the separator. *)
Lemma find_split_sound sep s before after :
  Text.find_split sep s = Some (before, after) -> s = before +++ sep +++ after.
Proof.
  revert before. induction s as [|c s IH]; intros before; cbn [Text.find_split].
  - destruct (String.prefix sep "") eqn:E; [|discriminate].
    intros [= <- <-]. apply prefix_append in E as [t Ht].
    destruct sep; [reflexivity | discriminate].
  - destruct (String.prefix sep (String c s)) eqn:E.
    + intros [= <- <-]. apply prefix_append in E as [t Ht].
      rewrite Ht at 2. now rewrite drop_append.
    + destruct (Text.find_split sep s) as [[b a]|]; [|discriminate].
      intros [= <- <-]. simpl. f_equal. now apply IH.
Qed.

(** Without an occurrence of the separator there is nothing to split. *)
Lemma find_split_none sep s :
  Str.contains sep s = false <-> Text.find_split sep s = None.
Proof.
  induction s as [|c s IH]; cbn [Str.contains Text.find_split].
  - destruct (String.prefix sep ""); split; congruence.
  - destruct (String.prefix sep (String c s)); [split; congruence|].
    rewrite IH. destruct (Text.find_split sep s) as [[b a]|]; split; congruence.
Qed.

Lemma prefix_cons a s1 b s2 :
  String.prefix (String a s1) (String b s2) =
  if Ascii.eqb a b then String.prefix s1 s2 else false.
Proof.
  cbn [String.prefix]. destruct (ascii_dec a b) as [-> | Hne].
  - now rewrite Ascii.eqb_refl.
  - apply Ascii.eqb_neq in Hne. now rewrite Hne.
Qed.

Lemma prefix_nil s : String.prefix "" s = true.
Proof. now destruct s. Qed.

(** Case analysis on the first characters that a marker is compared with. *)
Ltac marker_cases :=
  unfold Text.nl; cbn [String.append];
  repeat rewrite prefix_cons; repeat rewrite prefix_nil;
  repeat match goal with
         | |- context [Ascii.eqb "-" ?x] => is_var x; destruct (Ascii.eqb "-" x)
         end;
  intros H; try reflexivity; try (vm_compute in H; discriminate).

Lemma prefix_marker_extend c a rest :
  String.prefix "---" (String c (a +++ "--")) = false ->
  String.prefix "---" (String c (a +++ "---" +++ rest)) = false.
Proof.
  destruct a as [|d [|e' a]]; marker_cases.
Qed.

(** The leftmost marker of [a ++ "---" ++ b] is the one written, when no
    marker starts inside [a]. *)
Lemma find_split_marker a b :
  Str.contains "---" (a +++ "--") = false ->
  Text.find_split "---" (a +++ "---" +++ b) = Some (a, b).
Proof.
  induction a as [|c a IH]; intros H.
  - cbn [String.append Text.find_split].
    rewrite !prefix_cons, prefix_nil. reflexivity.
  - change (String c a +++ "--") with (String c (a +++ "--")) in H.
    apply contains_false_cons in H as [Hp Hc].
    change (String c a +++ "---" +++ b) with (String c (a +++ "---" +++ b)).
    cbn [Text.find_split]. rewrite (prefix_marker_extend c a b Hp).
    now rewrite (IH Hc).
Qed.

Lemma prefix_marker_newline c f rest :
  String.prefix "---" (String c f) = false ->
  String.prefix "---" (String c (f +++ Text.nl +++ rest)) = false.
Proof.
  destruct f as [|d [|e' f]]; marker_cases.
Qed.

(** A text without a marker has none when it is put between line feeds. *)
Lemma contains_marker_block f :
  Str.contains "---" f = false ->
  Str.contains "---" ((Text.nl +++ f +++ Text.nl) +++ "--") = false.
Proof.
  intros H.
  assert (Hin : Str.contains "---" (f +++ Text.nl +++ "--") = false).
  { induction f as [|c f IH].
    - reflexivity.
    - apply contains_false_cons in H as [Hp Hc].
      change (String c f +++ Text.nl +++ "--")
        with (String c (f +++ Text.nl +++ "--")).
      cbn [Str.contains]. rewrite (prefix_marker_newline c f "--" Hp).
      now apply IH. }
  change ((Text.nl +++ f +++ Text.nl) +++ "--")
    with (String "010"%char ((f +++ Text.nl) +++ "--")).
  cbn [Str.contains].
  assert (E : (f +++ Text.nl) +++ "--" = f +++ Text.nl +++ "--").
  { clear. induction f as [|c f IH]; simpl; [reflexivity | now rewrite IH]. }
  rewrite E, prefix_cons. exact Hin.
Qed.

(* ------------------------------------------------------------------ *)
(** ** Reading and writing the goal file *)

Lemma string_app_assoc (x y z : string) : (x +++ y) +++ z = x +++ y +++ z.
Proof. induction x as [|c x IH]; simpl; [reflexivity | now rewrite IH]. Qed.

Lemma find_split_prefix sep s :
  String.prefix sep s = true ->
  Text.find_split sep s = Some ("", Text.drop (String.length sep) s).
Proof. intros H. destruct s; cbn [Text.find_split]; now rewrite H. Qed.

Section GoalFileFacts.

Context {Y : YamlLib}.

Lemma parse_marked_block (a b : string) :
  Str.contains "---" (a +++ "--") = false ->
  parse_goal_frontmatter ("---" +++ a +++ "---" +++ b) = (loaded_or_empty a, b).
Proof.
  intros H. unfold parse_goal_frontmatter, Str.startswith.
  assert (Hp : String.prefix "---" ("---" +++ a +++ "---" +++ b) = true).
  { cbn [String.append]. now rewrite !prefix_cons, prefix_nil. }
  rewrite Hp. cbn [Text.split]. rewrite (find_split_prefix _ _ Hp).
  rewrite (drop_append "---" (a +++ "---" +++ b)).
  rewrite (find_split_marker a b H). cbn [List.length Nat.leb nth].
  unfold loaded_or_empty. now destruct (yaml_safe_load a) as [[l|]|].
Qed.

End GoalFileFacts.

(** X13. A file that does not start with the marker [---], or that has no
    second marker, has an empty frontmatter, and its whole content is the
    body, a leading marker included. *)
Theorem parse_without_frontmatter {Y : YamlLib} content :
  Str.startswith "---" content = false \/
  Str.contains "---" (Text.drop 3 content) = false ->
  parse_goal_frontmatter content = (mkFrontmatter None None None None, content).
Proof.
  unfold parse_goal_frontmatter.
  destruct (Str.startswith "---" content) eqn:Es; [|reflexivity].
  intros [H | H]; [discriminate|].
  unfold Str.startswith in Es. cbn [Text.split].
  rewrite (find_split_prefix _ _ Es). cbn [String.length].
  now rewrite (proj1 (find_split_none _ _) H).
Qed.

Lemma parse_without_frontmatter_witness :
  (Str.startswith "---" "--- a single marker" = false \/
   Str.contains "---" (Text.drop 3 "--- a single marker") = false) /\
  parse_goal_frontmatter (Y := TitleYaml) "--- a single marker" =
    (mkFrontmatter None None None None, "--- a single marker").
Proof.
  assert (H : Str.startswith "---" "--- a single marker" = false \/
              Str.contains "---" (Text.drop 3 "--- a single marker") = false).
  { right. vm_compute. reflexivity. }
  split; [exact H|].
  exact (parse_without_frontmatter (Y := TitleYaml) "--- a single marker" H).
Defined.

(** X14. Of a file that starts with the marker, the text up to the second
    marker is the frontmatter block and everything after it is the body,
    whatever the body holds, further markers included.  A block that does
    not load, or that loads as an empty document, gives an empty
    frontmatter; neither is an error. *)
Theorem parse_frontmatter_block {Y : YamlLib} (block body : string) :
  Str.contains "---" (block +++ "--") = false ->
  parse_goal_frontmatter ("---" +++ block +++ "---" +++ body) =
    (loaded_or_empty block, body) /\
  (yaml_safe_load block = None \/ yaml_safe_load block = Some None ->
   parse_goal_frontmatter ("---" +++ block +++ "---" +++ body) =
     (mkFrontmatter None None None None, body)).
Proof.
  intros H. split; [now apply parse_marked_block|].
  intros Hl. rewrite (parse_marked_block _ _ H). unfold loaded_or_empty.
  now destruct Hl as [-> | ->].
Qed.

Lemma parse_frontmatter_block_witness :
  Str.contains "---" (dashboard_block +++ "--") = false /\
  Str.contains "---" dashboard_text = true /\
  parse_goal_frontmatter (Y := TitleYaml) dashboard_file =
    (dashboard_frontmatter, dashboard_text).
Proof.
  assert (H : Str.contains "---" (dashboard_block +++ "--") = false)
    by (vm_compute; reflexivity).
  split; [exact H|]. split; [vm_compute; reflexivity|].
  exact (proj1 (parse_frontmatter_block (Y := TitleYaml) dashboard_block
                  dashboard_text H)).
Defined.

Lemma write_shape {Y : YamlLib} frontmatter body :
  write_goal_with_skills frontmatter body =
  "---" +++ (Text.nl +++ Text.strip (yaml_dump frontmatter) +++ Text.nl)
        +++ "---" +++ body.
Proof.
  unfold write_goal_with_skills. cbv zeta.
  now rewrite !string_app_assoc.
Qed.

Lemma write_then_parse_core {Y : YamlLib} frontmatter body :
  Str.contains "---" (Text.strip (yaml_dump frontmatter)) = false ->
  parse_goal_frontmatter (write_goal_with_skills frontmatter body) =
    (loaded_or_empty
       (Text.nl +++ Text.strip (yaml_dump frontmatter) +++ Text.nl),
     body).
Proof.
  intros H. rewrite write_shape.
  now rewrite (parse_marked_block _ _ (contains_marker_block _ H)).
Qed.

(** X15. Writing a goal file and reading it back gives the body that was
    written, exactly, and the frontmatter that the dumped text loads as,
    provided the dumped frontmatter holds no marker [---]; with a library
    that loads what it dumps, it gives back the frontmatter that was
    written. *)
Theorem write_then_parse {Y : YamlLib} frontmatter body :
  Str.contains "---" (Text.strip (yaml_dump frontmatter)) = false ->
  parse_goal_frontmatter (write_goal_with_skills frontmatter body) =
    (loaded_or_empty
       (Text.nl +++ Text.strip (yaml_dump frontmatter) +++ Text.nl),
     body) /\
  (yaml_safe_load (Text.nl +++ Text.strip (yaml_dump frontmatter) +++ Text.nl)
     = Some (Some frontmatter) ->
   parse_goal_frontmatter (write_goal_with_skills frontmatter body) =
     (frontmatter, body)).
Proof.
  intros H. rewrite (write_then_parse_core _ _ H).
  split; [reflexivity|]. intros Hl. unfold loaded_or_empty. now rewrite Hl.
Qed.

Lemma write_then_parse_witness :
  Str.contains "---"
    (Text.strip (yaml_dump (YamlLib := TitleYaml) dashboard_frontmatter)) = false /\
  parse_goal_frontmatter (Y := TitleYaml)
    (write_goal_with_skills (Y := TitleYaml) dashboard_frontmatter dashboard_text)
    = (dashboard_frontmatter, dashboard_text).
Proof.
  assert (H : Str.contains "---"
    (Text.strip (yaml_dump (YamlLib := TitleYaml) dashboard_frontmatter)) = false)
    by (vm_compute; reflexivity).
  split; [exact H|].
  exact (proj2 (write_then_parse (Y := TitleYaml) dashboard_frontmatter
                  dashboard_text H) eq_refl).
Defined.

(* ------------------------------------------------------------------ *)
(** ** Running the assigner again on the file it wrote *)

Section Rerun.

Context {L : PyLib}.

(** Of the frontmatter, the resolver uses the title alone. *)
Lemma assign_title_only goal_name frontmatter1 frontmatter2 body registry
    sdp_section dry_run today :
  title frontmatter1 = title frontmatter2 ->
  assign_skills_to_goal goal_name frontmatter1 body registry sdp_section
    dry_run today =
  assign_skills_to_goal goal_name frontmatter2 body registry sdp_section
    dry_run today.
Proof.
  intros H. unfold assign_skills_to_goal. now rewrite H.
Qed.

Lemma assign_written_keeps goal_name frontmatter body registry sdp_section
    dry_run today r frontmatter' body' :
  assign_skills_to_goal goal_name frontmatter body registry sdp_section
    dry_run today = Ok (r, Some (frontmatter', body')) ->
  body' = body /\ title frontmatter' = title frontmatter.
Proof.
  unfold assign_skills_to_goal.
  destruct (scoring_loop _ _ _ _ _) as [scores|e]; cbn [bind]; [|discriminate].
  destruct (detect_composite_skills _ _ _) as [ms|e]; cbn [bind]; [|discriminate].
  destruct (primary_loop _ _ _) as [assigned|e]; cbn [bind]; [|discriminate].
  destruct (negb dry_run && nonempty _)%bool; [|discriminate].
  intros [= _ <- <-]. now split.
Qed.

Lemma assign_result_independent goal_name frontmatter body registry sdp_section
    dry_run1 today1 dry_run2 today2 r w :
  assign_skills_to_goal goal_name frontmatter body registry sdp_section
    dry_run1 today1 = Ok (r, w) ->
  exists w',
    assign_skills_to_goal goal_name frontmatter body registry sdp_section
      dry_run2 today2 = Ok (r, w').
Proof.
  unfold assign_skills_to_goal.
  destruct (scoring_loop _ _ _ _ _) as [scores|e]; cbn [bind]; [|discriminate].
  destruct (detect_composite_skills _ _ _) as [ms|e]; cbn [bind]; [|discriminate].
  destruct (primary_loop _ _ _) as [assigned|e]; cbn [bind]; [|discriminate].
  intros [= <- _]. eauto.
Qed.

(** What a run that is not a dry run writes: the title it read, the names
    and the paths of the skills it assigned, and the date. *)
Lemma assign_written_keys goal_name frontmatter body registry sdp_section
    today r frontmatter' body' :
  assign_skills_to_goal goal_name frontmatter body registry sdp_section
    false today = Ok (r, Some (frontmatter', body')) ->
  frontmatter' =
    mkFrontmatter (title frontmatter) (Some (map name (assigned_skills r)))
      (Some (truthy_paths (assigned_skills r))) (Some today) /\
  forall today2,
    assign_skills_to_goal goal_name frontmatter body registry sdp_section
      false today2 =
    Ok (r, Some (mkFrontmatter (title frontmatter)
                   (Some (map name (assigned_skills r)))
                   (Some (truthy_paths (assigned_skills r))) (Some today2),
                 body)).
Proof.
  unfold assign_skills_to_goal.
  destruct (scoring_loop _ _ _ _ _) as [scores|e]; cbn [bind]; [|discriminate].
  destruct (detect_composite_skills _ _ _) as [ms|e]; cbn [bind]; [|discriminate].
  destruct (primary_loop _ _ _) as [assigned|e]; cbn [bind]; [|discriminate].
  destruct (negb false && nonempty _)%bool; [|discriminate].
  intros [= <- <- _]. cbn [assigned_skills]. now split.
Qed.

(** A dry run writes nothing. *)
Lemma assign_dry_run goal_name frontmatter body registry sdp_section today r w :
  assign_skills_to_goal goal_name frontmatter body registry sdp_section
    true today = Ok (r, w) ->
  w = None.
Proof.
  unfold assign_skills_to_goal.
  destruct (scoring_loop _ _ _ _ _) as [scores|e]; cbn [bind]; [|discriminate].
  destruct (detect_composite_skills _ _ _) as [ms|e]; cbn [bind]; [|discriminate].
  destruct (primary_loop _ _ _) as [assigned|e]; cbn [bind]; [|discriminate].
  cbn [negb andb]. now intros [= _ <-].
Qed.

End Rerun.

(** X16. Running the assigner again on the file it wrote.  Let a run that
    is not a dry run write a frontmatter whose dumped text holds no marker
    [---] and loads with the title it was written with.  Then the written
    file parses to that title and to the body that was read, and every
    later run on the written file returns the same assignment, for the same
    registry and payload: a dry run writes nothing, and any other run
    writes the same title, the same [skills] and [skill_paths] and the same
    body again, with the date of that run. *)
Theorem goal_file_rerun {L : PyLib} {Y : YamlLib} goal_name content registry
    sdp_section today r frontmatter' body' :
  assign_skills_to_goal goal_name (fst (parse_goal_frontmatter content))
    (snd (parse_goal_frontmatter content)) registry sdp_section false today
    = Ok (r, Some (frontmatter', body')) ->
  Str.contains "---" (Text.strip (yaml_dump frontmatter')) = false ->
  title (loaded_or_empty
           (Text.nl +++ Text.strip (yaml_dump frontmatter') +++ Text.nl))
    = title frontmatter' ->
  let written := write_goal_with_skills frontmatter' body' in
  assign_skills_to_goal_file goal_name content registry sdp_section false today
    = Ok (r, Some written) /\
  (body' = snd (parse_goal_frontmatter content) /\
   snd (parse_goal_frontmatter written) = body' /\
   title (fst (parse_goal_frontmatter written)) = title frontmatter') /\
  (forall today2,
     assign_skills_to_goal goal_name (fst (parse_goal_frontmatter written))
       (snd (parse_goal_frontmatter written)) registry sdp_section false today2
     = Ok (r, Some (mkFrontmatter (title frontmatter') (fm_skills frontmatter')
                      (fm_skill_paths frontmatter') (Some today2),
                    body'))) /\
  (forall today2,
     assign_skills_to_goal_file goal_name written registry sdp_section
       true today2 = Ok (r, None)) /\
  (forall dry_run today2,
     exists w2,
       assign_skills_to_goal_file goal_name written registry sdp_section
         dry_run today2 = Ok (r, w2)).
Proof.
  intros H Hmark Htitle written.
  assert (H1 : assign_skills_to_goal_file goal_name content registry sdp_section
                 false today = Ok (r, Some written)).
  { unfold assign_skills_to_goal_file.
    destruct (parse_goal_frontmatter content) as [fm body]. simpl in H.
    now rewrite H. }
  destruct (assign_written_keeps _ _ _ _ _ _ _ _ _ _ H) as [Hb Ht].
  destruct (assign_written_keys _ _ _ _ _ _ _ _ _ H) as [Hkeys Hrun].
  assert (Hparse : parse_goal_frontmatter written =
            (loaded_or_empty
               (Text.nl +++ Text.strip (yaml_dump frontmatter') +++ Text.nl),
             body')).
  { unfold written. now apply write_then_parse_core. }
  assert (Hsame : forall dry_run today2,
    assign_skills_to_goal goal_name
      (loaded_or_empty
         (Text.nl +++ Text.strip (yaml_dump frontmatter') +++ Text.nl))
      body' registry sdp_section dry_run today2 =
    assign_skills_to_goal goal_name
      (mkFrontmatter (title frontmatter') None None None)
      (snd (parse_goal_frontmatter content)) registry sdp_section
      dry_run today2).
  { intros dr t2. rewrite Hb. apply assign_title_only. exact Htitle. }
  assert (Hfirst : forall dry_run today2,
    assign_skills_to_goal goal_name
      (mkFrontmatter (title frontmatter') None None None)
      (snd (parse_goal_frontmatter content)) registry sdp_section
      dry_run today2 =
    assign_skills_to_goal goal_name (fst (parse_goal_frontmatter content))
      (snd (parse_goal_frontmatter content)) registry sdp_section
      dry_run today2).
  { intros dr t2. apply assign_title_only. exact Ht. }
  assert (Hlater : forall dry_run today2,
    exists w2,
      assign_skills_to_goal goal_name
        (loaded_or_empty
           (Text.nl +++ Text.strip (yaml_dump frontmatter') +++ Text.nl))
        body' registry sdp_section dry_run today2 = Ok (r, w2)).
  { intros dr t2. rewrite Hsame, Hfirst.
    exact (assign_result_independent _ _ _ _ _ _ _ dr t2 _ _ H). }
  split; [exact H1|]. split.
  { rewrite Hparse. cbn [fst snd]. repeat split; [exact Hb | exact Htitle]. }
  split.
  { intros t2. rewrite Hparse. cbn [fst snd]. rewrite Hsame, Hfirst, Hrun.
    rewrite Hkeys. cbn [title fm_skills fm_skill_paths]. now rewrite Hb. }
  split.
  - intros t2. unfold assign_skills_to_goal_file. rewrite Hparse.
    destruct (Hlater true t2) as [w2 Hw2]. rewrite Hw2. cbn [bind].
    now rewrite (assign_dry_run _ _ _ _ _ _ _ _ Hw2).
  - intros dr t2. unfold assign_skills_to_goal_file. rewrite Hparse.
    destruct (Hlater dr t2) as [w2 Hw2]. rewrite Hw2. cbn [bind]. eauto.
Qed.

Lemma goal_file_rerun_witness :
  exists r frontmatter' body',
    assign_skills_to_goal (L := example_lib) "build-dashboard"
      (fst (parse_goal_frontmatter (Y := BlockYaml) dashboard_file))
      (snd (parse_goal_frontmatter (Y := BlockYaml) dashboard_file))
      example_registry None false "2026-01-01"
      = Ok (r, Some (frontmatter', body')) /\
    Str.contains "---"
      (Text.strip (yaml_dump (YamlLib := BlockYaml) frontmatter')) = false /\
    title (loaded_or_empty (Y := BlockYaml)
             (Text.nl +++ Text.strip (yaml_dump (YamlLib := BlockYaml) frontmatter')
                      +++ Text.nl))
      = title frontmatter' /\
    frontmatter' =
      mkFrontmatter (Some "Build Dashboard") (Some ["frontend-design"])
        (Some []) (Some "2026-01-01") /\
    String.eqb (write_goal_with_skills (Y := BlockYaml) frontmatter' body')
      dashboard_file = false /\
    fst (parse_goal_frontmatter (Y := BlockYaml)
           (write_goal_with_skills (Y := BlockYaml) frontmatter' body'))
      = frontmatter' /\
    assign_skills_to_goal (L := example_lib) "build-dashboard"
      (fst (parse_goal_frontmatter (Y := BlockYaml)
              (write_goal_with_skills (Y := BlockYaml) frontmatter' body')))
      (snd (parse_goal_frontmatter (Y := BlockYaml)
              (write_goal_with_skills (Y := BlockYaml) frontmatter' body')))
      example_registry None false "2026-02-02"
      = Ok (r, Some (mkFrontmatter (title frontmatter') (fm_skills frontmatter')
                       (fm_skill_paths frontmatter') (Some "2026-02-02"),
                     body')).
Proof.
  eexists. eexists. eexists.
  split; [vm_compute; reflexivity|].
  split; [vm_compute; reflexivity|].
  split; [vm_compute; reflexivity|].
  split; [reflexivity|].
  split; [vm_compute; reflexivity|].
  split; [vm_compute; reflexivity|].
  refine (proj1 (proj2 (proj2 (goal_file_rerun (L := example_lib)
            (Y := BlockYaml) "build-dashboard" dashboard_file example_registry
            None "2026-01-01" _ _ _ _ _ _))) "2026-02-02").
  - vm_compute. reflexivity.
  - vm_compute. reflexivity.
  - vm_compute. reflexivity.
Defined.

(* ------------------------------------------------------------------ *)
(** ** The totals of a run *)

Lemma sum_Z_app l1 l2 : sum_Z (l1 ++ l2) = sum_Z l1 + sum_Z l2.
Proof. induction l1 as [|x l1 IH]; simpl; [reflexivity | rewrite IH; lia]. Qed.

Lemma sum_Z_perm l1 l2 : Permutation l1 l2 -> sum_Z l1 = sum_Z l2.
Proof. induction 1; simpl; lia. Qed.

Lemma sum_set_increment (k : string) (d : Dict.t Z) :
  sum_Z (map snd (Dict.set k (count_of k d + 1) d)) = sum_Z (map snd d) + 1.
Proof.
  unfold count_of. induction d as [|[k' v'] d IH]; simpl.
  - reflexivity.
  - destruct (String.eqb k k') eqn:E; simpl.
    + lia.
    + rewrite IH. lia.
Qed.

Lemma count_skills_sum entries d :
  sum_Z (map snd (count_skills entries d)) =
  sum_Z (map snd d) + Z.of_nat (List.length entries).
Proof.
  revert d. induction entries as [|e entries IH]; intros d.
  - simpl. lia.
  - cbn [count_skills List.length]. rewrite IH.
    fold (count_of (name e) d). rewrite sum_set_increment. lia.
Qed.

Lemma count_assignments_sum assignments d :
  sum_Z (map snd (count_assignments assignments d)) =
  sum_Z (map snd d) + Z.of_nat (List.length (all_names assignments)).
Proof.
  revert d. induction assignments as [|a assignments IH]; intros d.
  - simpl. lia.
  - cbn [count_assignments]. rewrite IH, count_skills_sum.
    unfold all_names. cbn [flat_map]. rewrite length_app, length_map. lia.
Qed.

Lemma total_assignments_names assignments :
  total_assignments assignments = Z.of_nat (List.length (all_names assignments)).
Proof.
  unfold total_assignments.
  assert (H : forall acc,
    fold_left (fun acc a => acc + Z.of_nat (List.length (assigned_skills a)))
      assignments acc =
    acc + Z.of_nat (List.length (all_names assignments))).
  { induction assignments as [|a assignments IH]; intros acc; simpl.
    - lia.
    - rewrite IH. unfold all_names. cbn [flat_map].
      rewrite length_app, length_map. lia. }
  apply H.
Qed.

Lemma goals_with_skills_bound assignments :
  0 <= goals_with_skills assignments <= Z.of_nat (List.length assignments) /\
  goals_with_skills assignments <= total_assignments assignments.
Proof.
  unfold goals_with_skills, total_assignments.
  assert (H : forall g t,
    g <= t ->
    let g' := fold_left (fun acc a => if nonempty (assigned_skills a)
                                      then acc + 1 else acc) assignments g in
    g <= g' <= g + Z.of_nat (List.length assignments) /\
    g' <= fold_left (fun acc a => acc + Z.of_nat (List.length (assigned_skills a)))
            assignments t).
  { induction assignments as [|a assignments IH]; intros g t Hgt; simpl.
    - lia.
    - destruct (assigned_skills a) as [|e es] eqn:Ea; simpl.
      + specialize (IH g (t + 0) ltac:(lia)). simpl in IH. lia.
      + specialize (IH (g + 1) (t + Z.pos (Pos.of_succ_nat (List.length es)))
                      ltac:(lia)).
        simpl in IH. lia. }
  specialize (H 0 0 ltac:(lia)). simpl in H. lia.
Qed.

(** X17. The number of skill assignments that [main] reports is the sum of
    the counts of the usage summary, and no row of the summary has a count
    below 1.  The number of goals with skills that it reports is at most
    the number of goals and at most the number of skill assignments. *)
Theorem run_totals assignments :
  total_assignments assignments =
    sum_Z (map (fun row => snd (fst row)) (skill_usage_summary assignments)) /\
  (forall skill count flag,
     In (skill, count, flag) (skill_usage_summary assignments) -> 1 <= count) /\
  0 <= goals_with_skills assignments <= Z.of_nat (List.length assignments) /\
  goals_with_skills assignments <= total_assignments assignments.
Proof.
  split; [|split; [|apply goals_with_skills_bound]].
  - rewrite total_assignments_names.
    pose proof (count_assignments_sum assignments []) as Hs. simpl in Hs.
    rewrite <- Hs. unfold skill_usage_summary. rewrite map_map.
    transitivity
      (sum_Z (map snd (sorted_desc snd (count_assignments assignments [])))).
    + apply sum_Z_perm, Permutation_map, sorted_desc_perm.
    + f_equal. apply map_ext. now intros [s c].
  - intros skill count flag H. apply skill_usage_summary_In in H as [H _].
    pose proof (count_assignments_keys assignments []) as Hkeys. simpl in Hkeys.
    assert (Hwf : Dict.wf (count_assignments assignments [])).
    { unfold Dict.wf. rewrite Hkeys. apply fresh_NoDup. }
    assert (Hin : In skill (all_names assignments)).
    { apply (in_map fst) in H. simpl in H. fold (Dict.keys (count_assignments assignments [])) in H.
      rewrite Hkeys in H. now apply fresh_In in H. }
    apply (dict_get_wf _ _ _ Hwf) in H.
    pose proof (count_assignments_count assignments [] skill) as Hc.
    unfold count_of in Hc. rewrite H in Hc. simpl in Hc. rewrite Hc.
    apply (count_occ_In string_dec) in Hin. lia.
Qed.

(* ------------------------------------------------------------------ *)
(** ** A run over the goals of a project *)

Section ProjectRun.

Context {L : PyLib} {Y : YamlLib}.

Lemma assign_goal_and_written goal_name frontmatter body registry sdp_section
    dry_run today r w :
  assign_skills_to_goal goal_name frontmatter body registry sdp_section
    dry_run today = Ok (r, w) ->
  goal r = goal_name /\
  (is_some w = (negb dry_run && nonempty (assigned_skills r))%bool).
Proof.
  unfold assign_skills_to_goal.
  destruct (scoring_loop _ _ _ _ _) as [scores|e]; cbn [bind]; [|discriminate].
  destruct (detect_composite_skills _ _ _) as [ms|e]; cbn [bind]; [|discriminate].
  destruct (primary_loop _ _ _) as [assigned|e]; cbn [bind]; [|discriminate].
  intros [= <- <-]. cbn [goal assigned_skills]. split; [reflexivity|].
  now destruct (negb dry_run && nonempty _)%bool.
Qed.

Lemma assigned_names_nodup goal_name frontmatter body registry sdp_section
    dry_run today r w :
  Dict.wf (get_default (skills registry) []) ->
  assign_skills_to_goal goal_name frontmatter body registry sdp_section
    dry_run today = Ok (r, w) ->
  NoDup (map name (assigned_skills r)).
Proof.
  intros Hwf H.
  destruct (assign_skills_to_goal_shape _ _ _ _ _ _ _ _ _ Hwf H)
    as (all & Hall & _ & Hshape).
  rewrite Hshape, map_app, map_map. simpl.
  change (map (fun x => fst x) (ranked_primary all))
    with (map fst (ranked_primary all)).
  rewrite expansion_entries_names. apply NoDup_app.
  - now apply (ranked_primary_NoDup _ _ _ _ _ Hwf Hall).
  - apply fresh_NoDup.
  - intros x Hx Hf. apply fresh_In in Hf. tauto.
Qed.

Lemma goal_result_facts registry dry_run today goal_file r :
  Dict.wf (get_default (skills registry) []) ->
  goal_result registry dry_run today goal_file r ->
  goal r = gf_name goal_file /\ NoDup (map name (assigned_skills r)).
Proof.
  intros Hwf [w H]. unfold assign_skills_to_goal_file in H.
  destruct (parse_goal_frontmatter (gf_content goal_file)) as [fm body].
  destruct (assign_skills_to_goal _ fm body _ _ _ _) as [[r' w']|e] eqn:E;
    cbn [bind] in H; [|discriminate].
  injection H as <- _. split.
  - now apply (assign_goal_and_written _ _ _ _ _ _ _ _ _ E).
  - now apply (assigned_names_nodup _ _ _ _ _ _ _ _ _ Hwf E).
Qed.

Lemma process_goals_spec goal_files registry dry_run today assignments files
    res files' :
  process_goals goal_files registry dry_run today assignments files
    = Ok (res, files') ->
  exists added written,
    res = assignments ++ added /\ files' = files ++ written /\
    Forall2 (goal_result registry dry_run today) goal_files added /\
    map fst written =
      (if dry_run then []
       else map goal (filter (fun a => nonempty (assigned_skills a)) added)).
Proof.
  revert assignments files res files'.
  induction goal_files as [|gf gfs IH]; intros assignments files res files';
    cbn [process_goals].
  - intros [= <- <-]. exists [], []. rewrite !app_nil_r.
    repeat split; [constructor | now destruct dry_run].
  - destruct (assign_skills_to_goal_file _ _ _ _ _ _) as [[r w]|e] eqn:E;
      cbn [bind]; [|discriminate].
    intros H. apply IH in H as (added & written & -> & -> & Hall & Hw).
    assert (Hr : goal r = gf_name gf /\
                 is_some w = (negb dry_run && nonempty (assigned_skills r))%bool).
    { unfold assign_skills_to_goal_file in E.
      destruct (parse_goal_frontmatter (gf_content gf)) as [fm body].
      destruct (assign_skills_to_goal _ fm body _ _ _ _) as [[r' w']|e'] eqn:E';
        cbn [bind] in E; [|discriminate].
      injection E as <- <-.
      destruct (assign_goal_and_written _ _ _ _ _ _ _ _ _ E') as [Hg Hs].
      split; [exact Hg|]. rewrite <- Hs. now destruct w' as [[? ?]|]. }
    destruct Hr as [Hg Hs].
    exists (r :: added),
           (match w with Some content => [(gf_name gf, content)] | None => [] end
            ++ written).
    split; [now rewrite <- app_assoc|]. split.
    { destruct w; rewrite <- ?app_assoc; reflexivity. }
    split.
    { constructor; [now exists w | exact Hall]. }
    rewrite map_app, Hw. cbn [filter].
    destruct dry_run; simpl in Hs.
    + destruct w; [discriminate | reflexivity].
    + destruct (nonempty (assigned_skills r)); destruct w; try discriminate;
        simpl; now rewrite ?Hg.
Qed.

End ProjectRun.

Lemma summary_count_goals assignments skill count flag :
  (forall a, In a assignments -> NoDup (map name (assigned_skills a))) ->
  NoDup (map goal assignments) ->
  In (skill, count, flag) (skill_usage_summary assignments) ->
  count = Z.of_nat (List.length (goals_using skill assignments)) /\
  1 <= count <= Z.of_nat (List.length assignments).
Proof.
  intros Hnames Hgoals H. apply skill_usage_summary_In in H as [H _].
  pose proof (count_assignments_keys assignments []) as Hkeys. simpl in Hkeys.
  assert (Hwf : Dict.wf (count_assignments assignments [])).
  { unfold Dict.wf. rewrite Hkeys. apply fresh_NoDup. }
  assert (Hin : In skill (all_names assignments)).
  { apply (in_map fst) in H. simpl in H.
    fold (Dict.keys (count_assignments assignments [])) in H.
    rewrite Hkeys in H. now apply fresh_In in H. }
  apply (dict_get_wf _ _ _ Hwf) in H.
  pose proof (count_assignments_count assignments [] skill) as Hc.
  unfold count_of in Hc. rewrite H in Hc. simpl in Hc.
  pose proof (proj1 (count_occ_In string_dec _ _) Hin) as Hpos.
  rewrite count_occ_all_names in Hc, Hpos by exact Hnames.
  pose proof (filter_length_le
    (fun a => Str.mem skill (map name (assigned_skills a))) assignments) as Hle.
  split; [|lia].
  rewrite Hc. unfold goals_using. rewrite nodup_fixed_point.
  - now rewrite length_map.
  - now apply NoDup_map_filter.
Qed.

(** X18. Over the goal files of a project with pairwise distinct names the
    loop of [main] returns one assignment per goal, in order, each under the
    name of its goal and each the one that a run on that goal alone
    returns.  In the usage summary of these assignments the count
    of a skill is the number of goals it is assigned to, between 1 and the
    number of goals.  A dry run writes no file; any other run writes the
    files of the goals that got at least one skill, and no other. *)
Theorem project_run_summary {L : PyLib} {Y : YamlLib} goal_files registry
    dry_run today assignments files :
  Dict.wf (get_default (skills registry) []) ->
  NoDup (map gf_name goal_files) ->
  process_goals goal_files registry dry_run today [] [] = Ok (assignments, files) ->
  Forall2 (goal_result registry dry_run today) goal_files assignments /\
  map goal assignments = map gf_name goal_files /\
  (forall skill count flag,
     In (skill, count, flag) (skill_usage_summary assignments) ->
     count = Z.of_nat (List.length (goals_using skill assignments)) /\
     1 <= count <= Z.of_nat (List.length goal_files)) /\
  map fst files =
    (if dry_run then []
     else map goal (filter (fun a => nonempty (assigned_skills a)) assignments)).
Proof.
  intros Hwf Hnd H.
  apply process_goals_spec in H as (added & written & -> & -> & Hall & Hw).
  simpl.
  assert (Hfacts : map goal added = map gf_name goal_files /\
                   forall a, In a added -> NoDup (map name (assigned_skills a))).
  { clear Hw Hnd. induction Hall as [|gf r gfs rs Hr Hall IH]; simpl.
    - split; [reflexivity | intros a []].
    - destruct (goal_result_facts _ _ _ _ _ Hwf Hr) as [Hg Hn].
      destruct IH as [IHg IHn]. split; [now rewrite Hg, IHg|].
      intros a [<- | Ha]; auto. }
  destruct Hfacts as [Hgoals Hnames].
  split; [exact Hall|]. split; [exact Hgoals|]. split; [|exact Hw].
  intros skill count flag Hrow.
  assert (Hlen : List.length added = List.length goal_files).
  { rewrite <- (length_map goal added), Hgoals. apply length_map. }
  rewrite <- Hlen. apply (summary_count_goals added skill count flag); auto.
  now rewrite Hgoals.
Qed.

Lemma project_run_summary_witness :
  Dict.wf (get_default (skills example_registry) []) /\
  NoDup (map gf_name example_goal_files) /\
  exists assignments files,
    process_goals (L := example_lib) (Y := TitleYaml) example_goal_files
      example_registry false "2026-01-01" [] [] = Ok (assignments, files) /\
    skill_usage_summary assignments =
      [("frontend-design", 2, false); ("api-design", 1, false);
       ("database-design", 1, false)] /\
    map fst files = ["build-dashboard"; "build-inventory-crud"] /\
    map goal assignments = map gf_name example_goal_files.
Proof.
  assert (Hnd : NoDup (map gf_name example_goal_files)).
  { simpl. repeat constructor; simpl; intuition discriminate. }
  split; [exact example_registry_wf|]. split; [exact Hnd|].
  eexists. eexists. split; [vm_compute; reflexivity|].
  split; [reflexivity|]. split; [reflexivity|].
  refine (proj1 (proj2 (project_run_summary (L := example_lib) (Y := TitleYaml)
            example_goal_files example_registry false "2026-01-01" _ _
            example_registry_wf Hnd _))).
  vm_compute. reflexivity.
Defined.

Section MainLoopFacts.

Context {L : PyLib} {Y : YamlLib}.

(** The loop returns what it leaves when no exception ended it, and raises
    the exception that did. *)
Lemma process_goals_main_loop goal_files registry dry_run today assignments
    files :
  process_goals goal_files registry dry_run today assignments files =
  match main_loop goal_files registry dry_run today assignments files with
  | (assignments', files', None) => Ok (assignments', files')
  | (_, _, Some e) => Raise e
  end.
Proof.
  revert assignments files.
  induction goal_files as [|gf gfs IH]; intros assignments files;
    cbn [process_goals main_loop]; [reflexivity|].
  destruct (assign_skills_to_goal_file _ _ _ _ _ _) as [[r w]|e]; cbn [bind];
    [apply IH | reflexivity].
Qed.

(** The loop ends with an exception exactly at the first goal that raises,
    and leaves what the loop over the goals before that one returns. *)
Lemma main_loop_raise goal_files registry dry_run today assignments files
    assignments' files' e :
  main_loop goal_files registry dry_run today assignments files
    = (assignments', files', Some e) <->
  exists done goal_file rest,
    goal_files = done ++ goal_file :: rest /\
    process_goals done registry dry_run today assignments files
      = Ok (assignments', files') /\
    assign_skills_to_goal_file (gf_name goal_file) (gf_content goal_file)
      registry (gf_section goal_file) dry_run today = Raise e.
Proof.
  revert assignments files.
  induction goal_files as [|gf gfs IH]; intros assignments files;
    cbn [main_loop].
  - split; [discriminate|].
    intros (done & g & rest & H & _). now destruct done.
  - destruct (assign_skills_to_goal_file (gf_name gf) _ _ _ _ _)
      as [[r w]|e'] eqn:E.
    + rewrite IH. split.
      * intros (done & g & rest & -> & Hdone & Hg).
        exists (gf :: done), g, rest. split; [reflexivity|].
        split; [|exact Hg]. cbn [process_goals]. now rewrite E.
      * intros (done & g & rest & Hsplit & Hdone & Hg).
        destruct done as [|d done]; cbn [app] in Hsplit;
          injection Hsplit as <- ->.
        { congruence. }
        cbn [process_goals] in Hdone. rewrite E in Hdone. cbn [bind] in Hdone.
        now exists done, g, rest.
    + split.
      * intros [= <- <- <-]. now exists [], gf, gfs.
      * intros (done & g & rest & Hsplit & Hdone & Hg).
        destruct done as [|d done]; cbn [app] in Hsplit;
          injection Hsplit as <- ->.
        { cbn [process_goals] in Hdone. congruence. }
        cbn [process_goals] in Hdone. rewrite E in Hdone. discriminate.
Qed.

End MainLoopFacts.

(** X19. The loop of [main] has no handler.  It raises exactly when some
    goal raises while every goal before it returns, and then it raises what
    that goal raises, whatever the goals after it are: they are not
    processed.  What the loop leaves behind is what the loop over the goals
    before the failing one returns: their assignments and their files, and
    nothing of the failing goal or of a later one. *)
Theorem project_run_raises {L : PyLib} {Y : YamlLib} goal_files registry
    dry_run today :
  process_goals goal_files registry dry_run today [] [] =
    match main_loop goal_files registry dry_run today [] [] with
    | (assignments, files, None) => Ok (assignments, files)
    | (_, _, Some e) => Raise e
    end /\
  (forall assignments files e,
     main_loop goal_files registry dry_run today [] []
       = (assignments, files, Some e) <->
     exists done goal_file rest,
       goal_files = done ++ goal_file :: rest /\
       process_goals done registry dry_run today [] [] = Ok (assignments, files) /\
       assign_skills_to_goal_file (gf_name goal_file) (gf_content goal_file)
         registry (gf_section goal_file) dry_run today = Raise e) /\
  (forall e,
     process_goals goal_files registry dry_run today [] [] = Raise e <->
     exists done goal_file rest assignments files,
       goal_files = done ++ goal_file :: rest /\
       process_goals done registry dry_run today [] [] = Ok (assignments, files) /\
       Forall2 (goal_result registry dry_run today) done assignments /\
       assign_skills_to_goal_file (gf_name goal_file) (gf_content goal_file)
         registry (gf_section goal_file) dry_run today = Raise e) /\
  (forall done goal_file assignments files e,
     goal_files = done ++ [goal_file] ->
     process_goals done registry dry_run today [] [] = Ok (assignments, files) ->
     assign_skills_to_goal_file (gf_name goal_file) (gf_content goal_file)
       registry (gf_section goal_file) dry_run today = Raise e ->
     forall rest,
       main_loop (goal_files ++ rest) registry dry_run today [] []
         = (assignments, files, Some e) /\
       process_goals (goal_files ++ rest) registry dry_run today [] []
         = Raise e).
Proof.
  split; [apply process_goals_main_loop|].
  split; [intros assignments files e; apply main_loop_raise|].
  assert (Hraise : forall gfs e,
    process_goals gfs registry dry_run today [] [] = Raise e <->
    exists done goal_file rest assignments files,
      gfs = done ++ goal_file :: rest /\
      process_goals done registry dry_run today [] [] = Ok (assignments, files) /\
      Forall2 (goal_result registry dry_run today) done assignments /\
      assign_skills_to_goal_file (gf_name goal_file) (gf_content goal_file)
        registry (gf_section goal_file) dry_run today = Raise e).
  { intros gfs e. rewrite process_goals_main_loop. split.
    - destruct (main_loop gfs registry dry_run today [] [])
        as [[assignments files] [e'|]] eqn:E; [|discriminate].
      intros [= ->].
      apply main_loop_raise in E as (done & g & rest & Hsplit & Hdone & Hg).
      exists done, g, rest, assignments, files.
      split; [exact Hsplit|]. split; [exact Hdone|]. split; [|exact Hg].
      apply process_goals_spec in Hdone
        as (added & written & -> & _ & Hall & _). exact Hall.
    - intros (done & g & rest & assignments & files & Hsplit & Hdone & _ & Hg).
      assert (E : main_loop gfs registry dry_run today [] []
                  = (assignments, files, Some e)).
      { apply main_loop_raise. now exists done, g, rest. }
      now rewrite E. }
  split; [intros e; apply Hraise|].
  intros done g assignments files e -> Hdone Hg rest.
  assert (E : main_loop ((done ++ [g]) ++ rest) registry dry_run today [] []
              = (assignments, files, Some e)).
  { apply main_loop_raise. exists done, g, rest.
    split; [now rewrite <- app_assoc | now split]. }
  split; [exact E|]. now rewrite process_goals_main_loop, E.
Qed.

Lemma project_run_raises_witness :
  exists assignments files,
    main_loop (L := example_lib) (Y := BlockYaml) three_goal_files
      broken_registry false "2026-01-01" [] []
      = (assignments, files, Some (KeyError "skills")) /\
    map goal assignments = ["build-dashboard"] /\
    map fst files = ["build-dashboard"] /\
    process_goals (L := example_lib) (Y := BlockYaml) three_goal_files
      broken_registry false "2026-01-01" [] [] = Raise (KeyError "skills") /\
    (exists r w,
       assign_skills_to_goal_file (L := example_lib) (Y := BlockYaml)
         "build-profile" profile_file broken_registry None false "2026-01-01"
         = Ok (r, Some w)) /\
    exists done goal_file rest,
      three_goal_files = done ++ goal_file :: rest /\
      process_goals (L := example_lib) (Y := BlockYaml) done broken_registry
        false "2026-01-01" [] [] = Ok (assignments, files) /\
      assign_skills_to_goal_file (L := example_lib) (Y := BlockYaml)
        (gf_name goal_file) (gf_content goal_file) broken_registry
        (gf_section goal_file) false "2026-01-01" = Raise (KeyError "skills").
Proof.
  eexists. eexists.
  split; [vm_compute; reflexivity|].
  split; [reflexivity|]. split; [reflexivity|].
  split; [vm_compute; reflexivity|].
  split; [eexists; eexists; vm_compute; reflexivity|].
  apply (proj1 (proj1 (proj2 (project_run_raises (L := example_lib)
           (Y := BlockYaml) three_goal_files broken_registry false
           "2026-01-01")) _ _ _)).
  vm_compute. reflexivity.
Defined.
